(** * convert_dlib_nets_to_caffe: the layer list, the reference resolver,
      the layer translator and the parameter relayout

    A shallow embedding of [tools/convert_dlib_nets_to_caffe/main.cpp].

    - a [dlib::error] that is thrown becomes the [Throw] outcome of [result];
      a call that leaves the contract of the library ([i--] before
      [rbegin()], [rowm] with a row out of range, [pop] on an empty stack)
      becomes [Undefined];
    - the output stream [fout] is the text written so far, threaded through
      the translation by the [ostream] monad;
    - a reverse iterator over the layer vector is its offset from [rbegin()];
    - [double], its comparison with zero, its conversions and its printing are
      the fields of the class [Numeric]: nothing below depends on the floating
      point format. *)

From Stdlib Require Import String Ascii DecimalString DecimalPos DecimalZ ZArith Bool List Lia.
Import ListNotations.
Local Open Scope string_scope.
Local Open Scope Z_scope.

(** ** Outcomes *)

(** The exceptions that reach [main]'s handler.  [error] is the
    [dlib::error] thrown by main.cpp itself, with its message; the two others
    are thrown by the library calls [atts[key]] and [sa = ...]. *)
Inductive exception : Type :=
| error (what : string)
| xml_attribute_list_error (key : string)
| string_cast_error (text : string).

Inductive result (A : Type) : Type :=
| Ok (a : A)
| Throw (e : exception)
| Undefined.

Arguments Ok {A} a.
Arguments Throw {A} e.
Arguments Undefined {A}.

Definition rbind {A B} (r : result A) (k : A -> result B) : result B :=
  match r with
  | Ok a => k a
  | Throw e => Throw e
  | Undefined => Undefined
  end.

Declare Scope result_scope.
Delimit Scope result_scope with result.
Notation "x <- r ;; k" := (rbind r (fun x => k))
  (at level 61, r at next level, right associativity) : result_scope.

(** ** The output stream

    [ostream A] is a computation that appends to the text already written and
    ends in a [result]: what was written before an exception stays written. *)

Definition ostream (A : Type) : Type := string -> string * result A.

Definition oret {A} (a : A) : ostream A := fun s => (s, Ok a).

Definition obind {A B} (m : ostream A) (k : A -> ostream B) : ostream B :=
  fun s =>
    match m s with
    | (s', Ok a) => k a s'
    | (s', Throw e) => (s', Throw e)
    | (s', Undefined) => (s', Undefined)
    end.

Definition lift {A} (r : result A) : ostream A := fun s => (s, r).
Definition throw {A} (e : exception) : ostream A := lift (Throw e).
Definition put (text : string) : ostream unit := fun s => (s ++ text, Ok tt).

Declare Scope ostream_scope.
Delimit Scope ostream_scope with ostream.
Notation "x <- m ;; k" := (obind m (fun x => k))
  (at level 61, m at next level, right associativity) : ostream_scope.
Notation "m ;; k" := (obind m (fun _ => k))
  (at level 61, right associativity) : ostream_scope.

Fixpoint for_each {A} (xs : list A) (body : A -> ostream unit) : ostream unit :=
  match xs with
  | [] => oret tt
  | x :: rest => obind (body x) (fun _ => for_each rest body)
  end.

(** ** Text *)

Definition endl : string := String (ascii_of_nat 10) EmptyString.
Definition dquote : string := String (ascii_of_nat 34) EmptyString.

(** [std::to_string] on an [int]. *)
Definition to_string (n : Z) : string := NilZero.string_of_int (Z.to_int n).

Definition is_delim (delims : string) (c : ascii) : bool :=
  existsb (Ascii.eqb c) (list_ascii_of_string delims).

(** Modelled from the spec: dlib's string.h is not among the sources;
    [left_substr str delim] is the part of [str] before the first character
    that occurs in [delim] ("strip content after the first period"). *)
Fixpoint left_substr (str delims : string) : string :=
  match str with
  | EmptyString => EmptyString
  | String c rest =>
      if is_delim delims c then EmptyString else String c (left_substr rest delims)
  end.

(** ** Matrices *)

Section Matrix.
Context {T : Type}.

(** Modelled from the spec: dlib's matrix.h ([matrix], [range], [rowm],
    [trans]) is not among the sources.  A matrix is "a 2-D numeric tensor
    (rows x cols)": the list of its rows, every row of the same length
    ([rectangular]). *)
Definition matrix : Type := list (list T).

Definition rectangular (m : matrix) : Prop :=
  forall r r', In r m -> In r' m -> length r = length r'.

Definition column_vector (m : matrix) : Prop :=
  forall r, In r m -> length r = 1%nat.

Definition mat_nr (m : matrix) : Z := Z.of_nat (length m).
Definition mat_nc (m : matrix) : Z := Z.of_nat (length (hd [] m)).
Definition mat_size (m : matrix) : Z := mat_nr m * mat_nc m.

(** The elements in the order [for (auto x : m)] visits them. *)
Definition elements (m : matrix) : list T := concat m.

(** Modelled from the spec: [range(a,b)] of dlib's matrix.h, by its
    documented contract: the indices from [a] to [b], counting up when
    [a <= b] and down otherwise, so always [|b - a| + 1] of them and never
    none.  The library asks for [a >= 0] and [b >= 0]; a negative index is
    refused where the range is used, by [rowm]. *)
Definition range (a b : Z) : list Z :=
  if a <=? b
  then map (fun k => a + Z.of_nat k) (seq 0 (Z.to_nat (b - a + 1)))
  else map (fun k => a - Z.of_nat k) (seq 0 (Z.to_nat (a - b + 1))).

Definition row_in_range (m : matrix) (r : Z) : bool :=
  (0 <=? r) && (r <? mat_nr m).

(** Modelled from the spec: [rowm(m, rows)] of dlib's matrix.h, the rows of
    [m] that [rows] lists, in that order; its contract requires
    [0 <= min(rows)] and [max(rows) < m.nr()]. *)
Definition rowm (m : matrix) (rows : list Z) : result matrix :=
  if forallb (row_in_range m) rows
  then Ok (map (fun r => nth (Z.to_nat r) m []) rows)
  else Undefined.

(** Modelled from the spec: [rowm(m, row)] of dlib's matrix.h, one row of
    [m]; its contract requires [0 <= row < m.nr()]. *)
Definition rowm1 (m : matrix) (row : Z) : result matrix :=
  if row_in_range m row then Ok [nth (Z.to_nat row) m []] else Undefined.

Definition column (m : matrix) (c : nat) : list T :=
  flat_map (fun r => match nth_error r c with Some x => [x] | None => [] end) m.

(** Modelled from the spec: [trans(m)] of dlib's matrix.h, the transpose:
    its rows are the columns of [m]. *)
Definition trans (m : matrix) : matrix :=
  map (column m) (seq 0 (length (hd [] m))).
End Matrix.

Arguments matrix T : clear implicits.

(** ** The converter *)

(** [double] and the operations of the C++ language and of the library on
    it, and the two library readers the handler calls. *)
Class Numeric : Type := {
  double : Type;
  (** [x == 0]; [x != 0] is its negation. *)
  double_is_zero : double -> bool;
  (** The implicit conversion of a [double] to [long]. *)
  double_to_long : double -> Z;
  (** Whether that conversion is defined: the value, with its fraction
      dropped, is one of [long].  It is not for the other values, for
      infinities and for NaN, and [double_to_long] says nothing of them. *)
  double_fits_long : double -> bool;
  (** [fout << x] at the precision the stream was given. *)
  print_double : double -> string;
  (** [sa = text], dlib's string_assign, at the three types it is used at:
      [None] is a failed cast. *)
  sa_int : string -> option Z;
  sa_long : string -> option Z;
  sa_double : string -> option double;
  (** [sin >> m] on text content: the matrix [m] holds afterwards, given the
      text and the matrix it held before. *)
  read_matrix : string -> matrix double -> matrix double
}.

Section Converter.
Context `{N : Numeric}.

(** *** Layer records *)

(** Only these computational layers have parameters. *)
Definition comp_tags_with_params : list string :=
  ["fc"; "fc_no_bias"; "con"; "affine_con"; "affine_fc"; "affine"; "prelu"].

Record layer : Type := mk_layer {
  type : string;        (* comp, loss, or input *)
  idx : Z;
  detail_name : string; (* the name of the tag inside the layer tag *)
  attributes : list (string * double);
  params : matrix double;
  tag_id : Z;           (* -1: not tagged *)
  skip_id : Z           (* -1: input is the immediate predecessor *)
}.

(** [layer()]. *)
Definition empty_layer : layer :=
  mk_layer "" 0 "" [] [] (-1) (-1).

Fixpoint find_attribute (atts : list (string * double)) (key : string)
  : option double :=
  match atts with
  | [] => None
  | (k, v) :: rest => if String.eqb k key then Some v else find_attribute rest key
  end.

(** [attributes[key] = v]: the newest binding of a key is the one found. *)
Definition set_attribute (atts : list (string * double)) (key : string) (v : double)
  : list (string * double) :=
  (key, v) :: atts.

Definition attribute (l : layer) (key : string) : result double :=
  match find_attribute (attributes l) key with
  | Some v => Ok v
  | None => Throw (error ("Layer doesn't have the requested attribute '" ++ key ++ "'."))
  end.

Definition caffe_layer_name (l : layer) : string :=
  if String.eqb (type l) "input" then "data"
  else detail_name l ++ to_string (idx l).

(** *** Reference resolver *)

(** The layer a reverse iterator points to: [layers.rbegin() + i]
    designates [layers[layers.size() - 1 - i]]. *)
Definition riter_layer (layers : list layer) (i : nat) : option layer :=
  nth_error (rev layers) i.

Definition skip_error : exception :=
  error "Network definition is bad, a layer wanted to skip back to a non-existing layer.".

(** The [while(true)] loop of [find_layer_caffe_name]: every turn begins
    with [i--], so the offset from [rbegin()] is the loop's measure. *)
Fixpoint skip_scan (layers : list layer) (i : nat) (tag : Z) : result string :=
  match i with
  | O => Undefined
  | S j =>
      match riter_layer layers j with
      | None => Undefined
      | Some l =>
          if tag_id l =? tag then Ok (caffe_layer_name l)
          else if String.eqb (type l) "input" then Throw skip_error
          else skip_scan layers j tag
      end
  end.

Definition find_layer_caffe_name (layers : list layer) (i : nat) (tag : Z)
  : result string :=
  if tag =? -1 then
    match i with
    | O => Undefined
    | S j =>
        match riter_layer layers j with
        | None => Undefined
        | Some l => Ok (caffe_layer_name l)
        end
    end
  else skip_scan layers i tag.

Definition find_input_layer_caffe_name (layers : list layer) (i : nat)
  : result string :=
  match riter_layer layers i with
  | None => Undefined
  | Some l => find_layer_caffe_name layers i (skip_id l)
  end.

(** *** Graph builder *)

(** Modelled from the spec: dlib's xml_parser.h ([parse_xml],
    [attribute_list]) is not among the sources.  A document is the sequence
    of events the tokenizer hands to the handler; [atts[key]] throws when
    the key is absent. *)
Definition attribute_list : Type := list (string * string).

Inductive xml_event : Type :=
| StartElement (name : string) (atts : attribute_list)
| EndElement (name : string)
| Characters (data : string)
| ProcessingInstruction (target data : string).

(** Modelled from the spec: [atts[key]] of dlib's xml_parser.h, which throws
    when the element has no attribute of that name. *)
Fixpoint atts_get (atts : attribute_list) (key : string) : result string :=
  match atts with
  | [] => Throw (xml_attribute_list_error key)
  | (k, v) :: rest => if String.eqb k key then Ok v else atts_get rest key
  end.

Definition cast {A} (sa : string -> option A) (text : string) : result A :=
  match sa text with
  | Some v => Ok v
  | None => Throw (string_cast_error text)
  end.

(** The handler's [tag_id] member is [dh_tag_id]: the layer record has a
    field of that name already. *)
Record doc_handler : Type := mk_doc_handler {
  layers : list layer;
  seen_first_tag : bool;
  next_layer : layer;
  current_tag : list string;   (* the stack, top first *)
  dh_tag_id : Z
}.

Definition new_doc_handler : doc_handler :=
  mk_doc_handler [] false empty_layer [] (-1).

Definition start_document (dh : doc_handler) : doc_handler :=
  mk_doc_handler [] false (next_layer dh) (current_tag dh) (-1).

Definition with_skip_id (l : layer) (id : Z) : layer :=
  mk_layer (type l) (idx l) (detail_name l) (attributes l) (params l) (tag_id l) id.

(** [layers.back().skip_id = id] on a non-empty vector. *)
Definition set_back_skip_id (ls : list layer) (id : Z) : list layer :=
  removelast ls ++ [with_skip_id (last ls empty_layer) id].

(** The loop over the attributes of the detail element. *)
Fixpoint copy_attributes (atts : attribute_list) (acc : list (string * double))
  : result (list (string * double)) :=
  match atts with
  | [] => Ok acc
  | (k, text) :: rest =>
      (v <- cast sa_double text ;;
       copy_attributes rest (set_attribute acc k v))%result
  end.

Definition start_layer (dh : doc_handler) (atts : attribute_list)
  : result doc_handler :=
  (let dh := mk_doc_handler (layers dh) (seen_first_tag dh) empty_layer
               (current_tag dh) (dh_tag_id dh) in
   ty <- atts_get atts "type" ;;
   if String.eqb ty "skip" then
     if (length (layers dh) =? 0)%nat then
       Throw (error "A skip layer was found as the first layer, but the first layer should be an input layer.")
     else
       text <- atts_get atts "id" ;;
       id <- cast sa_long text ;;
       Ok (mk_doc_handler (set_back_skip_id (layers dh) id) (seen_first_tag dh)
             (next_layer dh) (current_tag dh) (dh_tag_id dh))
   else if String.eqb ty "tag" then
     text <- atts_get atts "id" ;;
     id <- cast sa_long text ;;
     Ok (mk_doc_handler (layers dh) (seen_first_tag dh) (next_layer dh)
           (current_tag dh) id)
   else
     text <- atts_get atts "idx" ;;
     i <- cast sa_int text ;;
     let nl := next_layer dh in
     if negb (dh_tag_id dh =? -1) then
       Ok (mk_doc_handler (layers dh) (seen_first_tag dh)
             (mk_layer ty i (detail_name nl) (attributes nl) (params nl)
                (dh_tag_id dh) (skip_id nl))
             (current_tag dh) (-1))
     else
       Ok (mk_doc_handler (layers dh) (seen_first_tag dh)
             (mk_layer ty i (detail_name nl) (attributes nl) (params nl)
                (tag_id nl) (skip_id nl))
             (current_tag dh) (dh_tag_id dh)))%result.

Definition start_detail (dh : doc_handler) (name : string) (atts : attribute_list)
  : result doc_handler :=
  (let nl := next_layer dh in
   a <- copy_attributes atts (attributes nl) ;;
   Ok (mk_doc_handler (layers dh) (seen_first_tag dh)
         (mk_layer (type nl) (idx nl) name a (params nl) (tag_id nl) (skip_id nl))
         (current_tag dh) (dh_tag_id dh)))%result.

Definition top_is (stack : list string) (name : string) : bool :=
  match stack with
  | [] => false
  | top :: _ => String.eqb top name
  end.

Definition start_element (dh : doc_handler) (name : string) (atts : attribute_list)
  : result doc_handler :=
  (dh <- (if negb (seen_first_tag dh) then
            if negb (String.eqb name "net") then
              Throw (error "The top level XML tag must be a 'net' tag.")
            else Ok (mk_doc_handler (layers dh) true (next_layer dh)
                       (current_tag dh) (dh_tag_id dh))
          else Ok dh) ;;
   dh <- (if String.eqb name "layer" then start_layer dh atts
          else if top_is (current_tag dh) "layer" then start_detail dh name atts
          else Ok dh) ;;
   Ok (mk_doc_handler (layers dh) (seen_first_tag dh) (next_layer dh)
         (name :: current_tag dh) (dh_tag_id dh)))%result.

Definition end_element (dh : doc_handler) (name : string) : result doc_handler :=
  match current_tag dh with
  | [] => Undefined
  | _ :: stack =>
      if String.eqb name "layer" && negb (String.length (type (next_layer dh)) =? 0)%nat
      then Ok (mk_doc_handler (layers dh ++ [next_layer dh]) (seen_first_tag dh)
                 (next_layer dh) stack (dh_tag_id dh))
      else Ok (mk_doc_handler (layers dh) (seen_first_tag dh) (next_layer dh)
                 stack (dh_tag_id dh))
  end.

Definition characters (dh : doc_handler) (data : string) : doc_handler :=
  match current_tag dh with
  | [] => dh
  | top :: _ =>
      if existsb (String.eqb top) comp_tags_with_params then
        let nl := next_layer dh in
        mk_doc_handler (layers dh) (seen_first_tag dh)
          (mk_layer (type nl) (idx nl) (detail_name nl) (attributes nl)
             (read_matrix data (params nl)) (tag_id nl) (skip_id nl))
          (current_tag dh) (dh_tag_id dh)
      else dh
  end.

Definition handle (dh : doc_handler) (ev : xml_event) : result doc_handler :=
  match ev with
  | StartElement name atts => start_element dh name atts
  | EndElement name => end_element dh name
  | Characters data => Ok (characters dh data)
  | ProcessingInstruction _ _ => Ok dh
  end.

Fixpoint dispatch (dh : doc_handler) (document : list xml_event)
  : result doc_handler :=
  match document with
  | [] => Ok dh
  | ev :: rest => (dh' <- handle dh ev ;; dispatch dh' rest)%result
  end.

(** Modelled from the spec: [parse_xml(xml_filename, dh)] of dlib's
    xml_parser.h, which hands the events of the document to the handler in
    order, after [start_document]. *)
Definition parse_xml (document : list xml_event) (dh : doc_handler)
  : result doc_handler :=
  dispatch (start_document dh) document.

Definition parse_dlib_xml (document : list xml_event) : result (list layer) :=
  (dh <- parse_xml document new_doc_handler ;;
   if (length (layers dh) =? 0)%nat then
     Throw (error "No layers found in XML file!")
   else if negb (String.eqb (type (last (layers dh) empty_layer)) "input") then
     Throw (error "The network in the XML file is missing an input layer!")
   else Ok (layers dh))%result.

(** *** Layer translator *)

Local Open Scope ostream_scope.

(** The operands of a chain of [<<] are written and evaluated from left to
    right: an attribute that is missing throws after its label was
    written. *)
Definition put_attribute (label : string) (l : layer) (key : string)
  : ostream unit :=
  put label ;;
  v <- lift (attribute l key) ;;
  put (print_double v).

Definition put_head (layers : list layer) (i : nat) (l : layer) (caffe_type : string)
  : ostream unit :=
  put "    n." ;; put (caffe_layer_name l) ;;
  put (" = L." ++ caffe_type ++ "(n.") ;;
  name <- lift (find_input_layer_caffe_name layers i) ;;
  put name.

Definition close_declaration : ostream unit := put (");" ++ endl).

Definition padding_error : exception :=
  error ("dlib and caffe implement pooling with non-zero padding differently, so you can't convert a "
         ++ "network with such pooling layers.").

(** [attribute("padding_x") != 0 || attribute("padding_y") != 0] *)
Definition has_padding (l : layer) : result bool :=
  (px <- attribute l "padding_x" ;;
   if negb (double_is_zero px) then Ok true
   else py <- attribute l "padding_y" ;; Ok (negb (double_is_zero py)))%result.

(** The branches for max_pool and avg_pool, which differ in the [pool]
    constant only. *)
Definition pooling (layers : list layer) (i : nat) (l : layer) (pool : string)
  : ostream unit :=
  put_head layers i l "Pooling" ;;
  put (", pool=P.Pooling." ++ pool) ;;
  nc <- lift (attribute l "nc") ;;
  (if double_is_zero nc then put ", global_pooling=True"
   else put_attribute ", kernel_w=" l "nc" ;;
        put_attribute ", kernel_h=" l "nr") ;;
  padded <- lift (has_padding l) ;;
  (if padded : bool then throw padding_error else oret tt) ;;
  put_attribute ", stride_w=" l "stride_x" ;;
  put_attribute ", stride_h=" l "stride_y" ;;
  put_attribute ", pad_w=" l "padding_x" ;;
  put_attribute ", pad_h=" l "padding_y" ;;
  close_declaration.

Definition unknown_layer_error (name : string) : exception :=
  error ("No known transformation from dlib's " ++ name ++ " layer to caffe.").

Definition batch_norm_error : exception :=
  error ("Conversion from dlib's batch norm layers to caffe's isn't supported.  Instead, "
         ++ "you should put your network into 'test mode' by switching batch norm layers to affine layers.").

Definition detail_is (l : layer) (name : string) : bool := String.eqb (detail_name l) name.

Definition skipped (l : layer) : bool :=
  String.eqb (type l) "loss" || String.eqb (type l) "input".

(** The body of the first loop, at the layer [i] points to. *)
Definition declare_layer (layers : list layer) (i : nat) : ostream unit :=
  match riter_layer layers i with
  | None => lift Undefined
  | Some l =>
      if skipped l then oret tt
      else if detail_is l "con" then
        put_head layers i l "Convolution" ;;
        put_attribute ", num_output=" l "num_filters" ;;
        put_attribute ", kernel_w=" l "nc" ;;
        put_attribute ", kernel_h=" l "nr" ;;
        put_attribute ", stride_w=" l "stride_x" ;;
        put_attribute ", stride_h=" l "stride_y" ;;
        put_attribute ", pad_w=" l "padding_x" ;;
        put_attribute ", pad_h=" l "padding_y" ;;
        close_declaration
      else if detail_is l "relu" then
        put_head layers i l "ReLU" ;;
        close_declaration
      else if detail_is l "max_pool" then pooling layers i l "MAX"
      else if detail_is l "avg_pool" then pooling layers i l "AVE"
      else if detail_is l "fc" then
        put_head layers i l "InnerProduct" ;;
        put_attribute ", num_output=" l "num_outputs" ;;
        put ", bias_term=True" ;;
        close_declaration
      else if detail_is l "fc_no_bias" then
        put_head layers i l "InnerProduct" ;;
        put_attribute ", num_output=" l "num_outputs" ;;
        put ", bias_term=False" ;;
        close_declaration
      else if detail_is l "bn_con" || detail_is l "bn_fc" then throw batch_norm_error
      else if detail_is l "affine_con" then
        put_head layers i l "Scale" ;;
        put ", axis=1" ;;
        put ", bias_term=True" ;;
        close_declaration
      else if detail_is l "affine_fc" then
        put_head layers i l "Scale" ;;
        put ", axis=3" ;;
        put ", bias_term=True" ;;
        close_declaration
      else if detail_is l "add_prev" then
        put_head layers i l "Eltwise" ;;
        put ", n." ;;
        tag <- lift (attribute l "tag") ;;
        name <- lift (find_layer_caffe_name layers i (double_to_long tag)) ;;
        put name ;;
        put ", operation=P.Eltwise.SUM" ;;
        close_declaration
      else throw (unknown_layer_error (detail_name l))
  end.

(** *** Parameter relayout *)

Definition print_as_np_array (m : matrix double) : ostream unit :=
  put "np.array([" ;;
  for_each (elements m) (fun x => put (print_double x) ;; put ",") ;;
  put "], dtype='float32')".

(** The weights and biases of a [con] layer. *)
Definition con_blocks (l : layer) : result (matrix double * matrix double) :=
  (nf <- attribute l "num_filters" ;;
   let num_filters := double_to_long nf in
   let size := mat_size (params l) in
   w <- rowm (params l) (range 0 (size - num_filters - 1)) ;;
   b <- rowm (params l) (range (size - num_filters) (size - 1)) ;;
   Ok (trans w, trans b))%result.

(** The weights and biases of an [fc] layer. *)
Definition fc_blocks (l : layer) : result (matrix double * matrix double) :=
  (w <- rowm (params l) (range 0 (mat_nr (params l) - 2)) ;;
   b <- rowm1 (params l) (mat_nr (params l) - 1) ;;
   Ok (trans w, b))%result.

(** The weights of an [fc_no_bias] layer. *)
Definition fc_no_bias_blocks (l : layer) : matrix double := trans (params l).

(** Gamma and beta of an [affine_con] or [affine_fc] layer. *)
Definition affine_blocks (l : layer) : result (matrix double * matrix double) :=
  (let dims := mat_size (params l) / 2 in
   g <- rowm (params l) (range 0 (dims - 1)) ;;
   b <- rowm (params l) (range dims (2 * dims - 1)) ;;
   Ok (trans g, trans b))%result.

(** The target tensors of a layer, in the order they are emitted. *)
Definition relayout (l : layer) : result (list (matrix double)) :=
  (if detail_is l "con" then wb <- con_blocks l ;; Ok [fst wb; snd wb]
   else if detail_is l "fc" then wb <- fc_blocks l ;; Ok [fst wb; snd wb]
   else if detail_is l "fc_no_bias" then Ok [fc_no_bias_blocks l]
   else if detail_is l "affine_con" || detail_is l "affine_fc" then
     gb <- affine_blocks l ;; Ok [fst gb; snd gb]
   else Ok [])%result.

(** One tensor assigned to parameter slot [slot] of the declared layer. *)
Definition put_block (l : layer) (slot : string) (m : matrix double) : ostream unit :=
  put "    p = " ;; print_as_np_array m ;; put (";" ++ endl) ;;
  put "    p.shape = net.params['" ;; put (caffe_layer_name l) ;;
  put ("'][" ++ slot ++ "].data.shape;" ++ endl) ;;
  put "    net.params['" ;; put (caffe_layer_name l) ;;
  put ("'][" ++ slot ++ "].data[:] = p;" ++ endl).

(** The body of the second loop, at the layer [i] points to. *)
Definition set_layer_weights (layers : list layer) (i : nat) : ostream unit :=
  match riter_layer layers i with
  | None => lift Undefined
  | Some l =>
      if skipped l then oret tt
      else
        blocks <- lift (relayout l) ;;
        match blocks with
        | [b0] => put_block l "0" b0
        | [b0; b1] => put_block l "0" b0 ;; put_block l "1" b1
        | _ => oret tt
        end
  end.

(** *** The conversion of one document *)

Definition default_size_warning : string :=
  " #WARNING, the source dlib network didn't commit to a specific input size, so we put 28 here as a default.".

Definition input_dimensions (input : layer) : ostream unit :=
  if detail_is input "input_rgb_image" then
    put ("input_nr = 28;" ++ default_size_warning ++ endl) ;;
    put ("input_nc = 28;" ++ default_size_warning ++ endl) ;;
    put ("input_k = 3;" ++ endl)
  else if detail_is input "input_rgb_image_sized" then
    put_attribute "input_nr = " input "nr" ;; put (";" ++ endl) ;;
    put_attribute "input_nc = " input "nc" ;; put (";" ++ endl) ;;
    put ("input_k = 3;" ++ endl)
  else if detail_is input "input" then
    put ("input_nr = 28;" ++ default_size_warning ++ endl) ;;
    put ("input_nc = 28;" ++ default_size_warning ++ endl) ;;
    put ("input_k = 1;" ++ endl)
  else throw (unknown_layer_error (detail_name input)).

(** What [fout] holds when the input dimensions are looked at. *)
Definition preamble : string :=
  "import caffe " ++ endl
  ++ "from caffe import layers as L, params as P" ++ endl
  ++ "import numpy as np" ++ endl
  ++ endl ++ "# Input tensor dimensions" ++ endl
  ++ "batch_size = 1;" ++ endl.

Definition write_model (document : list xml_event) : ostream unit :=
  layers <- lift (parse_dlib_xml document) ;;
  put ("import caffe " ++ endl) ;;
  put ("from caffe import layers as L, params as P" ++ endl) ;;
  put ("import numpy as np" ++ endl) ;;
  put (endl ++ "# Input tensor dimensions" ++ endl) ;;
  put ("batch_size = 1;" ++ endl) ;;
  input_dimensions (last layers empty_layer) ;;
  put endl ;;
  put ("def make_netspec():" ++ endl) ;;
  put ("    # For reference, the only " ++ dquote ++ "documentation" ++ dquote
       ++ " about caffe layer parameters seems to be this page:" ++ endl) ;;
  put ("    # https://github.com/BVLC/caffe/blob/master/src/caffe/proto/caffe.proto"
       ++ endl ++ endl) ;;
  put ("    n = caffe.NetSpec(); " ++ endl) ;;
  put ("    n.data,n.label = L.MemoryData(batch_size=batch_size, channels=input_k, height=input_nr, width=input_nc, ntop=2)"
       ++ endl) ;;
  for_each (seq 0 (length layers)) (declare_layer layers) ;;
  put ("    return n.to_proto();" ++ endl ++ endl ++ endl) ;;
  put ("def save_as_caffe_model(def_file, weights_file):" ++ endl) ;;
  put ("    with open(def_file, 'w') as f: f.write(str(make_netspec()));" ++ endl) ;;
  put ("    net = caffe.Net(def_file, caffe.TEST);" ++ endl) ;;
  put ("    set_network_weights(net);" ++ endl) ;;
  put ("    net.save(weights_file);" ++ endl ++ endl) ;;
  put ("def set_network_weights(net):" ++ endl) ;;
  put ("    # populate network parameters" ++ endl) ;;
  for_each (seq 0 (length layers)) (set_layer_weights layers).

(** The file system after the conversion of one document: [ofstream
    fout(out_filename)] creates the file before the document is parsed, so
    the file named [out_filename] exists, with the text [fout], whatever
    the [outcome]. *)
Record conversion : Type := mk_conversion {
  out_filename : string;
  fout : string;
  outcome : result unit
}.

Definition convert_dlib_xml_to_cafffe_python_code
  (xml_filename : string) (document : list xml_event) : conversion :=
  let run := write_model document EmptyString in
  mk_conversion (left_substr xml_filename "." ++ "_dlib_to_caffe_model.py")
    (fst run) (snd run).

Local Close Scope ostream_scope.

End Converter.

(** ** The driver *)

Section Driver.
Context `{N : Numeric}.

(** The loop of [main] over the files named on the command line, each given
    with the document it holds: a conversion that throws ends the loop, and
    the files after it are not opened.  What is printed on [cout] is not
    part of the model. *)
Fixpoint convert_each (files : list (string * list xml_event))
  : list conversion * result unit :=
  match files with
  | [] => ([], Ok tt)
  | (xml_filename, document) :: rest =>
      let c := convert_dlib_xml_to_cafffe_python_code xml_filename document in
      match outcome c with
      | Ok _ => let later := convert_each rest in (c :: fst later, snd later)
      | Throw e => ([c], Throw e)
      | Undefined => ([c], Undefined)
      end
  end.

(** [main]: the conversions that were started, in order, and the exit
    status.  Without arguments it prints the usage and returns 0; the handler
    of the function try block returns 1. *)
Definition main (files : list (string * list xml_event))
  : list conversion * result Z :=
  match files with
  | [] => ([], Ok 0)
  | _ =>
      let run := convert_each files in
      (fst run,
       match snd run with
       | Ok _ => Ok 0
       | Throw _ => Ok 1
       | Undefined => Undefined
       end)
  end.

End Driver.

(** ** Vocabulary of the statements *)

Section Vocabulary.
Context `{N : Numeric}.

(** The reverse iterator that points to [layers[k]]. *)
Definition riter_at (ls : list layer) (k : nat) : nat := (length ls - 1 - k)%nat.

(** No layer strictly between the offsets [q] and [i] stops the scan. *)
Definition passes (ls : list layer) (q i : nat) (t : Z) : Prop :=
  forall m lm, (q < m < i)%nat -> riter_layer ls m = Some lm ->
               tag_id lm <> t /\ type lm <> "input".

(** The same condition on stored positions: [k] is the position of the
    layer the scan starts from, [j] the one it stops at. *)
Definition passes_stored (ls : list layer) (k j : nat) (t : Z) : Prop :=
  forall m lm, (k < m < j)%nat -> nth_error ls m = Some lm ->
               tag_id lm <> t /\ type lm <> "input".

(** The attributes of a tag marker element that carries [id]. *)
Definition is_tag_marker (atts : attribute_list) (id : Z) : Prop :=
  atts_get atts "type" = Ok "tag" /\
  exists text, atts_get atts "id" = Ok text /\ sa_long text = Some id.

(** The attributes of a genuine layer element: neither a skip marker nor a
    tag marker. *)
Definition is_genuine (atts : attribute_list) (ty : string) (i : Z) : Prop :=
  atts_get atts "type" = Ok ty /\ ty <> "skip" /\ ty <> "tag" /\
  exists text, atts_get atts "idx" = Ok text /\ sa_int text = Some i.

(** "All rows except the final [n] rows" and "the final [n] rows". *)
Definition rows_except_last (n : nat) (m : matrix double) : matrix double :=
  firstn (length m - n) m.

Definition last_rows (n : nat) (m : matrix double) : matrix double :=
  skipn (length m - n) m.

(** The number of elements printed for a list of blocks. *)
Definition total_elements (blocks : list (matrix double)) : Z :=
  fold_right (fun b acc => Z.of_nat (length (elements b)) + acc) 0 blocks.

(** The text of a pooling declaration: global pooling when [nc] is zero,
    the kernel dimensions otherwise. *)
Definition pooling_declaration (l : layer) (input_name pool : string)
  (nc nr sx sy px py : double) : string :=
  "    n." ++ caffe_layer_name l ++ " = L.Pooling(n." ++ input_name
  ++ ", pool=P.Pooling." ++ pool
  ++ (if double_is_zero nc then ", global_pooling=True"
      else ", kernel_w=" ++ print_double nc ++ ", kernel_h=" ++ print_double nr)
  ++ ", stride_w=" ++ print_double sx ++ ", stride_h=" ++ print_double sy
  ++ ", pad_w=" ++ print_double px ++ ", pad_h=" ++ print_double py
  ++ ");" ++ endl.

End Vocabulary.

(** ** A sample instance

    Numbers are integers written in decimal, and the text of a parameter
    block is not read. *)

Definition decimal (text : string) : option Z :=
  option_map Z.of_int (NilZero.int_of_string text).

Definition sample_numeric : Numeric := {|
  double := Z;
  double_is_zero := fun x => x =? 0;
  double_to_long := fun x => x;
  double_fits_long := fun x => (- 2 ^ 63 <=? x) && (x <? 2 ^ 63);
  print_double := to_string;
  sa_int := decimal;
  sa_long := decimal;
  sa_double := decimal;
  read_matrix := fun _ m => m
|}.

Definition sample_layer (ty : string) (i : Z) (detail : string)
  (atts : list (string * Z)) (p : matrix Z) (tag skip : Z) : @layer sample_numeric :=
  @mk_layer sample_numeric ty i detail atts p tag skip.

(** A chain with one skip connection: the relu draws its input from the
    layer tagged 1, which is the pooling layer. *)
Definition chain_document : list xml_event :=
  [StartElement "net" [];
   StartElement "layer" [("idx", "0"); ("type", "loss")];
   StartElement "loss_multiclass_log" []; EndElement "loss_multiclass_log";
   EndElement "layer";
   StartElement "layer" [("idx", "1"); ("type", "comp")];
   StartElement "fc_no_bias" [("num_outputs", "10")]; EndElement "fc_no_bias";
   EndElement "layer";
   StartElement "layer" [("idx", "2"); ("type", "comp")];
   StartElement "relu" []; EndElement "relu";
   EndElement "layer";
   StartElement "layer" [("idx", "3"); ("type", "skip"); ("id", "1")];
   EndElement "layer";
   StartElement "layer" [("idx", "4"); ("type", "comp")];
   StartElement "relu" []; EndElement "relu";
   EndElement "layer";
   StartElement "layer" [("idx", "5"); ("type", "tag"); ("id", "1")];
   EndElement "layer";
   StartElement "layer" [("idx", "6"); ("type", "comp")];
   StartElement "max_pool"
     [("nr", "2"); ("nc", "2"); ("stride_y", "2"); ("stride_x", "2");
      ("padding_y", "0"); ("padding_x", "0")];
   EndElement "max_pool";
   EndElement "layer";
   StartElement "layer" [("idx", "7"); ("type", "input")];
   StartElement "input_rgb_image" []; EndElement "input_rgb_image";
   EndElement "layer";
   EndElement "net"].

Definition chain_layers : list (@layer sample_numeric) :=
  [sample_layer "loss" 0 "loss_multiclass_log" [] [] (-1) (-1);
   sample_layer "comp" 1 "fc_no_bias" [("num_outputs", 10)] [] (-1) (-1);
   sample_layer "comp" 2 "relu" [] [] (-1) 1;
   sample_layer "comp" 4 "relu" [] [] (-1) (-1);
   sample_layer "comp" 6 "max_pool"
     [("padding_x", 0); ("padding_y", 0); ("stride_x", 2); ("stride_y", 2);
      ("nc", 2); ("nr", 2)] [] 1 (-1);
   sample_layer "input" 7 "input_rgb_image" [] [] (-1) (-1)].

(** The tag marker stands right before the input layer, and a second tag
    marker closes the document. *)
Definition tagged_input_document : list xml_event :=
  [StartElement "net" [];
   StartElement "layer" [("idx", "0"); ("type", "comp")];
   StartElement "relu" []; EndElement "relu";
   EndElement "layer";
   StartElement "layer" [("idx", "1"); ("type", "skip"); ("id", "2")];
   EndElement "layer";
   StartElement "layer" [("idx", "2"); ("type", "tag"); ("id", "9")];
   EndElement "layer";
   StartElement "layer" [("idx", "3"); ("type", "tag"); ("id", "2")];
   EndElement "layer";
   StartElement "layer" [("idx", "4"); ("type", "input")];
   StartElement "input" []; EndElement "input";
   EndElement "layer";
   StartElement "layer" [("idx", "5"); ("type", "tag"); ("id", "7")];
   EndElement "layer";
   EndElement "net"].

Definition tagged_input_layers : list (@layer sample_numeric) :=
  [sample_layer "comp" 0 "relu" [] [] (-1) 2;
   sample_layer "input" 4 "input" [] [] 2 (-1)].

(** The input layer is of a kind the converter does not know. *)
Definition pyramid_document : list xml_event :=
  [StartElement "net" [];
   StartElement "layer" [("idx", "0"); ("type", "comp")];
   StartElement "relu" []; EndElement "relu";
   EndElement "layer";
   StartElement "layer" [("idx", "1"); ("type", "input")];
   StartElement "input_rgb_image_pyramid" []; EndElement "input_rgb_image_pyramid";
   EndElement "layer";
   EndElement "net"].

(** A pooling layer without padding whose skip marker names a tag that no
    layer carries. *)
Definition dangling_pool_document : list xml_event :=
  [StartElement "net" [];
   StartElement "layer" [("idx", "0"); ("type", "comp")];
   StartElement "max_pool"
     [("nr", "0"); ("nc", "0"); ("stride_y", "1"); ("stride_x", "1");
      ("padding_y", "0"); ("padding_x", "0")];
   EndElement "max_pool";
   EndElement "layer";
   StartElement "layer" [("idx", "1"); ("type", "skip"); ("id", "5")];
   EndElement "layer";
   StartElement "layer" [("idx", "2"); ("type", "input")];
   StartElement "input_rgb_image" []; EndElement "input_rgb_image";
   EndElement "layer";
   EndElement "net"].

Definition dangling_pool_layers : list (@layer sample_numeric) :=
  [sample_layer "comp" 0 "max_pool"
     [("padding_x", 0); ("padding_y", 0); ("stride_x", 1); ("stride_y", 1);
      ("nc", 0); ("nr", 0)] [] (-1) 5;
   sample_layer "input" 2 "input_rgb_image" [] [] (-1) (-1)].

(** A global average pooling layer without padding. *)
Definition global_pool_layers : list (@layer sample_numeric) :=
  [sample_layer "comp" 0 "avg_pool"
     [("padding_x", 0); ("padding_y", 0); ("stride_x", 1); ("stride_y", 1);
      ("nc", 0); ("nr", 0)] [] (-1) (-1);
   sample_layer "input" 1 "input_rgb_image" [] [] (-1) (-1)].

(** An average pooling layer without padding and without strides. *)
Definition strideless_pool_layers : list (@layer sample_numeric) :=
  [sample_layer "comp" 0 "avg_pool"
     [("padding_x", 0); ("padding_y", 0); ("nc", 0); ("nr", 0)] [] (-1) (-1);
   sample_layer "input" 1 "input_rgb_image" [] [] (-1) (-1)].

(** A max pooling layer without padding and without kernel height. *)
Definition heightless_pool_layers : list (@layer sample_numeric) :=
  [sample_layer "comp" 0 "max_pool"
     [("padding_x", 0); ("padding_y", 0); ("stride_x", 1); ("stride_y", 1); ("nc", 3)]
     [] (-1) (-1);
   sample_layer "input" 1 "input_rgb_image" [] [] (-1) (-1)].

(** A padded max pooling layer without strides. *)
Definition padded_pool_layers : list (@layer sample_numeric) :=
  [sample_layer "comp" 0 "max_pool"
     [("padding_x", 1); ("padding_y", 0); ("nc", 3); ("nr", 3)] [] (-1) (-1);
   sample_layer "input" 1 "input_rgb_image" [] [] (-1) (-1)].

(** Parameter blocks. *)
Definition con_layer : @layer sample_numeric :=
  sample_layer "comp" 3 "con" [("num_filters", 2)] [[1]; [2]; [3]; [4]; [5]] (-1) (-1).

Definition con_two_columns_layer : @layer sample_numeric :=
  sample_layer "comp" 3 "con" [("num_filters", 1)] [[1; 2]; [3; 4]] (-1) (-1).

Definition con_only_biases_layer : @layer sample_numeric :=
  sample_layer "comp" 3 "con" [("num_filters", 2)] [[1]; [2]] (-1) (-1).

Definition con_no_biases_layer : @layer sample_numeric :=
  sample_layer "comp" 3 "con" [("num_filters", 0)] [[1]; [2]] (-1) (-1).

Definition fc_layer : @layer sample_numeric :=
  sample_layer "comp" 1 "fc" [("num_outputs", 2)] [[1; 2]; [3; 4]; [5; 6]] (-1) (-1).

Definition fc_one_row_layer : @layer sample_numeric :=
  sample_layer "comp" 1 "fc" [("num_outputs", 3)] [[1; 2; 3]] (-1) (-1).

Definition affine_layer : @layer sample_numeric :=
  sample_layer "comp" 2 "affine_con" [] [[1]; [2]; [3]; [4]] (-1) (-1).

Definition affine_odd_layer : @layer sample_numeric :=
  sample_layer "comp" 2 "affine_con" [] [[1]; [2]; [3]] (-1) (-1).

(** ** Vocabulary of the further statements *)

Section FurtherVocabulary.
Context `{N : Numeric}.

(** The computation [m] can leave the contract of the library only if [P]
    holds. *)
Definition undefined_only_if {A} (P : Prop) (m : ostream A) : Prop :=
  forall s, snd (m s) = Undefined -> P.

(** The detail names the first loop has a branch for. *)
Definition known_details : list string :=
  ["con"; "relu"; "max_pool"; "avg_pool"; "fc"; "fc_no_bias"; "bn_con"; "bn_fc";
   "affine_con"; "affine_fc"; "add_prev"].

(** The attributes of a skip marker element that carries [id]. *)
Definition is_skip_marker (atts : attribute_list) (id : Z) : Prop :=
  atts_get atts "type" = Ok "skip" /\
  exists text, atts_get atts "id" = Ok text /\ sa_long text = Some id.

(** Every [double] the translation of [ls] converts to [long] is in the
    range of [long]: the tag attribute of an add_prev layer and the
    num_filters attribute of a con layer. *)
Definition conversions_fit (ls : list layer) : Prop :=
  forall l v,
    In l ls -> skipped l = false ->
    (detail_name l = "add_prev" /\ attribute l "tag" = Ok v) \/
    (detail_name l = "con" /\ attribute l "num_filters" = Ok v) ->
    double_fits_long v = true.

(** Text and processing instructions, which may stand between any two
    tags, before the root element and after it. *)
Definition is_text (ev : xml_event) : Prop :=
  match ev with
  | Characters _ | ProcessingInstruction _ _ => True
  | StartElement _ _ | EndElement _ => False
  end.

(** The character data among the events, in order. *)
Fixpoint character_data (evs : list xml_event) : list string :=
  match evs with
  | [] => []
  | Characters data :: rest => data :: character_data rest
  | _ :: rest => character_data rest
  end.

(** No element with parameters is open: character data is not read. *)
Definition quiet (stack : list string) : Prop :=
  match stack with
  | [] => True
  | top :: _ => existsb (String.eqb top) comp_tags_with_params = false
  end.

(** The conversion of a file named on the command line succeeds. *)
Definition converts (file : string * list xml_event) : Prop :=
  outcome (convert_dlib_xml_to_cafffe_python_code (fst file) (snd file)) = Ok tt.

(** The elements a net element holds, with their values read: a tag marker,
    a skip marker, or a layer with its detail element and the pieces of
    character data that element holds. *)
Inductive element : Type :=
| TagMarker (id : Z)
| SkipMarker (id : Z)
| Layer (ty : string) (i : Z) (detail : string) (atts : list (string * double))
    (text : list string).

(** The events of an element, up to the next tag.  Text and processing
    instructions may stand after every tag: inside a marker, before and
    after the detail element of a layer, inside the detail element, and
    after the element. *)
Definition element_events (el : element) (evs : list xml_event) : Prop :=
  match el with
  | TagMarker id =>
      exists atts inner after,
        is_tag_marker atts id /\ Forall is_text inner /\ Forall is_text after /\
        evs = ([StartElement "layer" atts] ++ inner ++ [EndElement "layer"] ++ after)%list
  | SkipMarker id =>
      exists atts inner after,
        is_skip_marker atts id /\ Forall is_text inner /\ Forall is_text after /\
        evs = ([StartElement "layer" atts] ++ inner ++ [EndElement "layer"] ++ after)%list
  | Layer ty i detail a text =>
      exists atts datts before inner between after,
        is_genuine atts ty i /\ ty <> "" /\ detail <> "layer" /\
        copy_attributes datts [] = Ok a /\
        Forall is_text before /\ Forall is_text inner /\
        Forall is_text between /\ Forall is_text after /\
        character_data inner = text /\
        evs = ([StartElement "layer" atts] ++ before
               ++ [StartElement detail datts] ++ inner ++ [EndElement detail]
               ++ between ++ [EndElement "layer"] ++ after)%list
  end.

(** A document whose root is a net element that holds the elements with
    the events [evss]; text and processing instructions may stand before
    the root, after its start tag and after its end tag. *)
Definition net_document (natts : attribute_list) (evss : list (list xml_event))
  (document : list xml_event) : Prop :=
  exists pre first post,
    Forall is_text pre /\ Forall is_text first /\ Forall is_text post /\
    document = (pre ++ [StartElement "net" natts] ++ first ++ concat evss
                ++ [EndElement "net"] ++ post)%list.

(** The parameters of a layer whose detail element holds the pieces
    [text]: each piece is read into the matrix the piece before it left. *)
Definition read_params (detail : string) (text : list string) : matrix double :=
  if existsb (String.eqb detail) comp_tags_with_params
  then fold_left (fun m data => read_matrix data m) text []
  else [].

(** The list of records and the pending tag id, element by element: a tag
    marker is remembered for the next layer, a skip marker is applied to the
    previous layer, a layer is appended with the pending tag. *)
Definition build_step (st : list layer * Z) (el : element) : result (list layer * Z) :=
  match el with
  | TagMarker id => Ok (fst st, id)
  | SkipMarker id =>
      match fst st with
      | [] => Throw (error "A skip layer was found as the first layer, but the first layer should be an input layer.")
      | _ :: _ => Ok (set_back_skip_id (fst st) id, snd st)
      end
  | Layer ty i detail a text =>
      Ok ((fst st ++ [mk_layer ty i detail a (read_params detail text) (snd st) (-1)])%list,
          -1)
  end.

Fixpoint build (st : list layer * Z) (els : list element) : result (list layer * Z) :=
  match els with
  | [] => Ok st
  | el :: rest => rbind (build_step st el) (fun st' => build st' rest)
  end.

(** The types a record can have: a marker element is told from a layer
    by the record under construction having no type. *)
Definition is_record_type (ty : string) : Prop :=
  ty <> "" /\ ty <> "skip" /\ ty <> "tag".

(** A layer element that is not an input layer. *)
Definition is_inner_layer (el : element) : Prop :=
  match el with
  | Layer ty _ _ _ _ => ty <> "input"
  | TagMarker _ | SkipMarker _ => False
  end.

Definition is_layer_element (el : element) : bool :=
  match el with
  | Layer _ _ _ _ _ => true
  | TagMarker _ | SkipMarker _ => false
  end.

End FurtherVocabulary.

(** A prelu layer, which has parameters and no translation. *)
Definition prelu_layers : list (@layer sample_numeric) :=
  [sample_layer "comp" 0 "prelu" [] [[1]] (-1) (-1);
   sample_layer "input" 1 "input" [] [] (-1) (-1)].

(** A convolution layer with all its attributes: with the sample instance
    its parameters are not read. *)
Definition con_document : list xml_event :=
  [StartElement "net" [];
   StartElement "layer" [("idx", "0"); ("type", "comp")];
   StartElement "con"
     [("num_filters", "2"); ("nr", "3"); ("nc", "3"); ("stride_y", "1"); ("stride_x", "1");
      ("padding_y", "0"); ("padding_x", "0")];
   Characters "1 2 3 4 5"; EndElement "con";
   EndElement "layer";
   StartElement "layer" [("idx", "1"); ("type", "input")];
   StartElement "input" []; EndElement "input";
   EndElement "layer";
   EndElement "net"].

Definition con_document_layers : list (@layer sample_numeric) :=
  [sample_layer "comp" 0 "con"
     [("padding_x", 0); ("padding_y", 0); ("stride_x", 1); ("stride_y", 1);
      ("nc", 3); ("nr", 3); ("num_filters", 2)] [] (-1) (-1);
   sample_layer "input" 1 "input" [] [] (-1) (-1)].

(** The same layer with the parameters of two filters. *)
Definition con_filters_layers : list (@layer sample_numeric) :=
  [sample_layer "comp" 0 "con"
     [("padding_x", 0); ("padding_y", 0); ("stride_x", 1); ("stride_y", 1);
      ("nc", 3); ("nr", 3); ("num_filters", 2)] [[1]; [2]; [3]; [4]; [5]] (-1) (-1);
   sample_layer "input" 1 "input" [] [] (-1) (-1)].

(** The elements of [tagged_input_document] and their events, as they are
    when each tag is followed by a line break. *)
Definition tagged_input_elements : list (@element sample_numeric) :=
  [@Layer sample_numeric "comp" 0 "relu" [] []; SkipMarker 2; TagMarker 9; TagMarker 2;
   @Layer sample_numeric "input" 4 "input" [] []; TagMarker 7].

Definition tagged_input_events : list (list xml_event) :=
  [[StartElement "layer" [("idx", "0"); ("type", "comp")]; Characters endl;
    StartElement "relu" []; EndElement "relu"; Characters endl;
    EndElement "layer"; Characters endl];
   [StartElement "layer" [("idx", "1"); ("type", "skip"); ("id", "2")];
    EndElement "layer"; Characters endl];
   [StartElement "layer" [("idx", "2"); ("type", "tag"); ("id", "9")];
    EndElement "layer"; Characters endl];
   [StartElement "layer" [("idx", "3"); ("type", "tag"); ("id", "2")];
    EndElement "layer"; Characters endl];
   [StartElement "layer" [("idx", "4"); ("type", "input")]; Characters endl;
    StartElement "input" []; EndElement "input"; Characters endl;
    EndElement "layer"; Characters endl];
   [StartElement "layer" [("idx", "5"); ("type", "tag"); ("id", "7")];
    EndElement "layer"; Characters endl]].

Definition tagged_input_written_document : list xml_event :=
  ([ProcessingInstruction "xml" "version='1.0'"; Characters endl]
   ++ [StartElement "net" []] ++ [Characters endl]
   ++ concat tagged_input_events ++ [EndElement "net"] ++ [Characters endl])%list.

(** The elements of [chain_document] and their events, as they are when
    each tag is followed by a line break and the fully connected layer holds
    its parameters. *)
Definition chain_elements : list (@element sample_numeric) :=
  [@Layer sample_numeric "loss" 0 "loss_multiclass_log" [] [];
   @Layer sample_numeric "comp" 1 "fc_no_bias" [("num_outputs", 10)]
     [String (ascii_of_nat 10) "0.5 0.25 "; "0.125"];
   @Layer sample_numeric "comp" 2 "relu" [] [];
   SkipMarker 1;
   @Layer sample_numeric "comp" 4 "relu" [] [];
   TagMarker 1;
   @Layer sample_numeric "comp" 6 "max_pool"
     [("padding_x", 0); ("padding_y", 0); ("stride_x", 2); ("stride_y", 2);
      ("nc", 2); ("nr", 2)] [];
   @Layer sample_numeric "input" 7 "input_rgb_image" [] []].

Definition chain_events : list (list xml_event) :=
  [[StartElement "layer" [("idx", "0"); ("type", "loss")]; Characters endl;
    StartElement "loss_multiclass_log" []; EndElement "loss_multiclass_log";
    Characters endl;
    EndElement "layer"; Characters endl];
   [StartElement "layer" [("idx", "1"); ("type", "comp")]; Characters endl;
    StartElement "fc_no_bias" [("num_outputs", "10")];
    Characters (String (ascii_of_nat 10) "0.5 0.25 "); Characters "0.125";
    EndElement "fc_no_bias"; Characters endl;
    EndElement "layer"; Characters endl];
   [StartElement "layer" [("idx", "2"); ("type", "comp")]; Characters endl;
    StartElement "relu" []; EndElement "relu"; Characters endl;
    EndElement "layer"; Characters endl];
   [StartElement "layer" [("idx", "3"); ("type", "skip"); ("id", "1")];
    EndElement "layer"; Characters endl];
   [StartElement "layer" [("idx", "4"); ("type", "comp")]; Characters endl;
    StartElement "relu" []; EndElement "relu"; Characters endl;
    EndElement "layer"; Characters endl];
   [StartElement "layer" [("idx", "5"); ("type", "tag"); ("id", "1")];
    EndElement "layer"; Characters endl];
   [StartElement "layer" [("idx", "6"); ("type", "comp")]; Characters endl;
    StartElement "max_pool"
      [("nr", "2"); ("nc", "2"); ("stride_y", "2"); ("stride_x", "2");
       ("padding_y", "0"); ("padding_x", "0")];
    EndElement "max_pool"; Characters endl;
    EndElement "layer"; Characters endl];
   [StartElement "layer" [("idx", "7"); ("type", "input")]; Characters endl;
    StartElement "input_rgb_image" []; EndElement "input_rgb_image"; Characters endl;
    EndElement "layer"; Characters endl]].

Definition chain_written_document : list xml_event :=
  ([ProcessingInstruction "xml" "version='1.0'"; Characters endl]
   ++ [StartElement "net" []] ++ [Characters endl]
   ++ concat chain_events ++ [EndElement "net"] ++ [Characters endl])%list.

(** A residual layer that adds the layer tagged 1 to its predecessor. *)
Definition residual_layers : list (@layer sample_numeric) :=
  [sample_layer "comp" 0 "add_prev" [("tag", 1)] [] (-1) (-1);
   sample_layer "comp" 1 "relu" [] [] (-1) (-1);
   sample_layer "comp" 3 "relu" [] [] 1 (-1);
   sample_layer "input" 4 "input" [] [] (-1) (-1)].

(** A batch normalisation layer above a relu layer. *)
Definition batch_norm_document : list xml_event :=
  [StartElement "net" [];
   StartElement "layer" [("idx", "0"); ("type", "comp")];
   StartElement "mystery" []; EndElement "mystery";
   EndElement "layer";
   StartElement "layer" [("idx", "1"); ("type", "comp")];
   StartElement "bn_con" []; EndElement "bn_con";
   EndElement "layer";
   StartElement "layer" [("idx", "2"); ("type", "comp")];
   StartElement "relu" []; EndElement "relu";
   EndElement "layer";
   StartElement "layer" [("idx", "3"); ("type", "input")];
   StartElement "input_rgb_image" []; EndElement "input_rgb_image";
   EndElement "layer";
   EndElement "net"].

Definition batch_norm_layers : list (@layer sample_numeric) :=
  [sample_layer "comp" 0 "mystery" [] [] (-1) (-1);
   sample_layer "comp" 1 "bn_con" [] [] (-1) (-1);
   sample_layer "comp" 2 "relu" [] [] (-1) (-1);
   sample_layer "input" 3 "input_rgb_image" [] [] (-1) (-1)].

(** * Properties *)

Section Properties.
Context `{N : Numeric}.

(** ** Reverse iterators and stored positions *)

Lemma riter_layer_stored (ls : list layer) (i : nat) :
  (i < length ls)%nat ->
  riter_layer ls i = nth_error ls (length ls - 1 - i).
Proof.
  intros Hi. unfold riter_layer. rewrite nth_error_rev.
  destruct (Nat.ltb_spec i (length ls)) as [_ | Hge]; [ | lia ].
  f_equal. lia.
Qed.

Lemma riter_layer_of_stored (ls : list layer) (k : nat) :
  (k < length ls)%nat ->
  riter_layer ls (length ls - 1 - k) = nth_error ls k.
Proof.
  intros Hk. rewrite riter_layer_stored by lia. f_equal. lia.
Qed.

Lemma riter_layer_defined (ls : list layer) (i : nat) :
  (i < length ls)%nat -> exists l, riter_layer ls i = Some l.
Proof.
  intros Hi. unfold riter_layer.
  destruct (nth_error (rev ls) i) as [l | ] eqn:E; [ now exists l | ].
  apply nth_error_None in E. rewrite length_rev in E. lia.
Qed.

(** [layers.rbegin()] points to [layers.back()]. *)
Lemma riter_layer_rbegin (ls : list layer) :
  ls <> [] -> riter_layer ls 0 = Some (last ls empty_layer).
Proof.
  intros Hne. destruct (exists_last Hne) as [front [b ->]].
  unfold riter_layer. rewrite rev_app_distr, last_last. reflexivity.
Qed.

(** ** The list the parser returns *)

Lemma parse_dlib_xml_returns (document : list xml_event) (ls : list layer) :
  parse_dlib_xml document = Ok ls ->
  ls <> [] /\ type (last ls empty_layer) = "input".
Proof.
  unfold parse_dlib_xml, rbind.
  destruct (parse_xml document new_doc_handler) as [dh | e | ]; try discriminate.
  destruct (layers dh) as [ | l0 rest] eqn:El; cbn [length Nat.eqb]; try discriminate.
  destruct (String.eqb_spec (type (last (l0 :: rest) empty_layer)) "input") as [Hin | Hin];
    cbn [negb]; try discriminate.
  intros [= <-]. split; [ discriminate | exact Hin ].
Qed.

(** ** The scan for a tag *)

Lemma skip_scan_found (ls : list layer) (t : Z) (q : nat) (lq : layer) :
  riter_layer ls q = Some lq ->
  tag_id lq = t ->
  forall i, (q < i <= length ls)%nat -> passes ls q i t ->
  skip_scan ls i t = Ok (caffe_layer_name lq).
Proof.
  intros Hq Ht. induction i as [ | j IH]; intros Hi Hp; [ lia | ].
  cbn [skip_scan].
  destruct (Nat.eq_dec q j) as [-> | Hne].
  - rewrite Hq. rewrite (proj2 (Z.eqb_eq _ _) Ht). reflexivity.
  - destruct (riter_layer_defined ls j) as [lj Hj]; [ lia | ].
    rewrite Hj. destruct (Hp j lj) as [Htag Hty]; [ lia | exact Hj | ].
    rewrite (proj2 (Z.eqb_neq _ _) Htag), (proj2 (String.eqb_neq _ _) Hty).
    apply IH; [ lia | ].
    intros m lm Hm Hlm. apply (Hp m lm); [ lia | exact Hlm ].
Qed.

Lemma skip_scan_missed (ls : list layer) (t : Z) (q : nat) (lq : layer) :
  riter_layer ls q = Some lq ->
  tag_id lq <> t ->
  type lq = "input" ->
  forall i, (q < i <= length ls)%nat -> passes ls q i t ->
  skip_scan ls i t = Throw skip_error.
Proof.
  intros Hq Ht Hin. induction i as [ | j IH]; intros Hi Hp; [ lia | ].
  cbn [skip_scan].
  destruct (Nat.eq_dec q j) as [-> | Hne].
  - rewrite Hq. rewrite (proj2 (Z.eqb_neq _ _) Ht), Hin. reflexivity.
  - destruct (riter_layer_defined ls j) as [lj Hj]; [ lia | ].
    rewrite Hj. destruct (Hp j lj) as [Htag Hty]; [ lia | exact Hj | ].
    rewrite (proj2 (Z.eqb_neq _ _) Htag), (proj2 (String.eqb_neq _ _) Hty).
    apply IH; [ lia | ].
    intros m lm Hm Hlm. apply (Hp m lm); [ lia | exact Hlm ].
Qed.

(** Below an input layer the scan always stops: at the nearest layer that
    carries the tag or is an input layer. *)
Lemma skip_scan_stops (ls : list layer) (t : Z) :
  forall i, (i <= length ls)%nat ->
  (exists p lp, (p < i)%nat /\ riter_layer ls p = Some lp /\ type lp = "input") ->
  exists q lq, (q < i)%nat /\ riter_layer ls q = Some lq /\ passes ls q i t /\
               (tag_id lq = t \/ (tag_id lq <> t /\ type lq = "input")).
Proof.
  induction i as [ | j IH]; intros Hi (p & lp & Hp & Hlp & Hin); [ lia | ].
  destruct (riter_layer_defined ls j) as [lj Hj]; [ lia | ].
  destruct (Z.eq_dec (tag_id lj) t) as [Ht | Ht].
  - exists j, lj. split; [ lia | ]. split; [ exact Hj | ].
    split; [ intros m lm Hm; lia | left; exact Ht ].
  - destruct (String.eqb_spec (type lj) "input") as [Hty | Hty].
    + exists j, lj. split; [ lia | ]. split; [ exact Hj | ].
      split; [ intros m lm Hm; lia | right; auto ].
    + assert (Hpj : (p < j)%nat).
      { destruct (Nat.eq_dec p j) as [-> | ]; [ congruence | lia ]. }
      destruct IH as (q & lq & Hq & Hlq & Hpass & Hstop); [ lia | eauto | ].
      exists q, lq. split; [ lia | ]. split; [ exact Hlq | ]. split; [ | exact Hstop ].
      intros m lm Hm Hlm. destruct (Nat.eq_dec m j) as [-> | Hmj].
      * rewrite Hj in Hlm. injection Hlm as <-. auto.
      * apply (Hpass m lm); [ lia | exact Hlm ].
Qed.

Lemma passes_of_stored (ls : list layer) (k j : nat) (t : Z) :
  (k < j < length ls)%nat ->
  passes_stored ls k j t ->
  passes ls (length ls - 1 - j) (length ls - 1 - k) t.
Proof.
  intros Hkj Hp m lm Hm Hlm.
  rewrite riter_layer_stored in Hlm by lia.
  apply (Hp (length ls - 1 - m)%nat lm); [ lia | exact Hlm ].
Qed.

Lemma stored_of_passes (ls : list layer) (k q : nat) (t : Z) :
  (k < length ls)%nat -> (q < length ls - 1 - k)%nat ->
  passes ls q (length ls - 1 - k) t ->
  passes_stored ls k (length ls - 1 - q) t.
Proof.
  intros Hk Hq Hp m lm Hm Hlm.
  apply (Hp (length ls - 1 - m)%nat lm); [ lia | ].
  rewrite riter_layer_of_stored by lia. exact Hlm.
Qed.

Lemma nth_error_bound (ls : list layer) (k : nat) (l : layer) :
  nth_error ls k = Some l -> (k < length ls)%nat.
Proof. intros H. apply nth_error_Some. congruence. Qed.

Lemma nth_error_back (ls : list layer) :
  ls <> [] -> nth_error ls (length ls - 1) = Some (last ls empty_layer).
Proof.
  intros Hne. destruct (exists_last Hne) as [front [b ->]].
  rewrite last_last, length_app, nth_error_app2 by (cbn; lia).
  cbn [length]. replace (length front + 1 - 1 - length front)%nat with 0%nat by lia.
  reflexivity.
Qed.

(** A layer that is not an input layer stands before the last position of
    a list whose last layer is an input layer. *)
Lemma not_input_before_back (ls : list layer) (k : nat) (l : layer) :
  type (last ls empty_layer) = "input" ->
  nth_error ls k = Some l -> type l <> "input" ->
  (k < length ls - 1)%nat.
Proof.
  intros Hin Hk Hty. pose proof (nth_error_bound _ _ _ Hk) as Hb.
  destruct (Nat.eq_dec k (length ls - 1)) as [-> | ]; [ | lia ].
  rewrite nth_error_back in Hk by (intros ->; cbn in Hb; lia).
  injection Hk as <-. contradiction.
Qed.

Lemma find_input_at_stored (ls : list layer) (k : nat) (l : layer) :
  nth_error ls k = Some l ->
  find_input_layer_caffe_name ls (length ls - 1 - k)
  = find_layer_caffe_name ls (length ls - 1 - k) (skip_id l).
Proof.
  intros Hk. unfold find_input_layer_caffe_name.
  rewrite riter_layer_of_stored by (eapply nth_error_bound; eauto).
  rewrite Hk. reflexivity.
Qed.

Lemma find_layer_scans (ls : list layer) (i : nat) (t : Z) :
  t <> -1 -> find_layer_caffe_name ls i t = skip_scan ls i t.
Proof.
  intros Ht. unfold find_layer_caffe_name.
  now rewrite (proj2 (Z.eqb_neq _ _) Ht).
Qed.

(** The scan from stored position [k], when some input layer follows. *)
Lemma scan_from_stored (ls : list layer) (k : nat) (t : Z) :
  ls <> [] -> type (last ls empty_layer) = "input" ->
  (k < length ls - 1)%nat ->
  exists j lj, (k < j)%nat /\ nth_error ls j = Some lj /\ passes_stored ls k j t /\
    ((tag_id lj = t /\
      skip_scan ls (length ls - 1 - k) t = Ok (caffe_layer_name lj)) \/
     (tag_id lj <> t /\ type lj = "input" /\
      skip_scan ls (length ls - 1 - k) t = Throw skip_error)).
Proof.
  intros Hne Hin Hk.
  destruct (skip_scan_stops ls t (length ls - 1 - k)) as (q & lq & Hq & Hlq & Hp & Hstop).
  { lia. }
  { exists 0%nat, (last ls empty_layer). split; [ lia | ].
    split; [ now apply riter_layer_rbegin | exact Hin ]. }
  exists (length ls - 1 - q)%nat, lq.
  split; [ lia | ].
  split; [ rewrite <- riter_layer_stored by lia; exact Hlq | ].
  split; [ apply stored_of_passes; [ lia | exact Hq | exact Hp ] | ].
  destruct Hstop as [Ht | [Ht Hty]].
  - left. split; [ exact Ht | ].
    apply (skip_scan_found ls t q lq Hlq Ht); [ lia | exact Hp ].
  - right. split; [ exact Ht | ]. split; [ exact Hty | ].
    apply (skip_scan_missed ls t q lq Hlq Ht Hty); [ lia | exact Hp ].
Qed.

(** ** C1 *)

(** C1.  In a list returned by the parser, for a layer at stored position
    [k] that is not an input layer and has [skip_id = t], [t <> -1], the
    resolver stops at the nearest later stored position [j] (toward the
    input end) whose layer carries [tag_id = t] or is an input layer: it
    returns the generated name of that layer when it carries the tag, and
    throws the skip error when that layer is an input layer without the tag.
    Hence it throws exactly when an input layer is reached and no layer from
    [k+1] up to it carries the tag. *)
Theorem skip_resolution (document : list xml_event) (ls : list layer)
  (k : nat) (l : layer) :
  parse_dlib_xml document = Ok ls ->
  nth_error ls k = Some l ->
  type l <> "input" ->
  skip_id l <> -1 ->
  (exists j lj, (k < j)%nat /\ nth_error ls j = Some lj /\
     passes_stored ls k j (skip_id l) /\
     ((tag_id lj = skip_id l /\
       find_input_layer_caffe_name ls (riter_at ls k) = Ok (caffe_layer_name lj)) \/
      (tag_id lj <> skip_id l /\ type lj = "input" /\
       find_input_layer_caffe_name ls (riter_at ls k) = Throw skip_error)))
  /\
  (find_input_layer_caffe_name ls (riter_at ls k) = Throw skip_error <->
   exists j lj, (k < j)%nat /\ nth_error ls j = Some lj /\ type lj = "input" /\
     forall m lm, (k < m <= j)%nat -> nth_error ls m = Some lm ->
                  tag_id lm <> skip_id l).
Proof.
  intros Hparse Hk Hty Hskip. unfold riter_at.
  destruct (parse_dlib_xml_returns _ _ Hparse) as [Hne Hin].
  pose proof (not_input_before_back ls k l Hin Hk Hty) as Hlt.
  rewrite (find_input_at_stored ls k l Hk), (find_layer_scans _ _ _ Hskip).
  destruct (scan_from_stored ls k (skip_id l) Hne Hin Hlt)
    as (j & lj & Hkj & Hj & Hp & Hres).
  split.
  - exists j, lj. auto.
  - split.
    + intros Hthrow. destruct Hres as [[_ Hok] | (Ht & Hi & _)]; [ congruence | ].
      exists j, lj. split; [ exact Hkj | ]. split; [ exact Hj | ]. split; [ exact Hi | ].
      intros m lm Hm Hlm. destruct (Nat.eq_dec m j) as [-> | Hmj].
      * congruence.
      * apply (Hp m lm); [ lia | exact Hlm ].
    + intros (j' & lj' & Hkj' & Hj' & Hi' & Hnone).
      destruct Hres as [[Ht _] | (_ & _ & Hthrow)]; [ exfalso | exact Hthrow ].
      destruct (Nat.le_gt_cases j j') as [Hle | Hgt].
      * apply (Hnone j lj); [ lia | exact Hj | exact Ht ].
      * destruct (Hp j' lj') as [_ Habs]; [ lia | exact Hj' | contradiction ].
Qed.

(** ** C2 *)

(** C2 (as amended).  In a list returned by the parser, for a translated
    layer (neither input nor loss) at stored position [k] that has no
    [skip_id], the resolver returns the generated name of the layer at
    stored position [k+1], one step toward the input end: the reverse
    iterator's [i-1]. *)
Theorem predecessor_resolution (document : list xml_event) (ls : list layer)
  (k : nat) (l : layer) :
  parse_dlib_xml document = Ok ls ->
  nth_error ls k = Some l ->
  type l <> "loss" ->
  type l <> "input" ->
  skip_id l = -1 ->
  exists l', nth_error ls (k + 1) = Some l' /\
             find_input_layer_caffe_name ls (riter_at ls k)
             = Ok (caffe_layer_name l').
Proof.
  intros Hparse Hk _ Hty Hskip. unfold riter_at.
  destruct (parse_dlib_xml_returns _ _ Hparse) as [Hne Hin].
  pose proof (not_input_before_back ls k l Hin Hk Hty) as Hlt.
  rewrite (find_input_at_stored ls k l Hk), Hskip.
  unfold find_layer_caffe_name. cbn [Z.eqb Pos.eqb Z.opp].
  destruct (length ls - 1 - k)%nat as [ | j] eqn:Ei; [ lia | ].
  rewrite riter_layer_stored by lia.
  replace (length ls - 1 - j)%nat with (k + 1)%nat by lia.
  destruct (nth_error ls (k + 1)) as [l' | ] eqn:El'.
  - exists l'. auto.
  - apply nth_error_None in El'. lia.
Qed.

(** ** C9 *)

(** C9.  When the first layer after stored position [k] that carries the
    sought tag or is an input layer is an input layer that carries the
    tag, the resolver returns its generated name, "data": the tag is
    compared before the type. *)
Theorem tagged_input_is_found (ls : list layer) (k j : nat) (lj : layer) (t : Z) :
  t <> -1 ->
  (k < j)%nat ->
  nth_error ls j = Some lj ->
  type lj = "input" ->
  tag_id lj = t ->
  passes_stored ls k j t ->
  find_layer_caffe_name ls (riter_at ls k) t = Ok "data".
Proof.
  intros Ht Hkj Hj Hin Htag Hp. unfold riter_at.
  pose proof (nth_error_bound _ _ _ Hj) as Hb.
  rewrite (find_layer_scans _ _ _ Ht).
  rewrite (skip_scan_found ls t (length ls - 1 - j) lj).
  - unfold caffe_layer_name. rewrite Hin. reflexivity.
  - rewrite riter_layer_of_stored by lia. exact Hj.
  - exact Htag.
  - lia.
  - apply passes_of_stored; [ lia | exact Hp ].
Qed.

(** ** C6 *)

(** C6.  Once the handler has consumed the whole event stream, leaving the
    layer list of [dh]: an empty list makes the parser throw "No layers
    found", a non-empty list whose last record is not of type input makes it
    throw "missing an input layer", any other list is returned as it is; and
    a list that is returned is non-empty and ends with a record of type
    input. *)
Theorem parse_dlib_xml_checks (document : list xml_event) (dh : doc_handler) :
  parse_xml document new_doc_handler = Ok dh ->
  (layers dh = [] ->
   parse_dlib_xml document = Throw (error "No layers found in XML file!")) /\
  (layers dh <> [] -> type (last (layers dh) empty_layer) <> "input" ->
   parse_dlib_xml document
   = Throw (error "The network in the XML file is missing an input layer!")) /\
  (layers dh <> [] -> type (last (layers dh) empty_layer) = "input" ->
   parse_dlib_xml document = Ok (layers dh)) /\
  (forall ls, parse_dlib_xml document = Ok ls ->
              ls = layers dh /\ ls <> [] /\ type (last ls empty_layer) = "input").
Proof.
  intros Hrun. unfold parse_dlib_xml. rewrite Hrun. cbn [rbind].
  destruct (layers dh) as [ | l0 rest] eqn:El.
  - cbn [length Nat.eqb]. repeat split; try congruence; discriminate.
  - cbn [length Nat.eqb].
    destruct (String.eqb_spec (type (last (l0 :: rest) empty_layer)) "input") as [Hin | Hin];
      cbn [negb].
    + split; [ discriminate | ]. split; [ intros _ Hno; contradiction | ].
      split; [ reflexivity | ].
      intros ls [= <-]. split; [ reflexivity | ]. split; [ discriminate | exact Hin ].
    + split; [ discriminate | ]. split; [ reflexivity | ].
      split; [ intros _ Hyes; contradiction | ]. intros ls Hls. discriminate.
Qed.

(** ** C10 *)

Lemma start_tag_marker (dh : doc_handler) (atts : attribute_list) (id : Z) :
  seen_first_tag dh = true ->
  is_tag_marker atts id ->
  start_element dh "layer" atts
  = Ok (mk_doc_handler (layers dh) true empty_layer ("layer" :: current_tag dh) id).
Proof.
  intros Hseen [Hty (text & Hid & Hcast)].
  unfold start_element. rewrite Hseen. cbn [negb rbind String.eqb Ascii.eqb Bool.eqb].
  unfold start_layer. cbn [layers seen_first_tag next_layer current_tag dh_tag_id].
  rewrite Hty. cbn [rbind]. cbn [String.eqb Ascii.eqb Bool.eqb].
  rewrite Hid. cbn [rbind]. unfold cast. rewrite Hcast. cbn [rbind].
  cbn [layers seen_first_tag next_layer current_tag dh_tag_id].
  rewrite Hseen. reflexivity.
Qed.

Lemma end_marker (ls : list layer) (stack : list string) (id : Z) :
  end_element (mk_doc_handler ls true empty_layer ("layer" :: stack) id) "layer"
  = Ok (mk_doc_handler ls true empty_layer stack id).
Proof. reflexivity. Qed.

Lemma start_genuine (dh : doc_handler) (atts : attribute_list) (ty : string) (i : Z) :
  seen_first_tag dh = true ->
  is_genuine atts ty i ->
  start_element dh "layer" atts
  = Ok (mk_doc_handler (layers dh) true
          (mk_layer ty i "" [] [] (dh_tag_id dh) (-1))
          ("layer" :: current_tag dh) (-1)).
Proof.
  intros Hseen (Hty & Hskip & Htag & text & Hidx & Hcast).
  unfold start_element. rewrite Hseen. cbn [negb rbind String.eqb Ascii.eqb Bool.eqb].
  unfold start_layer. cbn [layers seen_first_tag next_layer current_tag dh_tag_id].
  rewrite Hty. cbn [rbind].
  rewrite (proj2 (String.eqb_neq _ _) Hskip), (proj2 (String.eqb_neq _ _) Htag).
  rewrite Hidx. cbn [rbind]. unfold cast. rewrite Hcast. cbn [rbind].
  destruct (Z.eqb_spec (dh_tag_id dh) (-1)) as [E | E]; cbn [negb rbind];
    cbn [layers seen_first_tag next_layer current_tag dh_tag_id
         detail_name attributes params tag_id skip_id empty_layer];
    rewrite Hseen; [ rewrite E | ]; reflexivity.
Qed.

Lemma genuine_layer_element (dh : doc_handler) (atts datts : attribute_list)
  (ty detail : string) (i : Z) (a : list (string * double)) :
  seen_first_tag dh = true ->
  is_genuine atts ty i ->
  ty <> "" ->
  detail <> "layer" ->
  copy_attributes datts [] = Ok a ->
  dispatch dh [StartElement "layer" atts; StartElement detail datts;
               EndElement detail; EndElement "layer"]
  = Ok (mk_doc_handler (layers dh ++ [mk_layer ty i detail a [] (dh_tag_id dh) (-1)])%list
          true (mk_layer ty i detail a [] (dh_tag_id dh) (-1))
          (current_tag dh) (-1)).
Proof.
  intros Hseen Hgen Hty Hdetail Hcopy.
  cbn [dispatch handle]. rewrite (start_genuine dh atts ty i Hseen Hgen). cbn [rbind].
  unfold start_element. cbn [seen_first_tag negb rbind].
  rewrite (proj2 (String.eqb_neq _ _) Hdetail).
  cbn [current_tag top_is]. rewrite String.eqb_refl.
  unfold start_detail. cbn [next_layer attributes]. rewrite Hcopy. cbn [rbind].
  cbn [layers seen_first_tag next_layer current_tag dh_tag_id
       type idx params tag_id skip_id].
  unfold end_element at 1. cbn [current_tag].
  rewrite (proj2 (String.eqb_neq _ _) Hdetail). cbn [andb rbind].
  unfold end_element. cbn [current_tag next_layer type layers seen_first_tag dh_tag_id].
  rewrite String.eqb_refl.
  destruct ty as [ | c ty']; [ contradiction | ]. reflexivity.
Qed.

(** No event but the start of a tag marker or of a genuine layer element
    changes the pending tag id. *)
Lemma handle_keeps_tag_id (dh : doc_handler) (ev : xml_event) (dh' : doc_handler) :
  handle dh ev = Ok dh' ->
  (forall atts, ev = StartElement "layer" atts -> atts_get atts "type" = Ok "skip") ->
  dh_tag_id dh' = dh_tag_id dh.
Proof.
  intros Hev Hskip. destruct ev as [name atts | name | data | target data];
    cbn [handle] in Hev.
  - unfold start_element in Hev.
    destruct (negb (seen_first_tag dh)) eqn:Eseen.
    + destruct (negb (String.eqb name "net")) eqn:Enet; cbn [rbind] in Hev;
        [ discriminate | ].
      apply negb_false_iff, String.eqb_eq in Enet. subst name.
      cbn [String.eqb Ascii.eqb Bool.eqb top_is current_tag rbind] in Hev.
      destruct (current_tag dh) as [ | top stack]; cbn [top_is rbind] in Hev.
      * injection Hev as <-. reflexivity.
      * destruct (String.eqb top "layer"); cbn [rbind] in Hev.
        -- unfold start_detail in Hev.
           destruct (copy_attributes atts _) as [a | e | ]; cbn [rbind] in Hev;
             try discriminate.
           injection Hev as <-. reflexivity.
        -- injection Hev as <-. reflexivity.
    + cbn [rbind] in Hev. destruct (String.eqb_spec name "layer") as [-> | Hname].
      * specialize (Hskip atts eq_refl). unfold start_layer in Hev.
        cbn [layers seen_first_tag next_layer current_tag dh_tag_id] in Hev.
        rewrite Hskip in Hev. cbn [rbind String.eqb Ascii.eqb Bool.eqb] in Hev.
        destruct (length (layers dh) =? 0)%nat; [ discriminate | ].
        destruct (atts_get atts "id") as [text | e | ]; cbn [rbind] in Hev;
          try discriminate.
        destruct (cast sa_long text) as [id | e | ]; cbn [rbind] in Hev;
          try discriminate.
        injection Hev as <-. reflexivity.
      * destruct (top_is (current_tag dh) "layer"); cbn [rbind] in Hev.
        -- unfold start_detail in Hev.
           destruct (copy_attributes atts _) as [a | e | ]; cbn [rbind] in Hev;
             try discriminate.
           injection Hev as <-. reflexivity.
        -- injection Hev as <-. reflexivity.
  - unfold end_element in Hev. destruct (current_tag dh) as [ | top stack];
      [ discriminate | ].
    destruct (String.eqb name "layer" && _); injection Hev as <-; reflexivity.
  - injection Hev as <-. unfold characters.
    destruct (current_tag dh) as [ | top stack]; [ reflexivity | ].
    destruct (existsb _ _); reflexivity.
  - injection Hev as <-. reflexivity.
Qed.

(** C10.  The handler keeps one pending tag id, [dh_tag_id].  A tag marker
    element stores its id there whatever was pending, and adds no record, so
    of two markers in a row the second one wins; the start of the next
    genuine layer element moves the pending id to the record being built and
    resets [dh_tag_id] to -1, and the record appended for that element
    carries it; no other event changes it; and the checks at the end of the
    document do not look at [dh_tag_id], so an id still pending there is
    dropped without an error. *)
Theorem pending_tag_id (dh : doc_handler) :
  seen_first_tag dh = true ->
  (forall atts a, is_tag_marker atts a ->
     exists dh', dispatch dh [StartElement "layer" atts; EndElement "layer"] = Ok dh' /\
       dh_tag_id dh' = a /\ layers dh' = layers dh /\ seen_first_tag dh' = true) /\
  (forall atts1 atts2 a b, is_tag_marker atts1 a -> is_tag_marker atts2 b ->
     exists dh', dispatch dh [StartElement "layer" atts1; EndElement "layer";
                              StartElement "layer" atts2; EndElement "layer"] = Ok dh' /\
       dh_tag_id dh' = b /\ layers dh' = layers dh /\ seen_first_tag dh' = true) /\
  (forall atts ty i, is_genuine atts ty i ->
     exists dh', start_element dh "layer" atts = Ok dh' /\
       tag_id (next_layer dh') = dh_tag_id dh /\ dh_tag_id dh' = -1) /\
  (forall atts datts ty detail i a,
     is_genuine atts ty i -> ty <> "" -> detail <> "layer" ->
     copy_attributes datts [] = Ok a ->
     exists dh', dispatch dh [StartElement "layer" atts; StartElement detail datts;
                              EndElement detail; EndElement "layer"] = Ok dh' /\
       layers dh' = (layers dh ++ [mk_layer ty i detail a [] (dh_tag_id dh) (-1)])%list /\
       dh_tag_id dh' = -1 /\ seen_first_tag dh' = true) /\
  (forall ev dh',
     handle dh ev = Ok dh' ->
     (forall atts, ev = StartElement "layer" atts -> atts_get atts "type" = Ok "skip") ->
     dh_tag_id dh' = dh_tag_id dh) /\
  (forall document,
     parse_xml document new_doc_handler = Ok dh ->
     dh_tag_id dh <> -1 ->
     layers dh <> [] -> type (last (layers dh) empty_layer) = "input" ->
     parse_dlib_xml document = Ok (layers dh)).
Proof.
  intros Hseen. split; [ | split; [ | split; [ | split; [ | split ] ] ] ].
  - intros atts a Ha. eexists. split.
    + cbn [dispatch handle]. rewrite (start_tag_marker dh atts a Hseen Ha). cbn [rbind].
      rewrite end_marker. reflexivity.
    + cbn. auto.
  - intros atts1 atts2 a b Ha Hb. eexists. split.
    + cbn [dispatch handle]. rewrite (start_tag_marker dh atts1 a Hseen Ha). cbn [rbind].
      rewrite end_marker. cbn [rbind].
      rewrite (start_tag_marker (mk_doc_handler (layers dh) true empty_layer (current_tag dh) a)
                 atts2 b eq_refl Hb). cbn [rbind].
      cbn [layers current_tag]. rewrite end_marker. reflexivity.
    + cbn. auto.
  - intros atts ty i Hgen. eexists. split.
    + apply (start_genuine dh atts ty i Hseen Hgen).
    + cbn. auto.
  - intros atts datts ty detail i a Hgen Hty Hdetail Hcopy. eexists. split.
    + apply (genuine_layer_element dh atts datts ty detail i a); assumption.
    + cbn. auto.
  - intros ev dh' Hev Hskip. apply (handle_keeps_tag_id dh ev dh' Hev Hskip).
  - intros document Hrun _ Hne Hin.
    unfold parse_dlib_xml. rewrite Hrun. cbn [rbind].
    destruct (layers dh) as [ | l0 rest]; [ contradiction | ].
    cbn [length Nat.eqb]. rewrite Hin. reflexivity.
Qed.

(** ** The output stream *)

Lemma obind_put {A} (text : string) (k : unit -> ostream A) (s : string) :
  obind (put text) k s = k tt (s ++ text).
Proof. reflexivity. Qed.

Lemma obind_lift_ok {A B} (a : A) (k : A -> ostream B) (s : string) :
  obind (lift (Ok a)) k s = k a s.
Proof. reflexivity. Qed.

Lemma obind_oret {A B} (a : A) (k : A -> ostream B) (s : string) :
  obind (oret a) k s = k a s.
Proof. reflexivity. Qed.

Lemma obind_throws {A B} (m : ostream A) (k : A -> ostream B) (s s' : string)
  (e : exception) :
  m s = (s', Throw e) -> obind m k s = (s', Throw e).
Proof. intros H. unfold obind. rewrite H. reflexivity. Qed.

Lemma obind_returns {A B} (m : ostream A) (k : A -> ostream B) (s s' : string) (a : A) :
  m s = (s', Ok a) -> obind m k s = k a s'.
Proof. intros H. unfold obind. rewrite H. reflexivity. Qed.

Lemma append_assoc (a b c : string) : (a ++ b) ++ c = a ++ (b ++ c).
Proof. induction a as [ | ch a IH]; cbn; [ reflexivity | now rewrite IH ]. Qed.

(** ** C8 *)

Lemma input_dimensions_unknown (input : layer) (s : string) :
  detail_name input <> "input_rgb_image" ->
  detail_name input <> "input_rgb_image_sized" ->
  detail_name input <> "input" ->
  input_dimensions input s = (s, Throw (unknown_layer_error (detail_name input))).
Proof.
  intros H1 H2 H3. unfold input_dimensions, detail_is.
  rewrite (proj2 (String.eqb_neq _ _) H1), (proj2 (String.eqb_neq _ _) H2),
    (proj2 (String.eqb_neq _ _) H3).
  reflexivity.
Qed.

(** C8 (as amended).  When the parser returns a list whose last record has
    a detail type other than input_rgb_image, input_rgb_image_sized and
    input, the conversion throws "No known transformation from dlib's
    <detail> layer to caffe."; by then the output file has been created, and
    it is left holding the preamble: the import lines and the batch size,
    and no layer declaration. *)
Theorem unknown_input_conversion (xml_filename : string)
  (document : list xml_event) (ls : list layer) :
  parse_dlib_xml document = Ok ls ->
  detail_name (last ls empty_layer) <> "input_rgb_image" ->
  detail_name (last ls empty_layer) <> "input_rgb_image_sized" ->
  detail_name (last ls empty_layer) <> "input" ->
  outcome (convert_dlib_xml_to_cafffe_python_code xml_filename document)
  = Throw (error ("No known transformation from dlib's "
                  ++ detail_name (last ls empty_layer) ++ " layer to caffe.")) /\
  fout (convert_dlib_xml_to_cafffe_python_code xml_filename document) = preamble /\
  out_filename (convert_dlib_xml_to_cafffe_python_code xml_filename document)
  = left_substr xml_filename "." ++ "_dlib_to_caffe_model.py".
Proof.
  intros Hparse H1 H2 H3.
  unfold convert_dlib_xml_to_cafffe_python_code. cbn [outcome fout out_filename].
  unfold write_model. rewrite Hparse, obind_lift_ok.
  do 5 rewrite obind_put.
  rewrite (obind_throws _ _ _ _ _ (input_dimensions_unknown _ _ H1 H2 H3)).
  repeat split; reflexivity.
Qed.

(** ** C7 *)

Lemma put_attribute_runs (label : string) (l : layer) (key : string) (v : double)
  (s : string) :
  attribute l key = Ok v ->
  put_attribute label l key s = (s ++ label ++ print_double v, Ok tt).
Proof.
  intros H. unfold put_attribute. rewrite obind_put, H, obind_lift_ok.
  unfold put. now rewrite append_assoc.
Qed.

Lemma put_head_runs (ls : list layer) (i : nat) (l : layer) (caffe_type name s : string) :
  find_input_layer_caffe_name ls i = Ok name ->
  put_head ls i l caffe_type s
  = (s ++ "    n." ++ caffe_layer_name l ++ (" = L." ++ caffe_type ++ "(n.") ++ name,
     Ok tt).
Proof.
  intros H. unfold put_head. rewrite !obind_put, H, obind_lift_ok.
  unfold put. now rewrite !append_assoc.
Qed.

Lemma has_padding_value (l : layer) (px py : double) :
  attribute l "padding_x" = Ok px ->
  attribute l "padding_y" = Ok py ->
  has_padding l = Ok (negb (double_is_zero px) || negb (double_is_zero py)).
Proof.
  intros Hx Hy. unfold has_padding. rewrite Hx. cbn [rbind].
  destruct (double_is_zero px); cbn [negb orb]; [ | reflexivity ].
  rewrite Hy. reflexivity.
Qed.

(** What [pooling] has written when the paddings are looked at. *)
Lemma pooling_runs (ls : list layer) (i : nat) (l : layer) (pool name : string)
  (nc nr sx sy px py : double) (s : string) :
  find_input_layer_caffe_name ls i = Ok name ->
  attribute l "nc" = Ok nc ->
  (double_is_zero nc = false -> attribute l "nr" = Ok nr) ->
  attribute l "padding_x" = Ok px ->
  attribute l "padding_y" = Ok py ->
  (double_is_zero px = true -> double_is_zero py = true -> attribute l "stride_x" = Ok sx) ->
  (double_is_zero px = true -> double_is_zero py = true -> attribute l "stride_y" = Ok sy) ->
  pooling ls i l pool s
  = if negb (double_is_zero px) || negb (double_is_zero py)
    then (s ++ "    n." ++ caffe_layer_name l ++ " = L.Pooling(n." ++ name
            ++ ", pool=P.Pooling." ++ pool
            ++ (if double_is_zero nc then ", global_pooling=True"
                else ", kernel_w=" ++ print_double nc ++ ", kernel_h=" ++ print_double nr),
          Throw padding_error)
    else (s ++ pooling_declaration l name pool nc nr sx sy px py, Ok tt).
Proof.
  intros Hin Hnc Hnr Hpx Hpy Hsx Hsy. unfold pooling.
  rewrite (obind_returns _ _ _ _ _ (put_head_runs ls i l "Pooling" name s Hin)).
  rewrite obind_put, Hnc, obind_lift_ok.
  assert (Hkernel :
    forall s0,
      (if double_is_zero nc then put ", global_pooling=True"
       else obind (put_attribute ", kernel_w=" l "nc")
              (fun _ => put_attribute ", kernel_h=" l "nr")) s0
      = (s0 ++ (if double_is_zero nc then ", global_pooling=True"
                else ", kernel_w=" ++ print_double nc ++ ", kernel_h=" ++ print_double nr),
         Ok tt)).
  { intros s0. destruct (double_is_zero nc) eqn:Ez; [ reflexivity | ].
    rewrite (obind_returns _ _ _ _ _ (put_attribute_runs ", kernel_w=" l "nc" nc s0 Hnc)).
    rewrite (put_attribute_runs ", kernel_h=" l "nr" nr _ (Hnr eq_refl)).
    now rewrite !append_assoc. }
  rewrite (obind_returns _ _ _ _ _ (Hkernel _)).
  rewrite (has_padding_value l px py Hpx Hpy), obind_lift_ok.
  destruct (negb (double_is_zero px) || negb (double_is_zero py)) eqn:Epad.
  - unfold obind, throw, lift. now rewrite !append_assoc.
  - apply orb_false_elim in Epad. destruct Epad as [Ex Ey].
    apply negb_false_iff in Ex. apply negb_false_iff in Ey.
    specialize (Hsx Ex Ey). specialize (Hsy Ex Ey).
    rewrite obind_oret.
    rewrite (obind_returns _ _ _ _ _ (put_attribute_runs ", stride_w=" l "stride_x" sx _ Hsx)).
    rewrite (obind_returns _ _ _ _ _ (put_attribute_runs ", stride_h=" l "stride_y" sy _ Hsy)).
    rewrite (obind_returns _ _ _ _ _ (put_attribute_runs ", pad_w=" l "padding_x" px _ Hpx)).
    rewrite (obind_returns _ _ _ _ _ (put_attribute_runs ", pad_h=" l "padding_y" py _ Hpy)).
    unfold close_declaration, put, pooling_declaration.
    now rewrite !append_assoc.
Qed.

Lemma declare_pooling (ls : list layer) (i : nat) (l : layer) (pool : string) :
  riter_layer ls i = Some l ->
  skipped l = false ->
  (detail_name l = "max_pool" /\ pool = "MAX") \/
  (detail_name l = "avg_pool" /\ pool = "AVE") ->
  declare_layer ls i = pooling ls i l pool.
Proof.
  intros Hl Hs [[Hd ->] | [Hd ->]]; unfold declare_layer, detail_is;
    rewrite Hl, Hs, Hd; reflexivity.
Qed.

(** C7 (as amended).  For a max_pool or avg_pool record whose input
    reference resolves and which carries the attributes nc, padding_x and
    padding_y (and nr when nc is not zero, and stride_x and stride_y when
    both paddings are zero), the translation throws if and only if padding_x
    or padding_y is not zero, and what it throws then is the padding error:
    the paddings are tested before the strides are read.  When both are zero
    the declaration is written, with global_pooling=True in place of the
    kernel dimensions when nc is zero. *)
Theorem pooling_translation (ls : list layer) (i : nat) (l : layer)
  (pool name : string) (nc nr sx sy px py : double) (s : string) :
  riter_layer ls i = Some l ->
  skipped l = false ->
  (detail_name l = "max_pool" /\ pool = "MAX") \/
  (detail_name l = "avg_pool" /\ pool = "AVE") ->
  find_input_layer_caffe_name ls i = Ok name ->
  attribute l "nc" = Ok nc ->
  (double_is_zero nc = false -> attribute l "nr" = Ok nr) ->
  attribute l "padding_x" = Ok px ->
  attribute l "padding_y" = Ok py ->
  (double_is_zero px = true -> double_is_zero py = true -> attribute l "stride_x" = Ok sx) ->
  (double_is_zero px = true -> double_is_zero py = true -> attribute l "stride_y" = Ok sy) ->
  ((exists e, snd (declare_layer ls i s) = Throw e) <->
   (double_is_zero px = false \/ double_is_zero py = false)) /\
  (double_is_zero px = false \/ double_is_zero py = false ->
   snd (declare_layer ls i s) = Throw padding_error) /\
  (double_is_zero px = true -> double_is_zero py = true ->
   declare_layer ls i s
   = (s ++ pooling_declaration l name pool nc nr sx sy px py, Ok tt)) /\
  (double_is_zero px = true -> double_is_zero py = true -> double_is_zero nc = true ->
   declare_layer ls i s
   = (s ++ "    n." ++ caffe_layer_name l ++ " = L.Pooling(n." ++ name
        ++ ", pool=P.Pooling." ++ pool ++ ", global_pooling=True"
        ++ ", stride_w=" ++ print_double sx ++ ", stride_h=" ++ print_double sy
        ++ ", pad_w=" ++ print_double px ++ ", pad_h=" ++ print_double py
        ++ ");" ++ endl,
      Ok tt)).
Proof.
  intros Hl Hs Hd Hin Hnc Hnr Hpx Hpy Hsx Hsy.
  rewrite (declare_pooling ls i l pool Hl Hs Hd).
  rewrite (pooling_runs ls i l pool name nc nr sx sy px py s Hin Hnc Hnr Hpx Hpy Hsx Hsy).
  destruct (double_is_zero px) eqn:Ex; destruct (double_is_zero py) eqn:Ey;
    cbn [negb orb snd].
  - split; [ split; [ intros [e He]; discriminate | intros [H | H]; discriminate ] | ].
    split; [ intros [H | H]; discriminate | ].
    split; [ reflexivity | ].
    intros _ _ Hz. unfold pooling_declaration. rewrite Hz. reflexivity.
  - split; [ split; [ auto | intros _; eexists; reflexivity ] | ].
    split; [ reflexivity | ]. split; intros; discriminate.
  - split; [ split; [ auto | intros _; eexists; reflexivity ] | ].
    split; [ reflexivity | ]. split; intros; discriminate.
  - split; [ split; [ auto | intros _; eexists; reflexivity ] | ].
    split; [ reflexivity | ]. split; intros; discriminate.
Qed.

(** ** Rows, ranges and transposition *)

Lemma map_nth_from {T} (d : T) (m : list T) :
  forall start len, (start + len <= length m)%nat ->
  map (fun k => nth (start + k) m d) (seq 0 len) = firstn len (skipn start m).
Proof.
  induction m as [ | x m IH]; intros start len Hle.
  - cbn [length] in Hle. assert (len = 0%nat) as -> by lia.
    now rewrite firstn_O.
  - destruct start as [ | start].
    + cbn [skipn Nat.add]. destruct len as [ | len]; [ reflexivity | ].
      cbn [seq map nth firstn]. f_equal.
      rewrite <- seq_shift, map_map.
      apply (IH 0%nat len). cbn [length] in Hle. lia.
    + cbn [skipn]. apply (IH start len). cbn [length] in Hle. lia.
Qed.

Lemma rowm_range {T} (m : matrix T) (a b : Z) :
  0 <= a -> a <= b -> b < mat_nr m ->
  rowm m (range a b)
  = Ok (firstn (Z.to_nat (b - a + 1)) (skipn (Z.to_nat a) m)).
Proof.
  intros Ha Hab Hb. unfold rowm, range.
  rewrite (proj2 (Z.leb_le a b) Hab).
  assert (Hall : forallb (row_in_range m)
                   (map (fun k => a + Z.of_nat k) (seq 0 (Z.to_nat (b - a + 1)))) = true).
  { apply forallb_forall. intros r Hr. apply in_map_iff in Hr.
    destruct Hr as (k & <- & Hk). apply in_seq in Hk.
    unfold row_in_range. apply andb_true_intro.
    split; [ apply Z.leb_le | apply Z.ltb_lt ]; lia. }
  rewrite Hall. f_equal. rewrite map_map.
  rewrite <- map_nth_from with (d := []) by (unfold mat_nr in Hb; lia).
  apply map_ext_in. intros k Hk. f_equal. lia.
Qed.

Lemma rowm_range_undefined {T} (m : matrix T) (a b : Z) :
  b < 0 \/ mat_nr m <= a \/ mat_nr m <= b \/ a < 0 ->
  rowm m (range a b) = @Undefined (matrix T).
Proof.
  intros Hout. unfold rowm.
  destruct (forallb (row_in_range m) (range a b)) eqn:Hall; [ exfalso | reflexivity ].
  rewrite forallb_forall in Hall.
  assert (Ha : In a (range a b)).
  { unfold range. destruct (a <=? b) eqn:E; apply in_map_iff; exists 0%nat;
      (split; [ lia | apply in_seq; lia ]). }
  assert (Hb : In b (range a b)).
  { unfold range. destruct (Z.leb_spec a b) as [E | E]; apply in_map_iff.
    - exists (Z.to_nat (b - a)). split; [ lia | apply in_seq; lia ].
    - exists (Z.to_nat (a - b)). split; [ lia | apply in_seq; lia ]. }
  apply Hall in Ha, Hb. unfold row_in_range in Ha, Hb.
  apply andb_prop in Ha, Hb. destruct Ha as [Ha1 Ha2], Hb as [Hb1 Hb2].
  apply Z.leb_le in Ha1, Hb1. apply Z.ltb_lt in Ha2, Hb2. lia.
Qed.

Lemma skipn_last_row {T} (m : matrix T) :
  (1 <= length m)%nat ->
  [nth (length m - 1) m []] = skipn (length m - 1) m.
Proof.
  intros Hlen.
  rewrite <- (firstn_all2 (n := 1) (skipn (length m - 1) m))
    by (rewrite length_skipn; lia).
  rewrite <- (map_nth_from [] m (length m - 1) 1) by lia.
  cbn [seq map]. now rewrite Nat.add_0_r.
Qed.

Lemma rowm1_last {T} (m : matrix T) :
  1 <= mat_nr m ->
  rowm1 m (mat_nr m - 1) = Ok (skipn (length m - 1) m).
Proof.
  intros Hnr. unfold rowm1, row_in_range, mat_nr in *.
  rewrite (proj2 (Z.leb_le _ _)), (proj2 (Z.ltb_lt _ _)) by lia.
  cbn [andb]. rewrite <- skipn_last_row by lia.
  do 3 f_equal. lia.
Qed.

Lemma column_vector_size {T} (m : matrix T) :
  column_vector m -> m <> [] -> mat_size m = mat_nr m.
Proof.
  intros Hcol Hne. unfold mat_size, mat_nc.
  destruct m as [ | r m']; [ contradiction | ].
  cbn [hd]. rewrite (Hcol r) by (left; reflexivity). lia.
Qed.

Lemma column_vector_rectangular {T} (m : matrix T) :
  column_vector m -> rectangular m.
Proof. intros Hcol r r' Hr Hr'. now rewrite (Hcol r), (Hcol r'). Qed.

Lemma rectangular_firstn {T} (m : matrix T) (k : nat) :
  rectangular m -> rectangular (firstn k m).
Proof.
  intros Hrect r r' Hr Hr'.
  apply Hrect; rewrite <- (firstn_skipn k m); apply in_or_app; now left.
Qed.

Lemma rectangular_skipn {T} (m : matrix T) (k : nat) :
  rectangular m -> rectangular (skipn k m).
Proof.
  intros Hrect r r' Hr Hr'.
  apply Hrect; rewrite <- (firstn_skipn k m); apply in_or_app; now right.
Qed.

Lemma length_concat_rows {T} (m : matrix T) (c : nat) :
  (forall r, In r m -> length r = c) ->
  length (concat m) = (length m * c)%nat.
Proof.
  induction m as [ | r m IH]; intros Hrows; [ reflexivity | ].
  cbn [concat length]. rewrite length_app, (Hrows r) by (left; reflexivity).
  rewrite IH by (intros r' Hr'; apply Hrows; now right). lia.
Qed.

Lemma length_column {T} (m : matrix T) (j : nat) :
  (forall r, In r m -> (j < length r)%nat) ->
  length (column m j) = length m.
Proof.
  induction m as [ | r m IH]; intros Hrows; [ reflexivity | ].
  unfold column in *. cbn [flat_map length]. rewrite length_app.
  rewrite IH by (intros r' Hr'; apply Hrows; now right).
  destruct (nth_error r j) as [x | ] eqn:E; [ reflexivity | ].
  apply nth_error_None in E. specialize (Hrows r (or_introl eq_refl)). lia.
Qed.

Lemma rectangular_rows {T} (m : matrix T) :
  rectangular m -> forall r, In r m -> length r = length (hd [] m).
Proof.
  intros Hrect r Hr. apply Hrect; [ exact Hr | ].
  destruct m as [ | r0 m']; [ contradiction | now left ].
Qed.

Lemma count_rectangular {T} (m : matrix T) :
  rectangular m -> Z.of_nat (length (elements m)) = mat_size m.
Proof.
  intros Hrect. unfold elements, mat_size, mat_nr, mat_nc.
  rewrite (length_concat_rows m (length (hd [] m))) by (apply rectangular_rows, Hrect).
  lia.
Qed.

Lemma count_trans {T} (m : matrix T) :
  rectangular m -> length (elements (trans m)) = length (elements m).
Proof.
  intros Hrect. unfold elements, trans.
  rewrite (length_concat_rows m (length (hd [] m))) by (apply rectangular_rows, Hrect).
  rewrite (length_concat_rows _ (length m)).
  - rewrite length_map, length_seq. lia.
  - intros col Hcol. apply in_map_iff in Hcol. destruct Hcol as (j & <- & Hj).
    apply in_seq in Hj. apply length_column. intros r Hr.
    rewrite (rectangular_rows m Hrect r Hr). lia.
Qed.

Lemma count_split {T} (m : matrix T) (k : nat) :
  (length (elements (firstn k m)) + length (elements (skipn k m)))%nat
  = length (elements m).
Proof.
  unfold elements. rewrite <- length_app, <- concat_app, firstn_skipn. reflexivity.
Qed.

(** ** C3 *)

Lemma con_blocks_column (l : layer) (nf : double) :
  attribute l "num_filters" = Ok nf ->
  column_vector (params l) ->
  0 < double_to_long nf < mat_nr (params l) ->
  con_blocks l
  = Ok (trans (rows_except_last (Z.to_nat (double_to_long nf)) (params l)),
        trans (last_rows (Z.to_nat (double_to_long nf)) (params l))).
Proof.
  intros Hnf Hcol Hn. unfold con_blocks. rewrite Hnf. cbn [rbind].
  assert (Hne : params l <> []).
  { intros E. rewrite E in Hn. unfold mat_nr in Hn. cbn [length] in Hn. lia. }
  rewrite (column_vector_size _ Hcol Hne).
  unfold mat_nr in *.
  rewrite rowm_range by (unfold mat_nr; lia). cbn [rbind].
  rewrite rowm_range by (unfold mat_nr; lia). cbn [rbind].
  unfold rows_except_last, last_rows. cbn [skipn Z.to_nat].
  replace (Z.to_nat (Z.of_nat (length (params l)) - double_to_long nf - 1 - 0 + 1))
    with (length (params l) - Z.to_nat (double_to_long nf))%nat by lia.
  replace (Z.to_nat (Z.of_nat (length (params l)) - double_to_long nf))
    with (length (params l) - Z.to_nat (double_to_long nf))%nat by lia.
  rewrite (firstn_all2 (n := Z.to_nat (Z.of_nat (length (params l)) - 1
                                     - (Z.of_nat (length (params l)) - double_to_long nf) + 1))
             (skipn (length (params l) - Z.to_nat (double_to_long nf)) (params l)))
    by (rewrite length_skipn; lia).
  reflexivity.
Qed.

Lemma relayout_con (l : layer) :
  detail_name l = "con" ->
  relayout l = rbind (con_blocks l) (fun wb => Ok [fst wb; snd wb]).
Proof. intros Hd. unfold relayout, detail_is. rewrite Hd. reflexivity. Qed.

Lemma relayout_fc (l : layer) :
  detail_name l = "fc" ->
  relayout l = rbind (fc_blocks l) (fun wb => Ok [fst wb; snd wb]).
Proof. intros Hd. unfold relayout, detail_is. rewrite Hd. reflexivity. Qed.

Lemma relayout_fc_no_bias (l : layer) :
  detail_name l = "fc_no_bias" -> relayout l = Ok [trans (params l)].
Proof. intros Hd. unfold relayout, detail_is. rewrite Hd. reflexivity. Qed.

Lemma relayout_affine (l : layer) :
  detail_name l = "affine_con" \/ detail_name l = "affine_fc" ->
  relayout l = rbind (affine_blocks l) (fun gb => Ok [fst gb; snd gb]).
Proof. intros [Hd | Hd]; unfold relayout, detail_is; rewrite Hd; reflexivity. Qed.

(** A layer with two blocks has them written to the parameter slots 0 and
    1 of its declaration, in this order. *)
Lemma set_layer_weights_two_blocks (ls : list layer) (i : nat) (l : layer)
  (w b : matrix double) (s : string) :
  riter_layer ls i = Some l ->
  skipped l = false ->
  relayout l = Ok [w; b] ->
  set_layer_weights ls i s
  = obind (put_block l "0" w) (fun _ => put_block l "1" b) s.
Proof.
  intros Hl Hs Hr. unfold set_layer_weights. rewrite Hl, Hs, Hr. reflexivity.
Qed.

(** C3 (as amended).  For a con record whose parameters are a single
    column with more than [n] rows, [n] its num_filters attribute and
    [n >= 1], the relayout gives exactly two blocks: the rows except the final
    [n], transposed, then the final [n] rows, transposed; and these are the
    two arrays written for the layer, to its parameter slots 0 and 1. *)
Theorem con_relayout (l : layer) (nf : double) :
  detail_name l = "con" ->
  attribute l "num_filters" = Ok nf ->
  column_vector (params l) ->
  0 < double_to_long nf < mat_nr (params l) ->
  relayout l
  = Ok [trans (rows_except_last (Z.to_nat (double_to_long nf)) (params l));
        trans (last_rows (Z.to_nat (double_to_long nf)) (params l))] /\
  forall ls i s,
    riter_layer ls i = Some l -> skipped l = false ->
    set_layer_weights ls i s
    = obind (put_block l "0"
               (trans (rows_except_last (Z.to_nat (double_to_long nf)) (params l))))
        (fun _ => put_block l "1"
                    (trans (last_rows (Z.to_nat (double_to_long nf)) (params l)))) s.
Proof.
  intros Hd Hnf Hcol Hn.
  assert (Hr : relayout l
               = Ok [trans (rows_except_last (Z.to_nat (double_to_long nf)) (params l));
                     trans (last_rows (Z.to_nat (double_to_long nf)) (params l))]).
  { rewrite (relayout_con l Hd), (con_blocks_column l nf Hnf Hcol Hn). reflexivity. }
  split; [ exact Hr | ].
  intros ls i s Hl Hs. now apply set_layer_weights_two_blocks.
Qed.

(** ** C5 *)

Lemma fc_blocks_rows (l : layer) :
  2 <= mat_nr (params l) ->
  fc_blocks l
  = Ok (trans (rows_except_last 1 (params l)), last_rows 1 (params l)).
Proof.
  intros Hnr. unfold fc_blocks.
  rewrite rowm_range by lia. cbn [rbind].
  rewrite rowm1_last by lia. cbn [rbind].
  unfold rows_except_last, last_rows, mat_nr in *. cbn [skipn Z.to_nat].
  replace (Z.to_nat (Z.of_nat (length (params l)) - 2 - 0 + 1))
    with (length (params l) - 1)%nat by lia.
  reflexivity.
Qed.

(** With a single row the weights of an fc record are asked for as the
    rows 0 and -1. *)
Lemma fc_blocks_one_row (l : layer) :
  mat_nr (params l) = 1 -> fc_blocks l = Undefined.
Proof.
  intros Hnr. unfold fc_blocks. rewrite rowm_range_undefined by lia. reflexivity.
Qed.

(** C5 (as amended).  For an fc record whose parameters have at least two
    rows, the relayout gives the rows except the last, transposed, then the
    last row as it is; and these are the two arrays written for the layer,
    to its parameter slots 0 and 1. *)
Theorem fc_relayout (l : layer) :
  detail_name l = "fc" ->
  2 <= mat_nr (params l) ->
  relayout l = Ok [trans (rows_except_last 1 (params l)); last_rows 1 (params l)] /\
  forall ls i s,
    riter_layer ls i = Some l -> skipped l = false ->
    set_layer_weights ls i s
    = obind (put_block l "0" (trans (rows_except_last 1 (params l))))
        (fun _ => put_block l "1" (last_rows 1 (params l))) s.
Proof.
  intros Hd Hnr.
  assert (Hr : relayout l
               = Ok [trans (rows_except_last 1 (params l)); last_rows 1 (params l)]).
  { rewrite (relayout_fc l Hd), (fc_blocks_rows l Hnr). reflexivity. }
  split; [ exact Hr | ].
  intros ls i s Hl Hs. now apply set_layer_weights_two_blocks.
Qed.

(** ** C4 *)

Lemma affine_blocks_column (l : layer) (d : Z) :
  column_vector (params l) ->
  0 < d -> mat_nr (params l) = 2 * d ->
  affine_blocks l
  = Ok (trans (firstn (Z.to_nat d) (params l)), trans (skipn (Z.to_nat d) (params l))).
Proof.
  intros Hcol Hd Hnr. unfold affine_blocks.
  assert (Hne : params l <> []).
  { intros E. rewrite E in Hnr. unfold mat_nr in Hnr. cbn [length] in Hnr. lia. }
  rewrite (column_vector_size _ Hcol Hne), Hnr.
  replace (2 * d / 2) with d by (rewrite Z.mul_comm, Z.div_mul; lia).
  rewrite rowm_range by lia. cbn [rbind].
  rewrite rowm_range by lia. cbn [rbind].
  cbn [skipn Z.to_nat].
  replace (Z.to_nat (d - 1 - 0 + 1)) with (Z.to_nat d) by lia.
  replace (Z.to_nat (2 * d - 1 - d + 1)) with (Z.to_nat d) by lia.
  rewrite (firstn_all2 (n := Z.to_nat d) (skipn (Z.to_nat d) (params l)))
    by (rewrite length_skipn; unfold mat_nr in Hnr; lia).
  reflexivity.
Qed.

Lemma count_two_blocks (m : matrix double) (k : nat) :
  rectangular m ->
  total_elements [trans (firstn k m); trans (skipn k m)] = mat_size m.
Proof.
  intros Hrect. unfold total_elements. cbn [fold_right].
  rewrite (count_trans _ (rectangular_firstn m k Hrect)).
  rewrite (count_trans _ (rectangular_skipn m k Hrect)).
  rewrite <- (count_rectangular m Hrect), <- (count_split m k). lia.
Qed.

(** C4 (as amended).  The blocks of a layer hold as many elements as its
    parameters matrix, for an fc_no_bias record; for an fc record with at
    least two rows; for a con record whose parameters are a single column
    with more rows than its num_filters, which is at least 1; and for an
    affine_con or affine_fc record whose parameters are a single column with
    an even, non-zero number of rows. *)
Theorem relayout_preserves_count (l : layer) :
  rectangular (params l) ->
  detail_name l = "fc_no_bias" \/
  (detail_name l = "fc" /\ 2 <= mat_nr (params l)) \/
  (detail_name l = "con" /\ column_vector (params l) /\
   exists nf, attribute l "num_filters" = Ok nf /\
              0 < double_to_long nf < mat_nr (params l)) \/
  ((detail_name l = "affine_con" \/ detail_name l = "affine_fc") /\
   column_vector (params l) /\
   exists d, 0 < d /\ mat_nr (params l) = 2 * d) ->
  exists blocks, relayout l = Ok blocks /\
                 total_elements blocks = mat_size (params l).
Proof.
  intros Hrect [Hd | [[Hd Hnr] | [(Hd & Hcol & nf & Hnf & Hn) | (Hd & Hcol & d & Hpos & Hnr)]]].
  - exists [trans (params l)]. split; [ apply relayout_fc_no_bias, Hd | ].
    unfold total_elements. cbn [fold_right].
    rewrite (count_trans _ Hrect), <- (count_rectangular _ Hrect). lia.
  - eexists. split.
    { rewrite (relayout_fc l Hd), (fc_blocks_rows l Hnr). reflexivity. }
    cbn [fst snd]. unfold rows_except_last, last_rows, total_elements. cbn [fold_right].
    rewrite (count_trans _ (rectangular_firstn _ _ Hrect)).
    rewrite <- (count_rectangular _ Hrect),
      <- (count_split (params l) (length (params l) - 1)). lia.
  - eexists. split.
    { rewrite (relayout_con l Hd), (con_blocks_column l nf Hnf Hcol Hn). reflexivity. }
    apply count_two_blocks, Hrect.
  - eexists. split.
    + rewrite (relayout_affine l Hd), (affine_blocks_column l d Hcol Hpos Hnr).
      reflexivity.
    + apply count_two_blocks, Hrect.
Qed.

End Properties.

(** ** The theorems at the sample documents *)

Lemma skip_resolution_witness :
  parse_dlib_xml chain_document = Ok chain_layers /\
  find_input_layer_caffe_name chain_layers (riter_at chain_layers 2) = Ok "max_pool6" /\
  exists j lj, (2 < j)%nat /\ nth_error chain_layers j = Some lj /\
    ((tag_id lj = 1 /\
      find_input_layer_caffe_name chain_layers (riter_at chain_layers 2)
      = Ok (caffe_layer_name lj)) \/
     (tag_id lj <> 1 /\ type lj = "input" /\
      find_input_layer_caffe_name chain_layers (riter_at chain_layers 2)
      = Throw skip_error)).
Proof.
  split; [ reflexivity | ]. split; [ reflexivity | ].
  destruct (@skip_resolution sample_numeric chain_document chain_layers 2
              (sample_layer "comp" 2 "relu" [] [] (-1) 1))
    as [(j & lj & Hkj & Hj & _ & Hres) _].
  - reflexivity.
  - reflexivity.
  - discriminate.
  - discriminate.
  - exists j, lj. split; [ exact Hkj | ]. split; [ exact Hj | exact Hres ].
Defined.

Lemma predecessor_resolution_witness :
  parse_dlib_xml chain_document = Ok chain_layers /\
  exists l', nth_error chain_layers (1 + 1) = Some l' /\
             find_input_layer_caffe_name chain_layers (riter_at chain_layers 1)
             = Ok (caffe_layer_name l').
Proof.
  split; [ reflexivity | ].
  apply (@predecessor_resolution sample_numeric chain_document chain_layers 1
           (sample_layer "comp" 1 "fc_no_bias" [("num_outputs", 10)] [] (-1) (-1))).
  - reflexivity.
  - reflexivity.
  - discriminate.
  - discriminate.
  - reflexivity.
Defined.

(** C2 as stated fails: the fc_no_bias layer at stored position 1 has no
    [skip_id], and the resolver returns the name of the layer at stored
    position 2, not the name of the layer at stored position 0. *)
Lemma predecessor_is_not_stored_before :
  parse_dlib_xml chain_document = Ok chain_layers /\
  exists l l', nth_error chain_layers 1 = Some l /\
    type l = "comp" /\ skip_id l = -1 /\
    nth_error chain_layers (1 - 1) = Some l' /\
    caffe_layer_name l' = "loss_multiclass_log0" /\
    find_input_layer_caffe_name chain_layers (riter_at chain_layers 1) = Ok "relu2" /\
    find_input_layer_caffe_name chain_layers (riter_at chain_layers 1)
    <> Ok (caffe_layer_name l').
Proof.
  split; [ reflexivity | ].
  eexists. eexists.
  repeat (split; [ reflexivity | ]).
  discriminate.
Qed.

Lemma tagged_input_is_found_witness :
  parse_dlib_xml tagged_input_document = Ok tagged_input_layers /\
  find_input_layer_caffe_name tagged_input_layers 1 = Ok "data" /\
  find_layer_caffe_name tagged_input_layers (riter_at tagged_input_layers 0) 2 = Ok "data".
Proof.
  split; [ reflexivity | ]. split; [ reflexivity | ].
  apply (@tagged_input_is_found sample_numeric tagged_input_layers 0 1
           (sample_layer "input" 4 "input" [] [] 2 (-1)) 2).
  - discriminate.
  - lia.
  - reflexivity.
  - reflexivity.
  - reflexivity.
  - intros m lm Hm. lia.
Defined.

Lemma parse_dlib_xml_checks_witness :
  parse_dlib_xml chain_document = Ok chain_layers /\
  chain_layers <> [] /\ type (last chain_layers empty_layer) = "input".
Proof.
  destruct (@parse_dlib_xml_checks sample_numeric chain_document
              (mk_doc_handler chain_layers true
                 (sample_layer "input" 7 "input_rgb_image" [] [] (-1) (-1)) [] (-1))
              eq_refl)
    as (_ & _ & Hret & Hpost).
  split; [ reflexivity | ].
  destruct (Hpost chain_layers eq_refl) as (_ & Hne & Hin).
  split; [ exact Hne | exact Hin ].
Defined.

(** In [tagged_input_document] the marker with id 9 is followed by the marker
    with id 2, which is the tag the input layer receives; the marker with
    id 7 closes the document and is dropped. *)
Lemma pending_tag_id_witness :
  parse_xml tagged_input_document new_doc_handler
  = Ok (mk_doc_handler tagged_input_layers true empty_layer [] 7) /\
  parse_dlib_xml tagged_input_document = Ok tagged_input_layers /\
  (exists dh', dispatch (@mk_doc_handler sample_numeric [] true empty_layer ["net"] 9)
                 [StartElement "layer" [("idx", "3"); ("type", "tag"); ("id", "2")];
                  EndElement "layer"] = Ok dh' /\
               dh_tag_id dh' = 2 /\ layers dh' = [] /\ seen_first_tag dh' = true).
Proof.
  split; [ reflexivity | ].
  split.
  - apply (proj2 (proj2 (proj2 (proj2 (proj2
             (@pending_tag_id sample_numeric
                (mk_doc_handler tagged_input_layers true empty_layer [] 7) eq_refl)))))
             tagged_input_document).
    + reflexivity.
    + discriminate.
    + discriminate.
    + reflexivity.
  - apply (proj1 (@pending_tag_id sample_numeric
                    (mk_doc_handler [] true empty_layer ["net"] 9) eq_refl)).
    split; [ reflexivity | ]. exists "2". split; reflexivity.
Defined.

Lemma unknown_input_conversion_witness :
  outcome (@convert_dlib_xml_to_cafffe_python_code sample_numeric "net.xml" pyramid_document)
  = Throw (error "No known transformation from dlib's input_rgb_image_pyramid layer to caffe.") /\
  fout (@convert_dlib_xml_to_cafffe_python_code sample_numeric "net.xml" pyramid_document)
  = preamble /\
  out_filename (@convert_dlib_xml_to_cafffe_python_code sample_numeric "net.xml" pyramid_document)
  = "net_dlib_to_caffe_model.py".
Proof.
  apply (@unknown_input_conversion sample_numeric "net.xml" pyramid_document
           [sample_layer "comp" 0 "relu" [] [] (-1) (-1);
            sample_layer "input" 1 "input_rgb_image_pyramid" [] [] (-1) (-1)]).
  - reflexivity.
  - discriminate.
  - discriminate.
  - discriminate.
Defined.

(** C8 as stated fails: the conversion of [pyramid_document] throws the
    error, and the output file exists and is not empty. *)
Lemma unknown_input_leaves_a_file :
  outcome (@convert_dlib_xml_to_cafffe_python_code sample_numeric "net.xml" pyramid_document)
  = Throw (unknown_layer_error "input_rgb_image_pyramid") /\
  out_filename (@convert_dlib_xml_to_cafffe_python_code sample_numeric "net.xml" pyramid_document)
  = "net_dlib_to_caffe_model.py" /\
  fout (@convert_dlib_xml_to_cafffe_python_code sample_numeric "net.xml" pyramid_document)
  = "import caffe " ++ endl ++ "from caffe import layers as L, params as P" ++ endl
    ++ "import numpy as np" ++ endl ++ endl ++ "# Input tensor dimensions" ++ endl
    ++ "batch_size = 1;" ++ endl /\
  fout (@convert_dlib_xml_to_cafffe_python_code sample_numeric "net.xml" pyramid_document)
  <> "".
Proof.
  split; [ reflexivity | ]. split; [ reflexivity | ]. split; [ reflexivity | ].
  vm_compute. discriminate.
Qed.

Lemma pooling_translation_witness :
  declare_layer global_pool_layers 1 "def make_netspec():"
  = ("def make_netspec():" ++ "    n.avg_pool0 = L.Pooling(n.data, pool=P.Pooling.AVE"
       ++ ", global_pooling=True, stride_w=1, stride_h=1, pad_w=0, pad_h=0);" ++ endl,
     Ok tt) /\
  attribute (sample_layer "comp" 0 "max_pool"
               [("padding_x", 1); ("padding_y", 0); ("nc", 3); ("nr", 3)] [] (-1) (-1))
            "stride_x"
  = Throw (error "Layer doesn't have the requested attribute 'stride_x'.") /\
  snd (declare_layer padded_pool_layers 1 "") = Throw padding_error.
Proof.
  split; [ | split; [ reflexivity | ] ].
  - apply (proj2 (proj2 (proj2
      (@pooling_translation sample_numeric global_pool_layers 1
         (sample_layer "comp" 0 "avg_pool"
            [("padding_x", 0); ("padding_y", 0); ("stride_x", 1); ("stride_y", 1);
             ("nc", 0); ("nr", 0)] [] (-1) (-1))
         "AVE" "data" 0 0 1 1 0 0 "def make_netspec():"
         eq_refl eq_refl (or_intror (conj eq_refl eq_refl)) eq_refl eq_refl
         (fun _ => eq_refl) eq_refl eq_refl (fun _ _ => eq_refl) (fun _ _ => eq_refl)))));
      reflexivity.
  - apply (proj1 (proj2
      (@pooling_translation sample_numeric padded_pool_layers 1
         (sample_layer "comp" 0 "max_pool"
            [("padding_x", 1); ("padding_y", 0); ("nc", 3); ("nr", 3)] [] (-1) (-1))
         "MAX" "data" 3 3 0 0 1 0 ""
         eq_refl eq_refl (or_introl (conj eq_refl eq_refl)) eq_refl eq_refl
         (fun _ => eq_refl) eq_refl eq_refl
         (fun (H : @double_is_zero sample_numeric 1 = true) _ =>
            match Bool.diff_false_true H with end)
         (fun (H : @double_is_zero sample_numeric 1 = true) _ =>
            match Bool.diff_false_true H with end)))).
    left. reflexivity.
Defined.

(** C7 as stated fails: the max_pool record of [dangling_pool_document] has
    both paddings zero, and its translation throws, since its skip marker
    names a tag that no layer carries.  So does the translation of the
    avg_pool record of [strideless_pool_layers], which has both paddings
    zero and no strides, and the one of the max_pool record of
    [heightless_pool_layers], which has both paddings zero, a kernel width
    and no kernel height. *)
Lemma pooling_throws_without_padding :
  (snd (declare_layer heightless_pool_layers 1 "")
   = Throw (error "Layer doesn't have the requested attribute 'nr'.") /\
   snd (declare_layer strideless_pool_layers 1 "")
   = Throw (error "Layer doesn't have the requested attribute 'stride_x'.") /\
   attribute (sample_layer "comp" 0 "avg_pool"
                [("padding_x", 0); ("padding_y", 0); ("nc", 0); ("nr", 0)] [] (-1) (-1))
             "padding_x" = Ok 0 /\
   attribute (sample_layer "comp" 0 "avg_pool"
                [("padding_x", 0); ("padding_y", 0); ("nc", 0); ("nr", 0)] [] (-1) (-1))
             "padding_y" = Ok 0) /\
  parse_dlib_xml dangling_pool_document = Ok dangling_pool_layers /\
  (exists l, riter_layer dangling_pool_layers 1 = Some l /\
             detail_name l = "max_pool" /\
             attribute l "padding_x" = Ok 0 /\ attribute l "padding_y" = Ok 0 /\
             @double_is_zero sample_numeric 0 = true) /\
  snd (declare_layer dangling_pool_layers 1 "") = Throw skip_error /\
  ~ ((exists e, snd (declare_layer dangling_pool_layers 1 "") = Throw e) <->
     (@double_is_zero sample_numeric 0 = false \/ @double_is_zero sample_numeric 0 = false)).
Proof.
  split; [ repeat split; reflexivity | ].
  split; [ reflexivity | ].
  split; [ eexists; repeat (split; [ reflexivity | ]); reflexivity | ].
  split; [ reflexivity | ].
  intros [Hthrows _].
  destruct Hthrows as [H | H]; [ eexists; reflexivity | discriminate H | discriminate H ].
Qed.

Lemma con_relayout_witness :
  relayout con_layer = Ok [[[1; 2; 3]]; [[4; 5]]] /\
  snd (set_layer_weights [con_layer; sample_layer "input" 4 "input" [] [] (-1) (-1)] 1 "")
  = Ok tt.
Proof.
  destruct (@con_relayout sample_numeric con_layer 2) as [Hblocks Hwritten].
  - reflexivity.
  - reflexivity.
  - intros r Hr. cbn in Hr. intuition (subst; reflexivity).
  - cbn. lia.
  - split; [ exact Hblocks | ].
    rewrite (Hwritten [con_layer; sample_layer "input" 4 "input" [] [] (-1) (-1)]
               1%nat "" eq_refl eq_refl).
    reflexivity.
Defined.

(** C3 as stated fails on a parameters matrix that is not a single
    column, on one whose rows are all biases, and on num_filters zero: the
    row ranges leave the matrix. *)
Lemma con_relayout_leaves_the_matrix :
  (params con_two_columns_layer <> [] /\
   attribute con_two_columns_layer "num_filters" = Ok 1 /\
   relayout con_two_columns_layer = Undefined /\
   relayout con_two_columns_layer
   <> Ok [trans (rows_except_last 1 (params con_two_columns_layer));
          trans (last_rows 1 (params con_two_columns_layer))]) /\
  (params con_only_biases_layer <> [] /\
   attribute con_only_biases_layer "num_filters" = Ok 2 /\
   relayout con_only_biases_layer = Undefined /\
   relayout con_only_biases_layer
   <> Ok [trans (rows_except_last 2 (params con_only_biases_layer));
          trans (last_rows 2 (params con_only_biases_layer))]) /\
  (params con_no_biases_layer <> [] /\
   attribute con_no_biases_layer "num_filters" = Ok 0 /\
   relayout con_no_biases_layer = Undefined /\
   relayout con_no_biases_layer
   <> Ok [trans (rows_except_last 0 (params con_no_biases_layer));
          trans (last_rows 0 (params con_no_biases_layer))]).
Proof.
  repeat split; try reflexivity; try discriminate.
Qed.

Lemma fc_relayout_witness :
  relayout fc_layer = Ok [[[1; 3]; [2; 4]]; [[5; 6]]] /\
  snd (set_layer_weights [fc_layer; sample_layer "input" 2 "input" [] [] (-1) (-1)] 1 "")
  = Ok tt.
Proof.
  destruct (@fc_relayout sample_numeric fc_layer) as [Hblocks Hwritten].
  - reflexivity.
  - cbn. lia.
  - split; [ exact Hblocks | ].
    rewrite (Hwritten [fc_layer; sample_layer "input" 2 "input" [] [] (-1) (-1)]
               1%nat "" eq_refl eq_refl).
    reflexivity.
Defined.

(** C5 as stated fails on a parameters matrix of one row: the row range of
    the weights, [range 0 (-1)], leaves the matrix. *)
Lemma fc_relayout_one_row :
  params fc_one_row_layer <> [] /\
  range 0 (mat_nr (params fc_one_row_layer) - 2) = [0; -1] /\
  relayout fc_one_row_layer = Undefined /\
  relayout fc_one_row_layer
  <> Ok [trans (rows_except_last 1 (params fc_one_row_layer));
         last_rows 1 (params fc_one_row_layer)].
Proof.
  repeat split; try reflexivity; discriminate.
Qed.

Lemma relayout_preserves_count_witness :
  exists blocks, relayout affine_layer = Ok blocks /\
                 total_elements blocks = mat_size (params affine_layer).
Proof.
  apply (@relayout_preserves_count sample_numeric affine_layer).
  - apply column_vector_rectangular.
    intros r Hr. cbn in Hr. intuition (subst; reflexivity).
  - right. right. right. split; [ left; reflexivity | ]. split.
    + intros r Hr. cbn in Hr. intuition (subst; reflexivity).
    + exists 2. split; [ lia | reflexivity ].
Defined.

(** C4 as stated fails: an affine record with three parameters gets two
    blocks of one element each. *)
Lemma relayout_drops_an_element :
  relayout affine_odd_layer = Ok [[[1]]; [[2]]] /\
  @total_elements sample_numeric [[[1]]; [[2]]] = 2 /\
  mat_size (params affine_odd_layer) = 3 /\
  ~ (exists blocks, relayout affine_odd_layer = Ok blocks /\
                    total_elements blocks = mat_size (params affine_odd_layer)).
Proof.
  split; [ reflexivity | ]. split; [ reflexivity | ]. split; [ reflexivity | ].
  intros (blocks & Hb & Hcount).
  assert (E : blocks = [[[1]]; [[2]]]) by (vm_compute in Hb; congruence).
  subst blocks. vm_compute in Hcount. discriminate.
Qed.

(** * Further properties *)

Section FurtherProperties.
Context `{N : Numeric}.

(** ** The resolver stays inside the list *)

Lemma resolver_at_offset (ls : list layer) (i : nat) (l : layer) (t : Z) :
  ls <> [] -> type (last ls empty_layer) = "input" ->
  riter_layer ls i = Some l -> type l <> "input" ->
  (exists name, find_layer_caffe_name ls i t = Ok name) \/
  find_layer_caffe_name ls i t = Throw skip_error.
Proof.
  intros Hne Hin Hl Hty.
  assert (Hi : (i < length ls)%nat).
  { unfold riter_layer in Hl. rewrite <- (length_rev ls).
    apply nth_error_Some. congruence. }
  rewrite riter_layer_stored in Hl by exact Hi.
  pose proof (not_input_before_back ls _ l Hin Hl Hty) as Hlt.
  replace i with (length ls - 1 - (length ls - 1 - i))%nat by lia.
  set (k := (length ls - 1 - i)%nat) in *.
  destruct (Z.eq_dec t (-1)) as [-> | Ht].
  - left. unfold find_layer_caffe_name. cbn [Z.eqb Pos.eqb Z.opp].
    destruct (length ls - 1 - k)%nat as [ | j] eqn:Ej; [ lia | ].
    destruct (riter_layer_defined ls j) as [lj Hj]; [ lia | ].
    rewrite Hj. eauto.
  - rewrite (find_layer_scans _ _ _ Ht).
    destruct (scan_from_stored ls k t Hne Hin Hlt)
      as (j & lj & _ & _ & _ & [[_ Hok] | (_ & _ & Hthrow)]).
    + left. eauto.
    + right. exact Hthrow.
Qed.

(** X1.  In a list returned by the parser, from a record that is not an
    input layer the resolver never steps before [rbegin()], whatever tag it
    is asked for: it returns a name or throws the skip error. *)
Theorem resolver_in_contract (document : list xml_event) (ls : list layer)
  (k : nat) (l : layer) (t : Z) :
  parse_dlib_xml document = Ok ls ->
  nth_error ls k = Some l ->
  type l <> "input" ->
  (exists name, find_layer_caffe_name ls (riter_at ls k) t = Ok name) \/
  find_layer_caffe_name ls (riter_at ls k) t = Throw skip_error.
Proof.
  intros Hparse Hk Hty.
  destruct (parse_dlib_xml_returns _ _ Hparse) as [Hne Hin].
  apply (resolver_at_offset ls (riter_at ls k) l t Hne Hin); [ | exact Hty ].
  unfold riter_at. rewrite riter_layer_of_stored by (eapply nth_error_bound; eauto).
  exact Hk.
Qed.

(** ** Where a conversion can leave the contract of the library *)

Lemma uoi_put (P : Prop) (text : string) : undefined_only_if P (put text).
Proof. intros s H. discriminate H. Qed.

Lemma uoi_oret {A} (P : Prop) (a : A) : undefined_only_if P (oret a).
Proof. intros s H. discriminate H. Qed.

Lemma uoi_throw {A} (P : Prop) (e : exception) : undefined_only_if P (@throw A e).
Proof. intros s H. discriminate H. Qed.

Lemma uoi_lift {A} (P : Prop) (r : result A) :
  r <> Undefined -> undefined_only_if P (lift r).
Proof. intros Hr s H. cbn in H. contradiction. Qed.

Lemma uoi_bind {A B} (P : Prop) (m : ostream A) (k : A -> ostream B) :
  undefined_only_if P m -> (forall a, undefined_only_if P (k a)) ->
  undefined_only_if P (obind m k).
Proof.
  intros Hm Hk s H. unfold obind in H.
  destruct (m s) as [s' [a | e | ]] eqn:Em.
  - apply (Hk a s' H).
  - discriminate H.
  - apply (Hm s). rewrite Em. reflexivity.
Qed.

Lemma uoi_for_each {A} (P : Prop) (xs : list A) (body : A -> ostream unit) :
  (forall x, In x xs -> undefined_only_if P (body x)) ->
  undefined_only_if P (for_each xs body).
Proof.
  induction xs as [ | x xs IH]; intros Hbody; cbn [for_each].
  - apply uoi_oret.
  - apply uoi_bind; [ apply Hbody; now left | intros _ ].
    apply IH. intros y Hy. apply Hbody. now right.
Qed.

Lemma attribute_defined (l : layer) (key : string) : attribute l key <> Undefined.
Proof. unfold attribute. destruct (find_attribute _ _); discriminate. Qed.

Lemma has_padding_defined (l : layer) : has_padding l <> Undefined.
Proof.
  unfold has_padding, attribute.
  destruct (find_attribute (attributes l) "padding_x") as [px | ]; cbn [rbind];
    [ | discriminate ].
  destruct (negb (double_is_zero px)); [ discriminate | ].
  destruct (find_attribute (attributes l) "padding_y"); discriminate.
Qed.

Lemma uoi_put_attribute (P : Prop) (label : string) (l : layer) (key : string) :
  undefined_only_if P (put_attribute label l key).
Proof.
  unfold put_attribute. apply uoi_bind; [ apply uoi_put | intros _ ].
  apply uoi_bind; [ apply uoi_lift, attribute_defined | intros v; apply uoi_put ].
Qed.

Lemma uoi_put_head (P : Prop) (ls : list layer) (i : nat) (l : layer)
  (caffe_type : string) :
  ls <> [] -> type (last ls empty_layer) = "input" ->
  riter_layer ls i = Some l -> type l <> "input" ->
  undefined_only_if P (put_head ls i l caffe_type).
Proof.
  intros Hne Hin Hl Hty. unfold put_head.
  do 3 (apply uoi_bind; [ apply uoi_put | intros _ ]).
  apply uoi_bind; [ | intros name; apply uoi_put ].
  apply uoi_lift. unfold find_input_layer_caffe_name. rewrite Hl.
  destruct (resolver_at_offset ls i l (skip_id l) Hne Hin Hl Hty) as [[name ->] | ->];
    discriminate.
Qed.

Lemma uoi_pooling (P : Prop) (ls : list layer) (i : nat) (l : layer) (pool : string) :
  ls <> [] -> type (last ls empty_layer) = "input" ->
  riter_layer ls i = Some l -> type l <> "input" ->
  undefined_only_if P (pooling ls i l pool).
Proof.
  intros Hne Hin Hl Hty. unfold pooling.
  apply uoi_bind; [ now apply uoi_put_head | intros _ ].
  apply uoi_bind; [ apply uoi_put | intros _ ].
  apply uoi_bind; [ apply uoi_lift, attribute_defined | intros nc ].
  apply uoi_bind.
  { destruct (double_is_zero nc); [ apply uoi_put | ].
    apply uoi_bind; [ apply uoi_put_attribute | intros _; apply uoi_put_attribute ]. }
  intros _. apply uoi_bind; [ apply uoi_lift, has_padding_defined | intros padded ].
  apply uoi_bind; [ destruct padded; [ apply uoi_throw | apply uoi_oret ] | intros _ ].
  do 4 (apply uoi_bind; [ apply uoi_put_attribute | intros _ ]).
  apply uoi_put.
Qed.

Lemma skipped_false_not_input (l : layer) : skipped l = false -> type l <> "input".
Proof.
  unfold skipped. intros H. apply orb_false_elim in H. destruct H as [_ H].
  now apply String.eqb_neq.
Qed.

Lemma uoi_declare_layer (P : Prop) (ls : list layer) (i : nat) :
  ls <> [] -> type (last ls empty_layer) = "input" ->
  (i < length ls)%nat ->
  undefined_only_if P (declare_layer ls i).
Proof.
  intros Hne Hin Hi. unfold declare_layer.
  destruct (riter_layer_defined ls i Hi) as [l Hl]. rewrite Hl.
  destruct (skipped l) eqn:Hs; [ apply uoi_oret | ].
  pose proof (skipped_false_not_input l Hs) as Hty.
  assert (Hhead : forall caffe_type, undefined_only_if P (put_head ls i l caffe_type))
    by (intros; now apply uoi_put_head).
  repeat match goal with
         | |- undefined_only_if _ (if ?b then _ else _) => destruct b
         end;
    try (apply uoi_pooling; assumption);
    try apply uoi_throw;
    repeat first
      [ apply uoi_put
      | apply uoi_put_attribute
      | apply Hhead
      | apply uoi_bind; [ | intros ? ] ].
  - apply uoi_lift, attribute_defined.
  - apply uoi_lift.
    match goal with
    | |- find_layer_caffe_name ls i ?t <> _ =>
        destruct (resolver_at_offset ls i l t Hne Hin Hl Hty) as [[name ->] | ->];
          discriminate
    end.
Qed.

(** ** What is printed for a block *)

Lemma append_empty_r (a : string) : a ++ "" = a.
Proof. induction a as [ | c a IH]; cbn; [ reflexivity | now rewrite IH ]. Qed.

Lemma for_each_elements (xs : list double) (s : string) :
  for_each xs (fun x => obind (put (print_double x)) (fun _ => put ",")) s
  = (s ++ fold_right (fun x rest => print_double x ++ "," ++ rest) "" xs, Ok tt).
Proof.
  revert s. induction xs as [ | x xs IH]; intros s; cbn [for_each fold_right].
  - unfold oret. now rewrite append_empty_r.
  - rewrite obind_returns with (s' := s ++ print_double x ++ ",") (a := tt).
    + rewrite IH. now rewrite !append_assoc.
    + rewrite obind_put. unfold put. now rewrite append_assoc.
Qed.

Lemma print_as_np_array_runs (m : matrix double) (s : string) :
  print_as_np_array m s
  = (s ++ "np.array(["
       ++ fold_right (fun x rest => print_double x ++ "," ++ rest) "" (elements m)
       ++ "], dtype='float32')",
     Ok tt).
Proof.
  unfold print_as_np_array. rewrite obind_put.
  rewrite (obind_returns _ _ _ _ _ (for_each_elements (elements m) _)).
  unfold put. now rewrite !append_assoc.
Qed.

(** X2.  [print_as_np_array] never fails, and appends the opening text,
    every element of the matrix in row-major order, each followed by a comma
    (the last one too), and the closing text; for a matrix without elements
    it appends [np.array([], dtype='float32')]. *)
Theorem print_as_np_array_text (m : matrix double) (s : string) :
  print_as_np_array m s
  = (s ++ "np.array(["
       ++ fold_right (fun x rest => print_double x ++ "," ++ rest) "" (elements m)
       ++ "], dtype='float32')",
     Ok tt) /\
  (elements m = [] ->
   print_as_np_array m s = (s ++ "np.array([], dtype='float32')", Ok tt)).
Proof.
  pose proof (print_as_np_array_runs m s) as H.
  split; [ exact H | ].
  intros Hempty. rewrite H, Hempty. reflexivity.
Qed.

Lemma put_block_returns (l : layer) (slot : string) (m : matrix double) (s : string) :
  snd (put_block l slot m s) = Ok tt.
Proof.
  unfold put_block. rewrite obind_put.
  rewrite (obind_returns _ _ _ _ _ (print_as_np_array_runs m _)).
  reflexivity.
Qed.

Lemma uoi_put_block (P : Prop) (l : layer) (slot : string) (m : matrix double) :
  undefined_only_if P (put_block l slot m).
Proof. intros s H. rewrite put_block_returns in H. discriminate H. Qed.

Lemma riter_layer_in (ls : list layer) (i : nat) (l : layer) :
  riter_layer ls i = Some l -> In l ls.
Proof. intros H. apply in_rev. eapply nth_error_In. exact H. Qed.

Lemma uoi_set_layer_weights (ls : list layer) (i : nat) :
  (i < length ls)%nat ->
  undefined_only_if
    (exists l, In l ls /\ skipped l = false /\ relayout l = Undefined)
    (set_layer_weights ls i).
Proof.
  intros Hi. unfold set_layer_weights.
  destruct (riter_layer_defined ls i Hi) as [l Hl]. rewrite Hl.
  destruct (skipped l) eqn:Hs; [ apply uoi_oret | ].
  intros s H. unfold obind, lift in H.
  destruct (relayout l) as [blocks | e | ] eqn:Hr.
  - destruct blocks as [ | b0 [ | b1 [ | b2 rest]]]; try discriminate H.
    + rewrite put_block_returns in H. discriminate H.
    + revert H. apply uoi_bind; [ apply uoi_put_block | intros _; apply uoi_put_block ].
  - discriminate H.
  - exists l. split; [ eapply riter_layer_in; eauto | auto ].
Qed.

Lemma uoi_input_dimensions (P : Prop) (input : layer) :
  undefined_only_if P (input_dimensions input).
Proof.
  unfold input_dimensions.
  repeat match goal with
         | |- undefined_only_if _ (if ?b then _ else _) => destruct b
         end;
    try apply uoi_throw;
    repeat first
      [ apply uoi_put | apply uoi_put_attribute | apply uoi_bind; [ | intros ? ] ].
Qed.

(** A closing tag met with no element open is the one event at which the
    handler leaves the contract of the library. *)
Lemma atts_get_defined (atts : attribute_list) (key : string) :
  atts_get atts key <> Undefined.
Proof.
  induction atts as [ | [k v] rest IH]; cbn [atts_get]; [ discriminate | ].
  destruct (String.eqb k key); [ discriminate | exact IH ].
Qed.

Lemma cast_defined {A} (sa : string -> option A) (text : string) :
  cast sa text <> Undefined.
Proof. unfold cast. destruct (sa text); discriminate. Qed.

Lemma copy_attributes_defined (atts : attribute_list) :
  forall acc, copy_attributes atts acc <> Undefined.
Proof.
  induction atts as [ | [k text] rest IH]; intros acc; cbn [copy_attributes];
    [ discriminate | ].
  pose proof (cast_defined sa_double text) as Hc.
  destruct (cast sa_double text) as [v | e | ]; cbn [rbind];
    [ apply IH | discriminate | contradiction ].
Qed.

Lemma rbind_defined {A B} (m : result A) (k : A -> result B) :
  m <> Undefined -> (forall a, k a <> Undefined) -> rbind m k <> Undefined.
Proof.
  intros Hm Hk. destruct m as [a | e | ]; cbn [rbind];
    [ apply Hk | discriminate | contradiction ].
Qed.

Lemma start_layer_defined (dh : doc_handler) (atts : attribute_list) :
  start_layer dh atts <> Undefined.
Proof.
  unfold start_layer.
  apply rbind_defined; [ apply atts_get_defined | intros ty ].
  destruct (String.eqb ty "skip").
  - destruct (_ =? _)%nat; [ discriminate | ].
    apply rbind_defined; [ apply atts_get_defined | intros text ].
    apply rbind_defined; [ apply cast_defined | intros id; discriminate ].
  - destruct (String.eqb ty "tag").
    + apply rbind_defined; [ apply atts_get_defined | intros text ].
      apply rbind_defined; [ apply cast_defined | intros id; discriminate ].
    + apply rbind_defined; [ apply atts_get_defined | intros text ].
      apply rbind_defined; [ apply cast_defined | intros i ].
      destruct (negb _); discriminate.
Qed.

Lemma start_element_defined (dh : doc_handler) (name : string) (atts : attribute_list) :
  start_element dh name atts <> Undefined.
Proof.
  unfold start_element.
  apply rbind_defined.
  { destruct (negb (seen_first_tag dh)); [ | discriminate ].
    destruct (negb (String.eqb name "net")); discriminate. }
  intros dh1. apply rbind_defined; [ | intros dh2; discriminate ].
  destruct (String.eqb name "layer"); [ apply start_layer_defined | ].
  destruct (top_is (current_tag dh1) "layer"); [ | discriminate ].
  unfold start_detail.
  apply rbind_defined; [ apply copy_attributes_defined | intros a; discriminate ].
Qed.

Lemma handle_undefined (dh : doc_handler) (ev : xml_event) :
  handle dh ev = Undefined ->
  (exists name, ev = EndElement name) /\ current_tag dh = [].
Proof.
  destruct ev as [name atts | name | data | target data]; cbn [handle]; intros H.
  - exfalso. exact (start_element_defined dh name atts H).
  - split; [ now exists name | ].
    unfold end_element in H. destruct (current_tag dh) as [ | top stack]; [ reflexivity | ].
    destruct (_ && _); discriminate H.
  - discriminate H.
  - discriminate H.
Qed.

Lemma dispatch_undefined (document : list xml_event) :
  forall dh,
    dispatch dh document = Undefined ->
    exists pre name rest dh',
      document = (pre ++ EndElement name :: rest)%list /\
      dispatch dh pre = Ok dh' /\ current_tag dh' = [].
Proof.
  induction document as [ | ev rest IH]; intros dh H; [ discriminate H | ].
  cbn [dispatch] in H. destruct (handle dh ev) as [dh1 | e | ] eqn:Hev; cbn [rbind] in H.
  - destruct (IH dh1 H) as (pre & name & rest' & dh' & -> & Hrun & Hstack).
    exists (ev :: pre), name, rest', dh'. split; [ reflexivity | ].
    split; [ cbn [dispatch]; rewrite Hev; exact Hrun | exact Hstack ].
  - discriminate H.
  - destruct (handle_undefined dh ev Hev) as [[name ->] Hstack].
    exists [], name, rest, dh. auto.
Qed.

Lemma parse_dlib_xml_undefined (document : list xml_event) :
  parse_dlib_xml document = Undefined ->
  exists pre name rest dh,
    document = (pre ++ EndElement name :: rest)%list /\
    parse_xml pre new_doc_handler = Ok dh /\ current_tag dh = [].
Proof.
  unfold parse_dlib_xml. intros H.
  destruct (parse_xml document new_doc_handler) as [dh | e | ] eqn:Hp; cbn [rbind] in H.
  - destruct (_ =? _)%nat; [ discriminate H | ]. destruct (negb _); discriminate H.
  - discriminate H.
  - exact (dispatch_undefined document _ Hp).
Qed.

(** X3.  Where the conversions of [double] to [long] are defined, a
    conversion leaves the contract of the library only in the parser, at a
    closing tag met with no element open, or in the parameter relayout of a
    translated layer, where a row range leaves the matrix: the resolver, the
    declarations of the layers, the input dimensions and the printing never
    do. *)
Theorem conversion_in_contract (xml_filename : string) (document : list xml_event) :
  outcome (convert_dlib_xml_to_cafffe_python_code xml_filename document) = Undefined ->
  (forall ls, parse_dlib_xml document = Ok ls -> conversions_fit ls) ->
  (exists pre name rest dh,
     document = (pre ++ EndElement name :: rest)%list /\
     parse_xml pre new_doc_handler = Ok dh /\ current_tag dh = []) \/
  (exists ls l, parse_dlib_xml document = Ok ls /\ In l ls /\
                skipped l = false /\ relayout l = Undefined).
Proof.
  unfold convert_dlib_xml_to_cafffe_python_code. cbn [outcome].
  unfold write_model.
  destruct (parse_dlib_xml document) as [ls | e | ] eqn:Hparse.
  - intros H _. right. exists ls.
    destruct (parse_dlib_xml_returns _ _ Hparse) as [Hne Hin].
    rewrite obind_lift_ok in H.
    enough (Hl : exists l, In l ls /\ skipped l = false /\ relayout l = Undefined).
    { destruct Hl as (l & Hl). exists l. auto. }
    revert H.
    repeat first
      [ apply uoi_put
      | apply uoi_input_dimensions
      | apply uoi_bind; [ | intros ? ] ].
    + apply uoi_for_each. intros i Hi. apply in_seq in Hi.
      apply uoi_declare_layer; [ exact Hne | exact Hin | lia ].
    + apply uoi_for_each. intros i Hi. apply in_seq in Hi.
      apply uoi_set_layer_weights. lia.
  - intros H. discriminate H.
  - intros _ _. left. now apply parse_dlib_xml_undefined.
Qed.

(** ** Layers the translator has no branch for *)

(** X4.  A translated layer whose detail name is none of the eleven names
    the first loop compares with is rejected with "No known transformation
    from dlib's <detail> layer to caffe.", and nothing of it is written: this
    is so for prelu and affine, whose parameters the parser does read. *)
Theorem unknown_detail_rejected (ls : list layer) (i : nat) (l : layer) (s : string) :
  riter_layer ls i = Some l ->
  skipped l = false ->
  ~ In (detail_name l) known_details ->
  declare_layer ls i s
  = (s, Throw (error ("No known transformation from dlib's " ++ detail_name l
                      ++ " layer to caffe."))).
Proof.
  intros Hl Hs Hn. unfold declare_layer, detail_is. rewrite Hl, Hs.
  repeat match goal with
         | |- context [String.eqb (detail_name l) ?name] =>
             let E := fresh "E" in
             assert (E : String.eqb (detail_name l) name = false)
               by (apply String.eqb_neq; intros E; apply Hn; rewrite E; cbn; tauto);
             rewrite E; clear E
         end.
  reflexivity.
Qed.

(** ** The second loop after the first *)

Lemma rowm_never_throws (m : matrix double) (rows : list Z) (e : exception) :
  rowm m rows <> Throw e.
Proof. unfold rowm. destruct (forallb _ _); discriminate. Qed.

Lemma rowm1_never_throws (m : matrix double) (row : Z) (e : exception) :
  rowm1 m row <> Throw e.
Proof. unfold rowm1. destruct (row_in_range _ _); discriminate. Qed.

Lemma rbind_throws {A B} (r : result A) (k : A -> result B) (e : exception) :
  rbind r k = Throw e -> r = Throw e \/ exists a, r = Ok a /\ k a = Throw e.
Proof.
  destruct r as [a | e' | ]; cbn [rbind]; intros H.
  - right. eauto.
  - left. injection H as ->. reflexivity.
  - discriminate H.
Qed.

(** Two row selections followed by a pure step never throw. *)
Lemma two_rows_never_throw {B} (r1 r2 : result (matrix double))
  (k : matrix double -> matrix double -> B) (e : exception) :
  (forall e', r1 <> Throw e') -> (forall e', r2 <> Throw e') ->
  rbind r1 (fun x => rbind r2 (fun y => Ok (k x y))) <> Throw e.
Proof.
  intros H1 H2 H. apply rbind_throws in H. destruct H as [H | (x & _ & H)].
  - exact (H1 _ H).
  - apply rbind_throws in H. destruct H as [H | (y & _ & H)]; [ exact (H2 _ H) | ].
    discriminate H.
Qed.

Lemma relayout_throws (l : layer) (e : exception) :
  relayout l = Throw e ->
  detail_name l = "con" /\ attribute l "num_filters" = Throw e.
Proof.
  unfold relayout, detail_is.
  destruct (String.eqb_spec (detail_name l) "con") as [Hcon | _].
  - intros H. apply rbind_throws in H. destruct H as [H | (wb & _ & H)];
      [ | discriminate H ].
    unfold con_blocks in H. apply rbind_throws in H.
    destruct H as [H | (nf & _ & H)]; [ auto | exfalso ].
    revert H. apply two_rows_never_throw; intros e'; apply rowm_never_throws.
  - destruct (String.eqb (detail_name l) "fc").
    + intros H. exfalso. apply rbind_throws in H.
      destruct H as [H | (wb & _ & H)]; [ | discriminate H ].
      revert H. unfold fc_blocks. apply two_rows_never_throw; intros e'.
      * apply rowm_never_throws.
      * apply rowm1_never_throws.
    + destruct (String.eqb (detail_name l) "fc_no_bias"); [ discriminate | ].
      destruct (String.eqb (detail_name l) "affine_con"
                || String.eqb (detail_name l) "affine_fc"); [ | discriminate ].
      intros H. exfalso. apply rbind_throws in H.
      destruct H as [H | (gb & _ & H)]; [ | discriminate H ].
      revert H. unfold affine_blocks. apply two_rows_never_throw; intros e';
        apply rowm_never_throws.
Qed.

Lemma declared_con_has_num_filters (ls : list layer) (i : nat) (l : layer)
  (s : string) (e : exception) :
  riter_layer ls i = Some l ->
  skipped l = false ->
  detail_name l = "con" ->
  attribute l "num_filters" = Throw e ->
  snd (declare_layer ls i s) <> Ok tt.
Proof.
  intros Hl Hs Hd He. unfold declare_layer, detail_is. rewrite Hl, Hs, Hd.
  cbn [String.eqb Ascii.eqb Bool.eqb].
  unfold obind at 1.
  destruct (put_head ls i l "Convolution" s) as [s1 [[] | e1 | ]]; cbn [snd];
    try discriminate.
  unfold obind at 1. unfold put_attribute.
  rewrite obind_put, He. cbn. discriminate.
Qed.

(** X5.  The second loop cannot throw at a layer the first loop has
    declared: the only attribute the relayout reads, num_filters of a con
    layer, was printed by the declaration.  At such a layer the second loop
    writes its blocks or leaves the contract of [rowm]. *)
Theorem weights_after_declaration (ls : list layer) (i : nat) (l : layer)
  (s s' : string) (e : exception) :
  riter_layer ls i = Some l ->
  skipped l = false ->
  snd (declare_layer ls i s) = Ok tt ->
  relayout l <> Throw e /\ snd (set_layer_weights ls i s') <> Throw e.
Proof.
  intros Hl Hs Hdecl.
  assert (Hr : relayout l <> Throw e).
  { intros Hr. destruct (relayout_throws l e Hr) as [Hd He].
    exact (declared_con_has_num_filters ls i l s e Hl Hs Hd He Hdecl). }
  split; [ exact Hr | ].
  unfold set_layer_weights. rewrite Hl, Hs. unfold obind at 1, lift.
  destruct (relayout l) as [blocks | e' | ] eqn:Eb.
  - destruct blocks as [ | b0 [ | b1 [ | b2 rest]]]; try discriminate.
    + rewrite put_block_returns. discriminate.
    + unfold obind.
      pose proof (put_block_returns l "0" b0 s') as H0.
      destruct (put_block l "0" b0 s') as [s0 r0]. cbn [snd] in H0. subst r0.
      rewrite put_block_returns. discriminate.
  - cbn [snd]. intros H. apply Hr. injection H as ->. reflexivity.
  - discriminate.
Qed.

(** ** The order of the parameters of a single column *)

Lemma column_of_column_vector (m : matrix double) :
  column_vector m -> column m 0 = concat m.
Proof.
  induction m as [ | r m IH]; intros Hcol; [ reflexivity | ].
  unfold column in *. cbn [flat_map concat].
  rewrite IH by (intros r' Hr'; apply Hcol; now right).
  pose proof (Hcol r (or_introl eq_refl)) as Hr.
  destruct r as [ | x [ | y r']]; try discriminate Hr. reflexivity.
Qed.

Lemma elements_trans_column (m : matrix double) :
  column_vector m -> elements (trans m) = elements m.
Proof.
  intros Hcol. unfold elements, trans. destruct m as [ | r m']; [ reflexivity | ].
  cbn [hd]. rewrite (Hcol r) by (now left). cbn [seq map concat].
  rewrite app_nil_r. now apply column_of_column_vector.
Qed.

Lemma column_vector_firstn (m : matrix double) (k : nat) :
  column_vector m -> column_vector (firstn k m).
Proof.
  intros Hcol r Hr. apply Hcol. rewrite <- (firstn_skipn k m).
  apply in_or_app. now left.
Qed.

Lemma column_vector_skipn (m : matrix double) (k : nat) :
  column_vector m -> column_vector (skipn k m).
Proof.
  intros Hcol r Hr. apply Hcol. rewrite <- (firstn_skipn k m).
  apply in_or_app. now right.
Qed.

Lemma length_elements_column (m : matrix double) :
  column_vector m -> length (elements m) = length m.
Proof.
  intros Hcol. unfold elements. rewrite (length_concat_rows m 1 Hcol). lia.
Qed.

Lemma split_column_order (m : matrix double) (k : nat) :
  column_vector m ->
  (elements (trans (firstn k m)) ++ elements (trans (skipn k m)))%list = elements m.
Proof.
  intros Hcol.
  rewrite (elements_trans_column _ (column_vector_firstn m k Hcol)).
  rewrite (elements_trans_column _ (column_vector_skipn m k Hcol)).
  unfold elements. now rewrite <- concat_app, firstn_skipn.
Qed.

(** X6.  For a con record whose parameters are a single column with more
    rows than its num_filters [n], [n >= 1], the two arrays written for the
    layer hold the parameters in their stored order: the weights array
    followed by the bias array is the parameter sequence, and the bias array
    has [n] elements. *)
Theorem con_relayout_order (l : layer) (nf : double) :
  detail_name l = "con" ->
  attribute l "num_filters" = Ok nf ->
  column_vector (params l) ->
  0 < double_to_long nf < mat_nr (params l) ->
  exists w b, relayout l = Ok [w; b] /\
              (elements w ++ elements b)%list = elements (params l) /\
              Z.of_nat (length (elements b)) = double_to_long nf.
Proof.
  intros Hd Hnf Hcol Hn. do 2 eexists. split.
  { rewrite (relayout_con l Hd), (con_blocks_column l nf Hnf Hcol Hn). reflexivity. }
  cbn [fst snd]. unfold rows_except_last, last_rows. split.
  - apply split_column_order, Hcol.
  - rewrite (elements_trans_column _ (column_vector_skipn _ _ Hcol)).
    rewrite (length_elements_column _ (column_vector_skipn _ _ Hcol)), length_skipn.
    unfold mat_nr in Hn. lia.
Qed.

(** X7.  For an affine_con or affine_fc record whose parameters are a
    single column of [2*d] rows, [d >= 1], the gamma array is the first [d]
    parameters and the beta array the last [d], in their stored order. *)
Theorem affine_relayout_halves (l : layer) (d : Z) :
  detail_name l = "affine_con" \/ detail_name l = "affine_fc" ->
  column_vector (params l) ->
  0 < d -> mat_nr (params l) = 2 * d ->
  exists gamma beta,
    relayout l = Ok [gamma; beta] /\
    elements gamma = firstn (Z.to_nat d) (elements (params l)) /\
    elements beta = skipn (Z.to_nat d) (elements (params l)).
Proof.
  intros Hd Hcol Hpos Hnr. do 2 eexists. split.
  { rewrite (relayout_affine l Hd), (affine_blocks_column l d Hcol Hpos Hnr).
    reflexivity. }
  cbn [fst snd].
  rewrite (elements_trans_column _ (column_vector_firstn _ _ Hcol)).
  rewrite (elements_trans_column _ (column_vector_skipn _ _ Hcol)).
  assert (Hsplit : elements (params l)
                   = (elements (firstn (Z.to_nat d) (params l))
                      ++ elements (skipn (Z.to_nat d) (params l)))%list).
  { unfold elements. now rewrite <- concat_app, firstn_skipn. }
  assert (Hlen : length (elements (firstn (Z.to_nat d) (params l))) = Z.to_nat d).
  { rewrite (length_elements_column _ (column_vector_firstn _ _ Hcol)), length_firstn.
    unfold mat_nr in Hnr. lia. }
  rewrite Hsplit. split.
  - rewrite firstn_app, Hlen, Nat.sub_diag, firstn_O, app_nil_r.
    rewrite <- Hlen at 2. now rewrite firstn_all.
  - rewrite skipn_app, Hlen, Nat.sub_diag. cbn [skipn].
    rewrite <- Hlen at 2. now rewrite skipn_all.
Qed.

(** ** The name of the output file and a rejected document *)

Lemma left_substr_period (str : string) :
  exists rest,
    str = left_substr str "." ++ rest /\
    (forall c, In c (list_ascii_of_string (left_substr str ".")) -> c <> "."%char) /\
    (rest = "" \/ exists rest', rest = String "."%char rest').
Proof.
  induction str as [ | c str (rest & Hsplit & Hstem & Hrest)].
  - exists "". split; [ reflexivity | ]. split; [ intros c [] | now left ].
  - cbn [left_substr]. unfold is_delim. cbn [list_ascii_of_string existsb].
    rewrite orb_false_r. destruct (Ascii.eqb_spec c "."%char) as [-> | Hc].
    + exists (String "."%char str). split; [ reflexivity | ].
      split; [ intros c [] | right; eauto ].
    + exists rest. split; [ cbn [append]; now rewrite <- Hsplit | ].
      split; [ | exact Hrest ].
      intros c' [<- | Hc']; [ exact Hc | now apply Hstem ].
Qed.

(** X8.  The output file is named after the part of the input name before
    its first period, followed by "_dlib_to_caffe_model.py": the rest of the
    name, directories with a period in them included, does not count. *)
Theorem output_file_name (xml_filename : string) (document : list xml_event) :
  exists stem rest,
    xml_filename = stem ++ rest /\
    (forall c, In c (list_ascii_of_string stem) -> c <> "."%char) /\
    (rest = "" \/ exists rest', rest = String "."%char rest') /\
    out_filename (convert_dlib_xml_to_cafffe_python_code xml_filename document)
    = stem ++ "_dlib_to_caffe_model.py".
Proof.
  destruct (left_substr_period xml_filename) as (rest & Hsplit & Hstem & Hrest).
  exists (left_substr xml_filename "."), rest. auto.
Qed.

(** X9.  A document the parser does not return a list for is converted
    to an empty output file, and the conversion ends the way the parser
    did. *)
Theorem rejected_document_conversion (xml_filename : string)
  (document : list xml_event) :
  (forall ls, parse_dlib_xml document <> Ok ls) ->
  fout (convert_dlib_xml_to_cafffe_python_code xml_filename document) = "" /\
  (forall e, parse_dlib_xml document = Throw e ->
             outcome (convert_dlib_xml_to_cafffe_python_code xml_filename document)
             = Throw e) /\
  (parse_dlib_xml document = Undefined ->
   outcome (convert_dlib_xml_to_cafffe_python_code xml_filename document) = Undefined).
Proof.
  intros Hrej. unfold convert_dlib_xml_to_cafffe_python_code, write_model.
  cbn [fout outcome]. unfold obind at 1 3 5, lift.
  destruct (parse_dlib_xml document) as [ls | e | ].
  - now destruct (Hrej ls).
  - split; [ reflexivity | ]. split; [ intros e' [= ->]; reflexivity | discriminate ].
  - split; [ reflexivity | ]. split; [ discriminate | reflexivity ].
Qed.

(** ** The driver *)

Lemma convert_each_all (files : list (string * list xml_event)) :
  Forall converts files ->
  convert_each files
  = (map (fun f => convert_dlib_xml_to_cafffe_python_code (fst f) (snd f)) files, Ok tt).
Proof.
  induction 1 as [ | [name document] rest Hc _ IH]; [ reflexivity | ].
  cbn [convert_each map fst snd]. unfold converts in Hc. cbn [fst snd] in Hc.
  rewrite Hc, IH. reflexivity.
Qed.

Lemma convert_each_stops (before after : list (string * list xml_event))
  (xml_filename : string) (document : list xml_event) (e : exception) :
  Forall converts before ->
  outcome (convert_dlib_xml_to_cafffe_python_code xml_filename document) = Throw e ->
  convert_each (before ++ (xml_filename, document) :: after)
  = ((map (fun f => convert_dlib_xml_to_cafffe_python_code (fst f) (snd f)) before
      ++ [convert_dlib_xml_to_cafffe_python_code xml_filename document])%list,
     Throw e).
Proof.
  intros Hbefore Hthrow.
  induction Hbefore as [ | [name doc] rest Hc _ IH].
  - cbn [app convert_each map]. rewrite Hthrow. reflexivity.
  - cbn [app convert_each map fst snd]. unfold converts in Hc. cbn [fst snd] in Hc.
    rewrite Hc, IH. reflexivity.
Qed.

Lemma convert_each_ok (files : list (string * list xml_event)) :
  snd (convert_each files) = Ok tt <-> Forall converts files.
Proof.
  split.
  - induction files as [ | [name document] rest IH]; intros H; [ constructor | ].
    cbn [convert_each] in H.
    destruct (outcome (convert_dlib_xml_to_cafffe_python_code name document))
      as [[] | e | ] eqn:Hc; cbn [snd] in H; try discriminate H.
    constructor; [ exact Hc | now apply IH ].
  - intros H. now rewrite convert_each_all.
Qed.

(** X10.  When a conversion throws, [main] returns 1 and stops: the files
    before it have been converted, its own output file is left as the
    conversion left it, and the files after it are not touched. *)
Theorem main_stops_at_first_failure (before after : list (string * list xml_event))
  (xml_filename : string) (document : list xml_event) (e : exception) :
  Forall converts before ->
  outcome (convert_dlib_xml_to_cafffe_python_code xml_filename document) = Throw e ->
  main (before ++ (xml_filename, document) :: after)
  = ((map (fun f => convert_dlib_xml_to_cafffe_python_code (fst f) (snd f)) before
      ++ [convert_dlib_xml_to_cafffe_python_code xml_filename document])%list,
     Ok 1).
Proof.
  intros Hbefore Hthrow. unfold main.
  rewrite (convert_each_stops before after xml_filename document e Hbefore Hthrow).
  destruct before; reflexivity.
Qed.

(** X11.  [main] returns 0 exactly when every conversion succeeds (also
    when no file is named), and it has then converted every file, in the
    order of the command line. *)
Theorem main_exit_status (files : list (string * list xml_event)) :
  (snd (main files) = Ok 0 <-> Forall converts files) /\
  (Forall converts files ->
   fst (main files)
   = map (fun f => convert_dlib_xml_to_cafffe_python_code (fst f) (snd f)) files).
Proof.
  split.
  - destruct files as [ | f rest]; [ split; [ constructor | reflexivity ] | ].
    unfold main. cbn [snd]. rewrite <- convert_each_ok.
    destruct (snd (convert_each (f :: rest))) as [[] | e | ];
      split; intros H; try reflexivity; discriminate H.
  - intros H. destruct files as [ | f rest]; [ reflexivity | ].
    unfold main. cbn [fst]. now rewrite (convert_each_all _ H).
Qed.

(** ** Skip markers and the root element *)

Lemma start_skip_marker (dh : doc_handler) (atts : attribute_list) (id : Z) :
  seen_first_tag dh = true ->
  is_skip_marker atts id ->
  start_element dh "layer" atts
  = match layers dh with
    | [] => Throw (error "A skip layer was found as the first layer, but the first layer should be an input layer.")
    | _ :: _ =>
        Ok (mk_doc_handler (set_back_skip_id (layers dh) id) true empty_layer
              ("layer" :: current_tag dh) (dh_tag_id dh))
    end.
Proof.
  intros Hseen [Hty (text & Hid & Hcast)].
  unfold start_element. rewrite Hseen. cbn [negb rbind String.eqb Ascii.eqb Bool.eqb].
  unfold start_layer. cbn [layers seen_first_tag next_layer current_tag dh_tag_id].
  rewrite Hty. cbn [rbind]. cbn [String.eqb Ascii.eqb Bool.eqb].
  destruct (layers dh) as [ | l0 rest]; [ reflexivity | ].
  cbn [length Nat.eqb]. rewrite Hid. cbn [rbind]. unfold cast. rewrite Hcast.
  cbn [rbind layers seen_first_tag next_layer current_tag dh_tag_id].
  rewrite Hseen. reflexivity.
Qed.

(** X12.  A skip marker element sets the [skip_id] of the record appended
    last, replacing the one it had, and changes nothing else: no record is
    added and the pending tag id is kept.  When no record has been appended
    yet it is refused with "A skip layer was found as the first layer". *)
Theorem skip_marker_element (dh : doc_handler) (atts : attribute_list) (id : Z) :
  seen_first_tag dh = true ->
  is_skip_marker atts id ->
  (layers dh = [] ->
   dispatch dh [StartElement "layer" atts; EndElement "layer"]
   = Throw (error "A skip layer was found as the first layer, but the first layer should be an input layer.")) /\
  (forall front l,
     layers dh = (front ++ [l])%list ->
     exists dh',
       dispatch dh [StartElement "layer" atts; EndElement "layer"] = Ok dh' /\
       layers dh' = (front ++ [with_skip_id l id])%list /\
       dh_tag_id dh' = dh_tag_id dh /\
       current_tag dh' = current_tag dh /\ seen_first_tag dh' = true).
Proof.
  intros Hseen Hskip. cbn [dispatch handle].
  pose proof (start_skip_marker dh atts id Hseen Hskip) as Hstart. split.
  - intros Hempty. rewrite Hstart, Hempty. reflexivity.
  - intros front l Hl. rewrite Hl in Hstart.
    assert (Hset : set_back_skip_id (front ++ [l]) id
                   = (front ++ [with_skip_id l id])%list).
    { unfold set_back_skip_id. now rewrite removelast_last, last_last. }
    rewrite Hset in Hstart.
    destruct front as [ | l0 front']; cbn [app] in Hstart; rewrite Hstart;
      cbn [rbind]; (eexists; split; [ reflexivity | ]);
      cbn [layers dh_tag_id current_tag seen_first_tag]; auto.
Qed.

Lemma dispatch_text (dh : doc_handler) (pre rest : list xml_event) :
  current_tag dh = [] ->
  Forall is_text pre ->
  dispatch dh (pre ++ rest) = dispatch dh rest.
Proof.
  intros Hstack Hpre. induction Hpre as [ | ev pre Hev _ IH]; [ reflexivity | ].
  cbn [app dispatch]. destruct ev as [name atts | name | data | target data];
    try contradiction; cbn [handle rbind].
  - unfold characters. rewrite Hstack. exact IH.
  - exact IH.
Qed.

(** X13.  A document whose first element is not a net element is refused
    with "The top level XML tag must be a 'net' tag.", whatever follows it
    and whatever text or processing instructions precede it. *)
Theorem root_must_be_net (pre rest : list xml_event) (name : string)
  (atts : attribute_list) :
  Forall is_text pre ->
  name <> "net" ->
  parse_dlib_xml (pre ++ StartElement name atts :: rest)
  = Throw (error "The top level XML tag must be a 'net' tag.").
Proof.
  intros Hpre Hname. unfold parse_dlib_xml, parse_xml.
  rewrite dispatch_text by (exact Hpre || reflexivity).
  cbn [dispatch handle]. unfold start_element.
  cbn [start_document new_doc_handler seen_first_tag negb].
  rewrite (proj2 (String.eqb_neq _ _) Hname). reflexivity.
Qed.

(** ** The records of a returned list *)

Lemma in_set_back_skip_id (ls : list layer) (id : Z) (l : layer) :
  ls <> [] -> In l (set_back_skip_id ls id) ->
  exists l', In l' ls /\ type l = type l'.
Proof.
  intros Hne Hin. destruct (exists_last Hne) as [front [b ->]].
  unfold set_back_skip_id in Hin. rewrite removelast_last, last_last in Hin.
  apply in_app_or in Hin. destruct Hin as [Hin | [<- | []]].
  - exists l. split; [ apply in_or_app; now left | reflexivity ].
  - exists b. split; [ apply in_or_app; right; now left | reflexivity ].
Qed.

Lemma handle_keeps_record_types (dh dh' : doc_handler) (ev : xml_event) :
  handle dh ev = Ok dh' ->
  (forall l, In l (layers dh) -> is_record_type (type l)) ->
  type (next_layer dh) <> "skip" /\ type (next_layer dh) <> "tag" ->
  (forall l, In l (layers dh') -> is_record_type (type l)) /\
  type (next_layer dh') <> "skip" /\ type (next_layer dh') <> "tag".
Proof.
  intros Hev Hls Hnext.
  destruct ev as [name atts | name | data | target data]; cbn [handle] in Hev.
  - unfold start_element in Hev.
    destruct (if negb (seen_first_tag dh)
              then if negb (String.eqb name "net")
                   then Throw (error "The top level XML tag must be a 'net' tag.")
                   else Ok (mk_doc_handler (layers dh) true (next_layer dh)
                              (current_tag dh) (dh_tag_id dh))
              else Ok dh) as [dh1 | e | ] eqn:E1; cbn [rbind] in Hev;
      try discriminate Hev.
    assert (H1 : layers dh1 = layers dh /\ next_layer dh1 = next_layer dh).
    { destruct (negb (seen_first_tag dh)).
      - destruct (negb (String.eqb name "net")); [ discriminate E1 | ].
        injection E1 as <-. auto.
      - injection E1 as <-. auto. }
    destruct H1 as [Hl1 Hn1]. clear E1.
    destruct (String.eqb name "layer").
    + unfold start_layer in Hev.
      cbn [layers seen_first_tag next_layer current_tag dh_tag_id] in Hev.
      destruct (atts_get atts "type") as [ty | e | ]; cbn [rbind] in Hev;
        try discriminate Hev.
      destruct (String.eqb_spec ty "skip") as [_ | Hskip].
      * destruct (layers dh1) as [ | l0 rest] eqn:El; cbn [length Nat.eqb] in Hev;
          [ discriminate Hev | ].
        destruct (atts_get atts "id") as [text | e | ]; cbn [rbind] in Hev;
          try discriminate Hev.
        destruct (cast sa_long text) as [id | e | ]; cbn [rbind] in Hev;
          try discriminate Hev.
        injection Hev as <-. cbn [layers next_layer]. split.
        -- intros l Hl. apply in_set_back_skip_id in Hl; [ | discriminate ].
           destruct Hl as (l' & Hl' & ->). apply Hls. now rewrite <- Hl1.
        -- split; discriminate.
      * destruct (String.eqb_spec ty "tag") as [_ | Htag].
        -- destruct (atts_get atts "id") as [text | e | ]; cbn [rbind] in Hev;
             try discriminate Hev.
           destruct (cast sa_long text) as [id | e | ]; cbn [rbind] in Hev;
             try discriminate Hev.
           injection Hev as <-. cbn [layers next_layer]. rewrite Hl1.
           split; [ exact Hls | split; discriminate ].
        -- destruct (atts_get atts "idx") as [text | e | ]; cbn [rbind] in Hev;
             try discriminate Hev.
           destruct (cast sa_int text) as [i | e | ]; cbn [rbind] in Hev;
             try discriminate Hev.
           destruct (negb (dh_tag_id dh1 =? -1)); cbn [rbind] in Hev;
             injection Hev as <-; cbn [layers next_layer type]; rewrite Hl1; auto.
    + destruct (top_is (current_tag dh1) "layer"); cbn [rbind] in Hev.
      * unfold start_detail in Hev.
        destruct (copy_attributes atts _) as [a | e | ]; cbn [rbind] in Hev;
          try discriminate Hev.
        injection Hev as <-. cbn [layers next_layer type]. rewrite Hl1, Hn1. auto.
      * injection Hev as <-. cbn [layers next_layer]. rewrite Hl1, Hn1. auto.
  - unfold end_element in Hev. destruct (current_tag dh) as [ | top stack];
      [ discriminate Hev | ].
    destruct (String.eqb name "layer"); cbn [andb] in Hev.
    + destruct (String.length (type (next_layer dh)) =? 0)%nat eqn:Elen;
        cbn [negb] in Hev; injection Hev as <-; cbn [layers next_layer]; auto.
      split; [ | exact Hnext ].
      intros l Hl. apply in_app_or in Hl. destruct Hl as [Hl | [<- | []]];
        [ now apply Hls | ].
      split; [ | exact Hnext ].
      intros E. rewrite E in Elen. discriminate Elen.
    + injection Hev as <-. cbn [layers next_layer]. auto.
  - injection Hev as <-. unfold characters.
    destruct (current_tag dh) as [ | top stack]; [ auto | ].
    destruct (existsb _ _); cbn [layers next_layer type]; auto.
  - injection Hev as <-. auto.
Qed.

Lemma dispatch_keeps_record_types (document : list xml_event) :
  forall dh dh',
    dispatch dh document = Ok dh' ->
    (forall l, In l (layers dh) -> is_record_type (type l)) ->
    type (next_layer dh) <> "skip" /\ type (next_layer dh) <> "tag" ->
    forall l, In l (layers dh') -> is_record_type (type l).
Proof.
  induction document as [ | ev rest IH]; intros dh dh' Hrun Hls Hnext.
  - injection Hrun as <-. exact Hls.
  - cbn [dispatch] in Hrun. destruct (handle dh ev) as [dh1 | e | ] eqn:Hev;
      cbn [rbind] in Hrun; try discriminate Hrun.
    destruct (handle_keeps_record_types dh dh1 ev Hev Hls Hnext) as [Hls1 Hnext1].
    exact (IH dh1 dh' Hrun Hls1 Hnext1).
Qed.

(** X14.  No record of a list the parser returns has the type skip or tag,
    or no type: a marker element never becomes a record, whatever the
    sequence of events. *)
Theorem records_are_layers (document : list xml_event) (ls : list layer) :
  parse_dlib_xml document = Ok ls ->
  forall l, In l ls -> type l <> "" /\ type l <> "skip" /\ type l <> "tag".
Proof.
  intros Hparse. unfold parse_dlib_xml in Hparse.
  destruct (parse_xml document new_doc_handler) as [dh | e | ] eqn:Hrun;
    cbn [rbind] in Hparse; try discriminate Hparse.
  assert (Hls : ls = layers dh).
  { destruct (length (layers dh) =? 0)%nat; [ discriminate Hparse | ].
    destruct (negb _); [ discriminate Hparse | ]. now injection Hparse as <-. }
  subst ls. unfold parse_xml in Hrun.
  apply (dispatch_keeps_record_types document _ dh Hrun).
  - intros l [].
  - cbn. split; discriminate.
Qed.

(** ** The attributes of a detail element *)

Lemma copy_attributes_finds (atts : attribute_list) :
  forall acc a,
    copy_attributes atts acc = Ok a ->
    (forall k, ~ In k (map fst atts) -> find_attribute a k = find_attribute acc k) /\
    (NoDup (map fst atts) ->
     forall k text, In (k, text) atts ->
                    exists v, sa_double text = Some v /\ find_attribute a k = Some v).
Proof.
  induction atts as [ | [k0 t0] rest IH]; intros acc a Hcopy.
  - injection Hcopy as <-. split; [ reflexivity | intros _ k text [] ].
  - cbn [copy_attributes] in Hcopy. unfold cast in Hcopy.
    destruct (sa_double t0) as [v0 | ] eqn:Hcast; cbn [rbind] in Hcopy;
      [ | discriminate Hcopy ].
    destruct (IH _ _ Hcopy) as [Hother Hfound]. split.
    + intros k Hk. cbn [map fst In] in Hk.
      rewrite Hother by tauto. unfold set_attribute. cbn [find_attribute].
      destruct (String.eqb_spec k0 k) as [-> | _]; [ tauto | reflexivity ].
    + intros Hnodup k text Hin. cbn [map fst] in Hnodup.
      apply NoDup_cons_iff in Hnodup. destruct Hnodup as [Hfresh Hnodup].
      destruct Hin as [[= <- <-] | Hin].
      * exists v0. split; [ exact Hcast | ].
        rewrite (Hother k0 Hfresh). unfold set_attribute. cbn [find_attribute].
        now rewrite String.eqb_refl.
      * exact (Hfound Hnodup k text Hin).
Qed.

(** X15.  The attributes of the detail element of a layer can be read back
    from the record: for an element with distinct attribute names that is
    accepted, [attribute] returns the number each attribute text was cast to,
    and it throws "Layer doesn't have the requested attribute" for a name the
    element does not have. *)
Theorem detail_attributes_round_trip (dh dh' : doc_handler) (name : string)
  (atts : attribute_list) :
  attributes (next_layer dh) = [] ->
  NoDup (map fst atts) ->
  start_detail dh name atts = Ok dh' ->
  detail_name (next_layer dh') = name /\
  (forall k text, In (k, text) atts ->
     exists v, sa_double text = Some v /\ attribute (next_layer dh') k = Ok v) /\
  (forall k, ~ In k (map fst atts) ->
     attribute (next_layer dh') k
     = Throw (error ("Layer doesn't have the requested attribute '" ++ k ++ "'."))).
Proof.
  intros Hempty Hnodup Hstart. unfold start_detail in Hstart. rewrite Hempty in Hstart.
  destruct (copy_attributes atts []) as [a | e | ] eqn:Hcopy; cbn [rbind] in Hstart;
    try discriminate Hstart.
  injection Hstart as <-. cbn [next_layer detail_name].
  destruct (copy_attributes_finds atts [] a Hcopy) as [Hother Hfound].
  split; [ reflexivity | ]. split.
  - intros k text Hin. destruct (Hfound Hnodup k text Hin) as (v & Hcast & Hfind).
    exists v. split; [ exact Hcast | ]. unfold attribute. cbn [attributes].
    now rewrite Hfind.
  - intros k Hk. unfold attribute. cbn [attributes]. now rewrite (Hother k Hk).
Qed.

(** ** Generated names *)

Lemma to_int_not_nil (n : Z) :
  Z.to_int n <> Decimal.Pos Decimal.Nil /\ Z.to_int n <> Decimal.Neg Decimal.Nil.
Proof.
  destruct n as [ | p | p]; cbn [Z.to_int]; split; try discriminate;
    intros [= H]; exact (DecimalPos.Unsigned.to_uint_nonnil p H).
Qed.

Lemma to_string_inj (a b : Z) : to_string a = to_string b -> a = b.
Proof.
  unfold to_string. intros H.
  apply (f_equal NilZero.int_of_string) in H.
  destruct (to_int_not_nil a) as [Ha1 Ha2], (to_int_not_nil b) as [Hb1 Hb2].
  rewrite !NilZero.isi in H by assumption.
  injection H as H. now apply DecimalZ.to_int_inj.
Qed.

Lemma append_cancel_l (a s1 s2 : string) : a ++ s1 = a ++ s2 -> s1 = s2.
Proof.
  induction a as [ | c a IH]; cbn [append]; intros H; [ exact H | ].
  injection H as H. now apply IH.
Qed.

(** X16.  Two records that are not input layers and have the same detail
    name get the same generated name only if they have the same [idx]. *)
Theorem generated_names_differ (l1 l2 : layer) :
  type l1 <> "input" ->
  type l2 <> "input" ->
  detail_name l1 = detail_name l2 ->
  caffe_layer_name l1 = caffe_layer_name l2 ->
  idx l1 = idx l2.
Proof.
  intros H1 H2 Hd Hname. unfold caffe_layer_name in Hname.
  rewrite (proj2 (String.eqb_neq _ _) H1), (proj2 (String.eqb_neq _ _) H2), Hd in Hname.
  apply to_string_inj. exact (append_cancel_l _ _ _ Hname).
Qed.

(** ** The graph builder on the elements of a document *)

Lemma dispatch_app (a b : list xml_event) :
  forall dh, dispatch dh (a ++ b) = rbind (dispatch dh a) (fun dh' => dispatch dh' b).
Proof.
  induction a as [ | ev a IH]; intros dh; [ reflexivity | ].
  cbn [app dispatch]. destruct (handle dh ev) as [dh1 | e | ]; cbn [rbind];
    [ apply IH | reflexivity | reflexivity ].
Qed.

(** Text and processing instructions change nothing while no element with
    parameters is open. *)
Lemma dispatch_ignored (dh : doc_handler) (evs : list xml_event) :
  quiet (current_tag dh) ->
  Forall is_text evs ->
  dispatch dh evs = Ok dh.
Proof.
  intros Hq Hevs. induction Hevs as [ | ev evs Hev _ IH]; [ reflexivity | ].
  cbn [dispatch]. destruct ev as [name atts | name | data | target data];
    try contradiction; cbn [handle rbind].
  - replace (characters dh data) with dh; [ exact IH | ].
    unfold characters. unfold quiet in Hq.
    destruct (current_tag dh) as [ | top stack]; [ reflexivity | ]. now rewrite Hq.
  - exact IH.
Qed.

Lemma dispatch_ignored_app (dh : doc_handler) (evs rest : list xml_event) :
  quiet (current_tag dh) ->
  Forall is_text evs ->
  dispatch dh (evs ++ rest) = dispatch dh rest.
Proof.
  intros Hq Hevs. rewrite dispatch_app, (dispatch_ignored dh evs Hq Hevs). reflexivity.
Qed.

(** Inside the detail element each piece of character data is read into
    the parameters when the element is one with parameters. *)
Lemma dispatch_detail_text (ls : list layer) (ty : string) (i : Z) (detail : string)
  (a : list (string * double)) (tag skip : Z) (stack : list string) (t : Z)
  (inner : list xml_event) :
  Forall is_text inner ->
  forall p : matrix double,
    dispatch (mk_doc_handler ls true (mk_layer ty i detail a p tag skip)
                (detail :: stack) t) inner
    = Ok (mk_doc_handler ls true
            (mk_layer ty i detail a
               (if existsb (String.eqb detail) comp_tags_with_params
                then fold_left (fun m data => read_matrix data m) (character_data inner) p
                else p)
               tag skip)
            (detail :: stack) t).
Proof.
  induction 1 as [ | ev inner Hev _ IH]; intros p.
  - cbn [dispatch character_data fold_left].
    destruct (existsb (String.eqb detail) comp_tags_with_params); reflexivity.
  - cbn [dispatch]. destruct ev as [name atts | name | data | target data];
      try contradiction; cbn [handle rbind character_data].
    + unfold characters. cbn [current_tag next_layer].
      destruct (existsb (String.eqb detail) comp_tags_with_params) eqn:E;
        cbn [layers seen_first_tag current_tag dh_tag_id type idx detail_name
             attributes params tag_id skip_id];
        rewrite IH; try rewrite E; reflexivity.
    + apply IH.
Qed.

Lemma quiet_layer (stack : list string) : quiet ("layer" :: stack).
Proof. reflexivity. Qed.

Lemma layer_element_runs (dh : doc_handler) (atts datts : attribute_list)
  (ty detail : string) (i : Z) (a : list (string * double))
  (before inner between after : list xml_event) :
  seen_first_tag dh = true ->
  quiet (current_tag dh) ->
  is_genuine atts ty i ->
  ty <> "" ->
  detail <> "layer" ->
  copy_attributes datts [] = Ok a ->
  Forall is_text before -> Forall is_text inner ->
  Forall is_text between -> Forall is_text after ->
  dispatch dh ([StartElement "layer" atts] ++ before
               ++ [StartElement detail datts] ++ inner ++ [EndElement detail]
               ++ between ++ [EndElement "layer"] ++ after)
  = Ok (mk_doc_handler
          (layers dh ++ [mk_layer ty i detail a (read_params detail (character_data inner))
                           (dh_tag_id dh) (-1)])%list
          true
          (mk_layer ty i detail a (read_params detail (character_data inner))
             (dh_tag_id dh) (-1))
          (current_tag dh) (-1)).
Proof.
  intros Hseen Hq Hgen Hty Hdetail Hcopy Hbefore Hinner Hbetween Hafter.
  cbn [app dispatch handle]. rewrite (start_genuine dh atts ty i Hseen Hgen). cbn [rbind].
  rewrite dispatch_ignored_app by (exact Hbefore || apply quiet_layer).
  cbn [dispatch handle]. unfold start_element. cbn [seen_first_tag negb rbind].
  rewrite (proj2 (String.eqb_neq _ _) Hdetail).
  cbn [current_tag top_is]. rewrite String.eqb_refl.
  unfold start_detail. cbn [next_layer attributes]. rewrite Hcopy. cbn [rbind].
  cbn [layers seen_first_tag next_layer current_tag dh_tag_id
       type idx params tag_id skip_id].
  rewrite dispatch_app, (dispatch_detail_text _ _ _ _ _ _ _ _ _ inner Hinner). cbn [rbind].
  fold (read_params detail (character_data inner)).
  cbn [dispatch handle]. unfold end_element at 1. cbn [current_tag].
  rewrite (proj2 (String.eqb_neq _ _) Hdetail). cbn [andb rbind].
  cbn [layers seen_first_tag next_layer dh_tag_id].
  rewrite dispatch_ignored_app by (exact Hbetween || apply quiet_layer).
  cbn [dispatch handle]. unfold end_element.
  cbn [current_tag next_layer type layers seen_first_tag dh_tag_id].
  rewrite String.eqb_refl.
  destruct ty as [ | c ty']; [ contradiction | ].
  cbn [String.length Nat.eqb negb andb rbind].
  apply dispatch_ignored; [ exact Hq | exact Hafter ].
Qed.

(** One element: what the handler is left with is what [build_step] says. *)
Lemma element_runs (dh : doc_handler) (el : element) (evs : list xml_event) :
  seen_first_tag dh = true ->
  quiet (current_tag dh) ->
  element_events el evs ->
  match build_step (layers dh, dh_tag_id dh) el with
  | Ok st =>
      exists dh', dispatch dh evs = Ok dh' /\
                  layers dh' = fst st /\ dh_tag_id dh' = snd st /\
                  current_tag dh' = current_tag dh /\ seen_first_tag dh' = true
  | Throw e => dispatch dh evs = Throw e
  | Undefined => False
  end.
Proof.
  intros Hseen Hq Hel.
  destruct el as [id | id | ty i detail a text]; cbn [element_events] in Hel.
  - destruct Hel as (atts & inner & after & Hmark & Hinner & Hafter & ->).
    cbn [build_step fst snd].
    eexists. split.
    + cbn [app dispatch handle]. rewrite (start_tag_marker dh atts id Hseen Hmark).
      cbn [rbind].
      rewrite dispatch_ignored_app by (exact Hinner || apply quiet_layer).
      cbn [dispatch handle]. rewrite end_marker. cbn [rbind].
      apply dispatch_ignored; [ exact Hq | exact Hafter ].
    + cbn. auto.
  - destruct Hel as (atts & inner & after & Hmark & Hinner & Hafter & ->).
    cbn [build_step fst snd].
    cbn [app dispatch handle]. rewrite (start_skip_marker dh atts id Hseen Hmark).
    destruct (layers dh) as [ | l0 rest]; [ reflexivity | ].
    cbn [rbind]. eexists. split.
    + rewrite dispatch_ignored_app by (exact Hinner || apply quiet_layer).
      cbn [dispatch handle]. rewrite end_marker. cbn [rbind].
      apply dispatch_ignored; [ exact Hq | exact Hafter ].
    + cbn. auto.
  - destruct Hel as (atts & datts & before & inner & between & after & Hgen & Hty & Hdetail
                     & Hcopy & Hbefore & Hinner & Hbetween & Hafter & <- & ->).
    cbn [build_step fst snd]. eexists. split.
    + apply (layer_element_runs dh atts datts ty detail i a); assumption.
    + cbn. auto.
Qed.

Lemma builder_runs (els : list element) (evss : list (list xml_event)) :
  Forall2 element_events els evss ->
  forall dh,
    seen_first_tag dh = true ->
    quiet (current_tag dh) ->
    match build (layers dh, dh_tag_id dh) els with
    | Ok st =>
        exists dh', dispatch dh (concat evss) = Ok dh' /\
                    layers dh' = fst st /\ dh_tag_id dh' = snd st /\
                    current_tag dh' = current_tag dh /\ seen_first_tag dh' = true
    | Throw e => dispatch dh (concat evss) = Throw e
    | Undefined => False
    end.
Proof.
  induction 1 as [ | el evs els evss Hel _ IH]; intros dh Hseen Hq.
  - cbn [build concat dispatch]. exists dh. auto.
  - cbn [build concat]. rewrite dispatch_app.
    pose proof (element_runs dh el evs Hseen Hq Hel) as Hstep.
    destruct (build_step (layers dh, dh_tag_id dh) el) as [[ls t] | e | ];
      cbn [rbind]; [ | now rewrite Hstep | contradiction ].
    destruct Hstep as (dh1 & Hrun & Hls & Ht & Hstack & Hseen1).
    cbn [fst snd] in Hls, Ht. rewrite Hrun. cbn [rbind].
    assert (Hq1 : quiet (current_tag dh1)) by now rewrite Hstack.
    specialize (IH dh1 Hseen1 Hq1). rewrite Hls, Ht in IH.
    destruct (build (ls, t) els) as [st | e | ]; [ | exact IH | exact IH ].
    destruct IH as (dh' & Hrun' & Hls' & Ht' & Hstack' & Hseen').
    exists dh'. rewrite <- Hstack. auto.
Qed.

(** The whole document: the handler ends with what the builder computes. *)
Lemma net_document_runs (natts : attribute_list) (els : list element)
  (evss : list (list xml_event)) (document : list xml_event) :
  net_document natts evss document ->
  Forall2 element_events els evss ->
  match build ([], -1) els with
  | Ok st =>
      exists dh, parse_xml document new_doc_handler = Ok dh /\
                 layers dh = fst st /\ dh_tag_id dh = snd st
  | Throw e => parse_xml document new_doc_handler = Throw e
  | Undefined => False
  end.
Proof.
  intros (pre & first & post & Hpre & Hfirst & Hpost & ->) Hels. unfold parse_xml.
  rewrite dispatch_text by (exact Hpre || reflexivity).
  cbn [app dispatch handle]. unfold start_element.
  cbn [start_document new_doc_handler seen_first_tag negb String.eqb Ascii.eqb Bool.eqb
       rbind top_is current_tag layers next_layer dh_tag_id].
  rewrite dispatch_ignored_app by (exact Hfirst || reflexivity).
  rewrite dispatch_app.
  pose proof (builder_runs els evss Hels
                (mk_doc_handler [] true empty_layer ["net"] (-1)) eq_refl eq_refl) as Hrun.
  cbn [layers dh_tag_id current_tag] in Hrun.
  destruct (build ([], -1) els) as [[ls t] | e | ]; [ | | contradiction ].
  - destruct Hrun as (dh' & -> & Hls & Ht & Hstack & _). cbn [rbind fst snd] in *.
    cbn [dispatch handle]. unfold end_element. rewrite Hstack.
    cbn [String.eqb Ascii.eqb Bool.eqb andb rbind].
    rewrite dispatch_ignored by (exact Hpost || exact I).
    eexists. split; [ reflexivity | ]. cbn [layers dh_tag_id]. auto.
  - now rewrite Hrun.
Qed.

(** X17.  On a net element that holds tag markers, skip markers and
    layers with one detail element each, with text and processing
    instructions between the tags, the handler computes what the
    element-wise builder does: a tag marker is kept for the next layer and
    then forgotten, a skip marker is applied to the layer before it, a layer
    is appended with the pending tag and the parameters read from the
    character data of its detail element; it ends with the same records and
    the same pending tag, or with the same error. *)
Theorem net_document_builds (natts : attribute_list) (els : list element)
  (evss : list (list xml_event)) (document : list xml_event) :
  net_document natts evss document ->
  Forall2 element_events els evss ->
  rbind (parse_xml document new_doc_handler) (fun dh => Ok (layers dh, dh_tag_id dh))
  = build ([], -1) els.
Proof.
  intros Hdoc Hels. pose proof (net_document_runs natts els evss document Hdoc Hels) as Hrun.
  destruct (build ([], -1) els) as [[ls t] | e | ]; [ | | contradiction ].
  - destruct Hrun as (dh & -> & Hls & Ht). cbn [rbind fst snd] in *. now rewrite Hls, Ht.
  - now rewrite Hrun.
Qed.

Lemma length_set_back_skip_id (ls : list layer) (id : Z) :
  ls <> [] -> length (set_back_skip_id ls id) = length ls.
Proof.
  intros Hne. destruct (exists_last Hne) as [front [b ->]].
  unfold set_back_skip_id. rewrite removelast_last, !length_app. reflexivity.
Qed.

Lemma build_count (els : list element) :
  forall st st',
    build st els = Ok st' ->
    length (fst st') = (length (fst st) + length (filter is_layer_element els))%nat.
Proof.
  induction els as [ | el els IH]; intros st st' Hb.
  - injection Hb as <-. cbn. lia.
  - cbn [build] in Hb. destruct (build_step st el) as [st1 | e | ] eqn:Hstep;
      cbn [rbind] in Hb; try discriminate Hb.
    rewrite (IH _ _ Hb). destruct el as [id | id | ty i detail a text];
      cbn [build_step] in Hstep; cbn [filter is_layer_element].
    + injection Hstep as <-. reflexivity.
    + destruct (fst st) as [ | l0 rest] eqn:Est; [ discriminate Hstep | ].
      injection Hstep as <-. cbn [fst].
      rewrite length_set_back_skip_id by discriminate. lia.
    + injection Hstep as <-. cbn [fst length]. rewrite length_app. cbn [length]. lia.
Qed.

(** X18.  The list returned for such a document has one record for each
    layer element and none for the markers, the text and the processing
    instructions. *)
Theorem net_document_count (natts : attribute_list) (els : list element)
  (evss : list (list xml_event)) (document : list xml_event) (ls : list layer) :
  net_document natts evss document ->
  Forall2 element_events els evss ->
  parse_dlib_xml document = Ok ls ->
  length ls = length (filter is_layer_element els).
Proof.
  intros Hdoc Hels Hparse. unfold parse_dlib_xml in Hparse.
  pose proof (net_document_runs natts els evss document Hdoc Hels) as Hrun.
  destruct (build ([], -1) els) as [[ls' t] | e | ] eqn:Hb; [ | | contradiction ].
  - destruct Hrun as (dh & Hrun & Hls & Ht). cbn [fst snd] in Hls, Ht.
    rewrite Hrun in Hparse. cbn [rbind] in Hparse. rewrite Hls in Hparse.
    assert (E : ls = ls').
    { destruct (length ls' =? 0)%nat; [ discriminate Hparse | ].
      destruct (negb _); [ discriminate Hparse | ]. now injection Hparse as <-. }
    rewrite E. exact (build_count els _ _ Hb).
  - rewrite Hrun in Hparse. discriminate Hparse.
Qed.

(** ** A skip marker and the tag marker it names *)

Lemma build_app (a b : list element) :
  forall st, build st (a ++ b) = rbind (build st a) (fun st' => build st' b).
Proof.
  induction a as [ | el a IH]; intros st; [ reflexivity | ].
  cbn [app build]. destruct (build_step st el) as [st1 | e | ]; cbn [rbind];
    [ apply IH | reflexivity | reflexivity ].
Qed.

Lemma build_step_skip (front : list layer) (x : layer) (t id : Z) :
  build_step ((front ++ [x])%list, t) (SkipMarker id)
  = Ok ((front ++ [with_skip_id x id])%list, t).
Proof.
  cbn [build_step fst snd].
  assert (Hset : set_back_skip_id (front ++ [x]) id = (front ++ [with_skip_id x id])%list).
  { unfold set_back_skip_id. now rewrite removelast_last, last_last. }
  rewrite Hset. destruct front; reflexivity.
Qed.

(** Later elements leave a record where it is and change at most its
    [skip_id]. *)
Lemma build_extends (els : list element) :
  forall front x t ls t',
    build ((front ++ [x])%list, t) els = Ok (ls, t') ->
    exists x' tail,
      ls = (front ++ [x'] ++ tail)%list /\
      type x' = type x /\ idx x' = idx x /\ detail_name x' = detail_name x /\
      tag_id x' = tag_id x.
Proof.
  induction els as [ | el els IH]; intros front x t ls t' Hb.
  - injection Hb as <- <-. exists x, []. auto.
  - cbn [build] in Hb. destruct el as [id | id | ty i detail a text].
    + cbn [build_step rbind fst] in Hb. exact (IH _ _ _ _ _ Hb).
    + rewrite build_step_skip in Hb. cbn [rbind] in Hb.
      destruct (IH _ _ _ _ _ Hb) as (x' & tail & -> & H1 & H2 & H3 & H4).
      exists x', tail. auto.
    + cbn [build_step rbind fst snd] in Hb.
      destruct (IH _ _ _ _ _ Hb) as (y' & tail & -> & _).
      exists x, (y' :: tail). rewrite <- app_assoc. auto.
Qed.

(** Layer elements that are not input layers, met with no tag pending, are
    appended untagged. *)
Lemma build_inner_layers (mid : list element) :
  Forall is_inner_layer mid ->
  forall ls, exists records,
    build (ls, -1) mid = Ok ((ls ++ records)%list, -1) /\
    Forall (fun r => tag_id r = -1 /\ type r <> "input") records.
Proof.
  induction 1 as [ | el mid Hel _ IH]; intros ls.
  - exists []. rewrite app_nil_r. split; [ reflexivity | constructor ].
  - destruct el as [id | id | ty i detail a text]; try contradiction.
    cbn [build build_step rbind fst snd].
    destruct (IH (ls ++ [mk_layer ty i detail a (read_params detail text) (-1) (-1)])%list)
      as (records & Hb & Hrec).
    exists (mk_layer ty i detail a (read_params detail text) (-1) (-1) :: records).
    rewrite Hb, <- app_assoc. split; [ reflexivity | ].
    constructor; [ split; [ reflexivity | exact Hel ] | exact Hrec ].
Qed.

Lemma parse_of_build (natts : attribute_list) (els : list element)
  (evss : list (list xml_event)) (document : list xml_event) (ls : list layer) :
  net_document natts evss document ->
  Forall2 element_events els evss ->
  parse_dlib_xml document = Ok ls ->
  (exists t, build ([], -1) els = Ok (ls, t)) /\
  ls <> [] /\ type (last ls empty_layer) = "input".
Proof.
  intros Hdoc Hels Hparse.
  split; [ | exact (parse_dlib_xml_returns _ _ Hparse) ].
  unfold parse_dlib_xml in Hparse.
  pose proof (net_document_runs natts els evss document Hdoc Hels) as Hrun.
  destruct (build ([], -1) els) as [[ls' t] | e | ]; [ | | contradiction ].
  - destruct Hrun as (dh & Hrun & Hls & Ht). cbn [fst snd] in Hls, Ht.
    rewrite Hrun in Hparse. cbn [rbind] in Hparse.
    rewrite Hls in Hparse. exists t.
    destruct (length ls' =? 0)%nat; [ discriminate Hparse | ].
    destruct (negb _); [ discriminate Hparse | ]. now injection Hparse as <-.
  - rewrite Hrun in Hparse. discriminate Hparse.
Qed.

(** X19.  A skip connection resolves to the layer under the tag marker: when
    a layer that is not an input layer is followed by a skip marker with id
    [t], then by layers that are not input layers, then by a tag marker with
    the same id and a layer, the resolver returns, for the first layer, the
    generated name of the layer that follows the tag marker, whatever text
    and processing instructions stand between the tags of the document. *)
Theorem skip_resolves_to_tagged_layer (natts : attribute_list)
  (pre mid post : list element) (evss : list (list xml_event))
  (document : list xml_event) (ls : list layer)
  (t : Z) (tyA dA : string) (iA : Z) (aA : list (string * double)) (textA : list string)
  (tyB dB : string) (iB : Z) (aB : list (string * double)) (textB : list string) :
  net_document natts evss document ->
  Forall2 element_events
    (pre ++ [Layer tyA iA dA aA textA; SkipMarker t] ++ mid
         ++ [TagMarker t; Layer tyB iB dB aB textB] ++ post)%list evss ->
  parse_dlib_xml document = Ok ls ->
  t <> -1 ->
  tyA <> "input" ->
  Forall is_inner_layer mid ->
  find_input_layer_caffe_name ls (riter_at ls (length (filter is_layer_element pre)))
  = Ok (if String.eqb tyB "input" then "data" else dB ++ to_string iB).
Proof.
  intros Hdoc Hels Hparse Ht HtyA Hmid.
  destruct (parse_of_build natts _ evss document ls Hdoc Hels Hparse) as [[tf Hb] [Hne Hin]].
  rewrite build_app in Hb.
  destruct (build ([], -1) pre) as [[front t0] | e | ] eqn:Hpre; cbn [rbind] in Hb;
    try discriminate Hb.
  pose proof (build_count pre _ _ Hpre) as Hcount. cbn [fst length Nat.add] in Hcount.
  rewrite <- Hcount. clear Hcount Hpre.
  cbn [app build] in Hb.
  change (build_step (front, t0) (Layer tyA iA dA aA textA))
    with (Ok ((front ++ [mk_layer tyA iA dA aA (read_params dA textA) t0 (-1)])%list, -1))
    in Hb.
  cbn [rbind] in Hb. rewrite build_step_skip in Hb. cbn [rbind] in Hb.
  rewrite build_app in Hb.
  destruct (build_inner_layers mid Hmid
              (front ++ [with_skip_id
                           (mk_layer tyA iA dA aA (read_params dA textA) t0 (-1)) t])%list)
    as (records & Hbm & Hrec).
  rewrite Hbm in Hb. cbn [rbind app build] in Hb.
  cbn [build_step rbind fst snd] in Hb.
  destruct (build_extends post _ _ _ _ _ Hb) as (b' & tail & Hls & Hb1 & Hb2 & Hb3 & Hb4).
  cbn [type idx detail_name tag_id] in Hb1, Hb2, Hb3, Hb4.
  set (A := with_skip_id (mk_layer tyA iA dA aA (read_params dA textA) t0 (-1)) t) in *.
  assert (HA : nth_error ls (length front) = Some A).
  { rewrite Hls, <- !app_assoc, nth_error_app2 by lia.
    now rewrite Nat.sub_diag. }
  assert (HB : nth_error ls (length front + 1 + length records) = Some b').
  { rewrite Hls, <- !app_assoc, nth_error_app2 by lia.
    replace (length front + 1 + length records - length front)%nat
      with (S (length records)) by lia.
    cbn [app nth_error]. rewrite nth_error_app2 by lia.
    now rewrite Nat.sub_diag. }
  assert (Hpass : passes_stored ls (length front) (length front + 1 + length records) t).
  { intros m lm Hm Hlm. rewrite Hls, <- !app_assoc, nth_error_app2 in Hlm by lia.
    destruct (m - length front)%nat as [ | j] eqn:Ej; [ lia | ].
    cbn [app nth_error] in Hlm. rewrite nth_error_app1 in Hlm by lia.
    apply nth_error_In in Hlm. rewrite Forall_forall in Hrec.
    destruct (Hrec lm Hlm) as [Htag Hty]. split; [ lia | exact Hty ]. }
  unfold riter_at.
  rewrite (find_input_at_stored ls _ A HA). subst A. cbn [with_skip_id skip_id].
  rewrite (find_layer_scans _ _ _ Ht).
  pose proof (nth_error_bound _ _ _ HB) as Hbound.
  rewrite (skip_scan_found ls t (length ls - 1 - (length front + 1 + length records)) b').
  - unfold caffe_layer_name. now rewrite Hb1, Hb2, Hb3.
  - rewrite riter_layer_of_stored by lia. exact HB.
  - exact Hb4.
  - lia.
  - apply passes_of_stored; [ lia | exact Hpass ].
Qed.

(** ** The residual layer and the first failing layer *)

Lemma declare_add_prev (ls : list layer) (i : nat) (l : layer) :
  riter_layer ls i = Some l ->
  skipped l = false ->
  detail_name l = "add_prev" ->
  declare_layer ls i
  = obind (put_head ls i l "Eltwise") (fun _ =>
    obind (put ", n.") (fun _ =>
    obind (lift (attribute l "tag")) (fun tag =>
    obind (lift (find_layer_caffe_name ls i (double_to_long tag))) (fun name =>
    obind (put name) (fun _ =>
    obind (put ", operation=P.Eltwise.SUM") (fun _ => close_declaration)))))).
Proof.
  intros Hl Hs Hd. unfold declare_layer, detail_is. rewrite Hl, Hs, Hd. reflexivity.
Qed.

(** X20.  An add_prev record whose input reference resolves and which has
    a tag attribute is declared as an Eltwise sum of two inputs: its resolved
    input and the layer the resolver finds for the tag attribute, converted
    to an integer, from the same position; when that second resolution throws
    (no layer carries the tag before an input layer is reached), so does the
    translation. *)
Theorem add_prev_translation (ls : list layer) (i : nat) (l : layer)
  (name : string) (v : double) (s : string) :
  riter_layer ls i = Some l ->
  skipped l = false ->
  detail_name l = "add_prev" ->
  find_input_layer_caffe_name ls i = Ok name ->
  attribute l "tag" = Ok v ->
  (forall name2,
     find_layer_caffe_name ls i (double_to_long v) = Ok name2 ->
     declare_layer ls i s
     = (s ++ "    n." ++ caffe_layer_name l ++ " = L.Eltwise(n." ++ name
          ++ ", n." ++ name2 ++ ", operation=P.Eltwise.SUM" ++ ");" ++ endl,
        Ok tt)) /\
  (forall e,
     find_layer_caffe_name ls i (double_to_long v) = Throw e ->
     snd (declare_layer ls i s) = Throw e).
Proof.
  intros Hl Hs Hd Hin Htag. rewrite (declare_add_prev ls i l Hl Hs Hd).
  rewrite (obind_returns _ _ _ _ _ (put_head_runs ls i l "Eltwise" name s Hin)).
  rewrite obind_put, Htag, obind_lift_ok. split.
  - intros name2 H2. rewrite H2, obind_lift_ok, !obind_put.
    unfold close_declaration, put. now rewrite !append_assoc.
  - intros e He. rewrite He. reflexivity.
Qed.

Lemma for_each_app {A} (xs ys : list A) (body : A -> ostream unit) (s : string) :
  for_each (xs ++ ys) body s
  = obind (for_each xs body) (fun _ => for_each ys body) s.
Proof.
  revert s. induction xs as [ | x xs IH]; intros s; [ reflexivity | ].
  cbn [app for_each]. unfold obind at 1 2 3.
  destruct (body x s) as [s1 [[] | e | ]]; [ | reflexivity | reflexivity ].
  rewrite IH. reflexivity.
Qed.

Lemma for_each_succeeds {A} (xs : list A) (body : A -> ostream unit) :
  (forall x, In x xs -> forall s, snd (body x s) = Ok tt) ->
  forall s, snd (for_each xs body s) = Ok tt.
Proof.
  induction xs as [ | x xs IH]; intros Hbody s; [ reflexivity | ].
  cbn [for_each]. unfold obind.
  pose proof (Hbody x (or_introl eq_refl) s) as Hx.
  destruct (body x s) as [s1 r1]. cbn [snd] in Hx. subst r1.
  apply IH. intros y Hy. apply Hbody. now right.
Qed.

Lemma obind_after {B} (m : ostream unit) (k : unit -> ostream B) (s : string) :
  snd (m s) = Ok tt -> obind m k s = k tt (fst (m s)).
Proof.
  unfold obind. destruct (m s) as [s1 r1]. cbn [fst snd]. intros ->. reflexivity.
Qed.

Lemma obind_fails {A B} (m : ostream A) (k : A -> ostream B) (s : string)
  (e : exception) :
  snd (m s) = Throw e -> snd (obind m k s) = Throw e.
Proof.
  unfold obind. destruct (m s) as [s1 r1]. cbn [snd]. intros ->. reflexivity.
Qed.

Lemma for_each_first_failure (ls : list layer) (i : nat) (e : exception) (s : string) :
  (i < length ls)%nat ->
  (forall j, (j < i)%nat -> forall s', snd (declare_layer ls j s') = Ok tt) ->
  (forall s', snd (declare_layer ls i s') = Throw e) ->
  snd (for_each (seq 0 (length ls)) (declare_layer ls) s) = Throw e.
Proof.
  intros Hi Hbefore Hfail.
  replace (length ls) with (i + (length ls - i))%nat by lia.
  rewrite seq_app, for_each_app. unfold obind.
  pose proof (for_each_succeeds (seq 0 i) (declare_layer ls)) as Hok.
  specialize (Hok (fun j Hj => Hbefore j (proj2 (proj1 (in_seq _ _ _) Hj))) s).
  destruct (for_each (seq 0 i) (declare_layer ls) s) as [s1 r1]. cbn [snd] in Hok.
  subst r1. cbn [Nat.add].
  destruct (length ls - i)%nat as [ | n] eqn:En; [ lia | ].
  cbn [seq for_each]. unfold obind.
  pose proof (Hfail s1) as Hi1.
  destruct (declare_layer ls i s1) as [s2 r2]. cbn [snd] in Hi1. subst r2. reflexivity.
Qed.

(** X21.  When the input dimensions are written, a conversion fails with
    the error of the first layer, counted from the input layer, whose
    declaration fails: layers nearer to the output are not looked at. *)
Theorem conversion_first_failure (xml_filename : string) (document : list xml_event)
  (ls : list layer) (i : nat) (e : exception) :
  parse_dlib_xml document = Ok ls ->
  (forall s, snd (input_dimensions (last ls empty_layer) s) = Ok tt) ->
  (i < length ls)%nat ->
  (forall j, (j < i)%nat -> forall s, snd (declare_layer ls j s) = Ok tt) ->
  (forall s, snd (declare_layer ls i s) = Throw e) ->
  outcome (convert_dlib_xml_to_cafffe_python_code xml_filename document) = Throw e.
Proof.
  intros Hparse Hdims Hi Hbefore Hfail.
  unfold convert_dlib_xml_to_cafffe_python_code. cbn [outcome].
  unfold write_model. rewrite Hparse, obind_lift_ok.
  do 5 rewrite obind_put.
  rewrite (obind_after _ _ _ (Hdims _)).
  do 6 rewrite obind_put.
  apply obind_fails. exact (for_each_first_failure ls i e _ Hi Hbefore Hfail).
Qed.

End FurtherProperties.

(** ** The further properties at the sample documents *)

Lemma resolver_in_contract_witness :
  parse_dlib_xml chain_document = Ok chain_layers /\
  ((exists name, find_layer_caffe_name chain_layers (riter_at chain_layers 1) 77 = Ok name) \/
   find_layer_caffe_name chain_layers (riter_at chain_layers 1) 77 = Throw skip_error).
Proof.
  split; [ reflexivity | ].
  apply (@resolver_in_contract sample_numeric chain_document chain_layers 1
           (sample_layer "comp" 1 "fc_no_bias" [("num_outputs", 10)] [] (-1) (-1)) 77).
  - reflexivity.
  - reflexivity.
  - discriminate.
Defined.

Lemma print_as_np_array_text_witness :
  @print_as_np_array sample_numeric [] "p = " = ("p = np.array([], dtype='float32')", Ok tt) /\
  @print_as_np_array sample_numeric [[1; 2]; [3; 4]] ""
  = ("np.array([1,2,3,4,], dtype='float32')", Ok tt).
Proof.
  split.
  - apply (proj2 (@print_as_np_array_text sample_numeric [] "p = ")). reflexivity.
  - rewrite (proj1 (@print_as_np_array_text sample_numeric [[1; 2]; [3; 4]] "")).
    reflexivity.
Defined.

Lemma conversion_in_contract_witness :
  outcome (@convert_dlib_xml_to_cafffe_python_code sample_numeric "net.xml" con_document)
  = Undefined /\
  ((exists pre name rest (dh : @doc_handler sample_numeric),
      con_document = (pre ++ EndElement name :: rest)%list /\
      parse_xml pre new_doc_handler = Ok dh /\ current_tag dh = []) \/
   exists (ls : list (@layer sample_numeric)) l,
     parse_dlib_xml con_document = Ok ls /\ In l ls /\
     skipped l = false /\ relayout l = Undefined).
Proof.
  split; [ reflexivity | ].
  apply (@conversion_in_contract sample_numeric "net.xml" con_document);
    [ reflexivity | ].
  intros ls Hparse l v Hin Hs Hcase.
  assert (Hp : parse_dlib_xml con_document = Ok con_document_layers) by reflexivity.
  rewrite Hp in Hparse. injection Hparse as <-.
  destruct Hin as [<- | [<- | []]]; [ | discriminate Hs ].
  destruct Hcase as [[Hd Ha] | [Hd Ha]]; [ discriminate Hd | ].
  injection Ha as <-. reflexivity.
Defined.

Lemma unknown_detail_rejected_witness :
  In "prelu" comp_tags_with_params /\
  declare_layer prelu_layers 1 "    n = caffe.NetSpec(); "
  = ("    n = caffe.NetSpec(); ",
     Throw (error "No known transformation from dlib's prelu layer to caffe.")).
Proof.
  split; [ cbn; tauto | ].
  apply (@unknown_detail_rejected sample_numeric prelu_layers 1
           (sample_layer "comp" 0 "prelu" [] [[1]] (-1) (-1))).
  - reflexivity.
  - reflexivity.
  - cbn. intros H. repeat (destruct H as [H | H]; [ discriminate H | ]). exact H.
Defined.

Lemma weights_after_declaration_witness :
  snd (declare_layer con_filters_layers 1 "") = Ok tt /\
  snd (set_layer_weights con_filters_layers 1 "") = Ok tt /\
  relayout (sample_layer "comp" 0 "con"
              [("padding_x", 0); ("padding_y", 0); ("stride_x", 1); ("stride_y", 1);
               ("nc", 3); ("nr", 3); ("num_filters", 2)] [[1]; [2]; [3]; [4]; [5]]
              (-1) (-1))
  <> Throw (error "") /\
  snd (set_layer_weights con_filters_layers 1 "") <> Throw (error "").
Proof.
  split; [ reflexivity | ]. split; [ reflexivity | ].
  apply (@weights_after_declaration sample_numeric con_filters_layers 1
           (sample_layer "comp" 0 "con"
              [("padding_x", 0); ("padding_y", 0); ("stride_x", 1); ("stride_y", 1);
               ("nc", 3); ("nr", 3); ("num_filters", 2)] [[1]; [2]; [3]; [4]; [5]]
              (-1) (-1))
           "" "" (error "")).
  - reflexivity.
  - reflexivity.
  - reflexivity.
Defined.

Lemma con_relayout_order_witness :
  exists w b, relayout con_layer = Ok [w; b] /\
              (elements w ++ elements b)%list = [1; 2; 3; 4; 5] /\
              Z.of_nat (length (elements b)) = 2.
Proof.
  apply (@con_relayout_order sample_numeric con_layer 2).
  - reflexivity.
  - reflexivity.
  - intros r Hr. cbn in Hr. intuition (subst; reflexivity).
  - cbn. lia.
Defined.

Lemma affine_relayout_halves_witness :
  exists gamma beta, relayout affine_layer = Ok [gamma; beta] /\
                     elements gamma = [1; 2] /\ elements beta = [3; 4].
Proof.
  apply (@affine_relayout_halves sample_numeric affine_layer 2).
  - left. reflexivity.
  - intros r Hr. cbn in Hr. intuition (subst; reflexivity).
  - lia.
  - reflexivity.
Defined.

Lemma rejected_document_conversion_witness :
  fout (@convert_dlib_xml_to_cafffe_python_code sample_numeric "net.xml"
          [StartElement "net" []; EndElement "net"]) = "" /\
  outcome (@convert_dlib_xml_to_cafffe_python_code sample_numeric "net.xml"
             [StartElement "net" []; EndElement "net"])
  = Throw (error "No layers found in XML file!").
Proof.
  destruct (@rejected_document_conversion sample_numeric "net.xml"
              [StartElement "net" []; EndElement "net"]) as (Hfout & Hthrow & _).
  - intros ls. discriminate.
  - split; [ exact Hfout | ]. apply Hthrow. reflexivity.
Defined.

Lemma main_stops_at_first_failure_witness :
  @main sample_numeric
    [("a.xml", chain_document); ("b.xml", pyramid_document); ("c.xml", chain_document)]
  = ([@convert_dlib_xml_to_cafffe_python_code sample_numeric "a.xml" chain_document;
      @convert_dlib_xml_to_cafffe_python_code sample_numeric "b.xml" pyramid_document],
     Ok 1).
Proof.
  apply (@main_stops_at_first_failure sample_numeric
           [("a.xml", chain_document)] [("c.xml", chain_document)]
           "b.xml" pyramid_document
           (error "No known transformation from dlib's input_rgb_image_pyramid layer to caffe.")).
  - constructor; [ reflexivity | constructor ].
  - reflexivity.
Defined.

Lemma main_exit_status_witness :
  snd (@main sample_numeric [("a.xml", chain_document)]) = Ok 0 /\
  fst (@main sample_numeric [("a.xml", chain_document)])
  = [@convert_dlib_xml_to_cafffe_python_code sample_numeric "a.xml" chain_document].
Proof.
  destruct (@main_exit_status sample_numeric [("a.xml", chain_document)])
    as [Hstatus Hfiles].
  assert (Hall : Forall (@converts sample_numeric) [("a.xml", chain_document)])
    by (constructor; [ reflexivity | constructor ]).
  split; [ apply Hstatus, Hall | apply Hfiles, Hall ].
Defined.

Lemma skip_marker_element_witness :
  exists dh',
    dispatch (@mk_doc_handler sample_numeric
                [sample_layer "comp" 0 "relu" [] [] (-1) 4] true empty_layer ["net"] 9)
      [StartElement "layer" [("idx", "1"); ("type", "skip"); ("id", "2")];
       EndElement "layer"] = Ok dh' /\
    layers dh' = [sample_layer "comp" 0 "relu" [] [] (-1) 2] /\
    dh_tag_id dh' = 9 /\ current_tag dh' = ["net"] /\ seen_first_tag dh' = true.
Proof.
  apply (proj2 (@skip_marker_element sample_numeric
                  (mk_doc_handler [sample_layer "comp" 0 "relu" [] [] (-1) 4] true
                     empty_layer ["net"] 9)
                  [("idx", "1"); ("type", "skip"); ("id", "2")] 2 eq_refl
                  (conj eq_refl (ex_intro _ "2" (conj eq_refl eq_refl))))
           [] (sample_layer "comp" 0 "relu" [] [] (-1) 4)).
  reflexivity.
Defined.

Lemma root_must_be_net_witness :
  @parse_dlib_xml sample_numeric
    [ProcessingInstruction "xml" "version='1.0'"; Characters " ";
     StartElement "network" []; EndElement "network"]
  = Throw (error "The top level XML tag must be a 'net' tag.").
Proof.
  apply (@root_must_be_net sample_numeric
           [ProcessingInstruction "xml" "version='1.0'"; Characters " "]
           [EndElement "network"] "network" []).
  - repeat constructor.
  - discriminate.
Defined.

Lemma records_are_layers_witness :
  parse_dlib_xml tagged_input_document = Ok tagged_input_layers /\
  forall l, In l tagged_input_layers -> type l <> "" /\ type l <> "skip" /\ type l <> "tag".
Proof.
  split; [ reflexivity | ].
  apply (@records_are_layers sample_numeric tagged_input_document tagged_input_layers).
  reflexivity.
Defined.

Lemma detail_attributes_round_trip_witness :
  exists dh',
    start_detail (@mk_doc_handler sample_numeric [] true
                    (sample_layer "comp" 3 "" [] [] (-1) (-1)) ["layer"; "net"] (-1))
      "max_pool" [("nr", "2"); ("nc", "3")] = Ok dh' /\
    detail_name (next_layer dh') = "max_pool" /\
    attribute (next_layer dh') "nc" = Ok 3 /\
    attribute (next_layer dh') "stride_x"
    = Throw (error "Layer doesn't have the requested attribute 'stride_x'.").
Proof.
  eexists. split; [ reflexivity | ].
  destruct (@detail_attributes_round_trip sample_numeric
              (mk_doc_handler [] true (sample_layer "comp" 3 "" [] [] (-1) (-1))
                 ["layer"; "net"] (-1))
              (mk_doc_handler [] true
                 (sample_layer "comp" 3 "max_pool" [("nc", 3); ("nr", 2)] [] (-1) (-1))
                 ["layer"; "net"] (-1))
              "max_pool" [("nr", "2"); ("nc", "3")])
    as (Hname & Hfound & Hmissing).
  - reflexivity.
  - repeat constructor; cbn; intuition discriminate.
  - reflexivity.
  - split; [ exact Hname | ]. split.
    + reflexivity.
    + apply (Hmissing "stride_x"). cbn. intuition discriminate.
Defined.

Lemma generated_names_differ_witness :
  idx (sample_layer "comp" 12 "relu" [] [] (-1) (-1))
  = idx (sample_layer "comp" 12 "relu" [] [[4]] 3 (-1)).
Proof.
  apply (@generated_names_differ sample_numeric).
  - discriminate.
  - discriminate.
  - reflexivity.
  - reflexivity.
Defined.

Lemma tagged_input_events_are_elements :
  Forall2 (@element_events sample_numeric) tagged_input_elements tagged_input_events.
Proof.
  repeat constructor; cbn [element_events].
  - exists [("idx", "0"); ("type", "comp")], [],
      [Characters endl], [], [Characters endl], [Characters endl].
    repeat split; try reflexivity; try discriminate; try (repeat constructor).
    exists "0". split; reflexivity.
  - exists [("idx", "1"); ("type", "skip"); ("id", "2")], [], [Characters endl].
    repeat split; try reflexivity; try (repeat constructor).
    exists "2". split; reflexivity.
  - exists [("idx", "2"); ("type", "tag"); ("id", "9")], [], [Characters endl].
    repeat split; try reflexivity; try (repeat constructor).
    exists "9". split; reflexivity.
  - exists [("idx", "3"); ("type", "tag"); ("id", "2")], [], [Characters endl].
    repeat split; try reflexivity; try (repeat constructor).
    exists "2". split; reflexivity.
  - exists [("idx", "4"); ("type", "input")], [],
      [Characters endl], [], [Characters endl], [Characters endl].
    repeat split; try reflexivity; try discriminate; try (repeat constructor).
    exists "4". split; reflexivity.
  - exists [("idx", "5"); ("type", "tag"); ("id", "7")], [], [Characters endl].
    repeat split; try reflexivity; try (repeat constructor).
    exists "7". split; reflexivity.
Defined.

Lemma tagged_input_written_is_net_document :
  net_document [] tagged_input_events tagged_input_written_document.
Proof.
  exists [ProcessingInstruction "xml" "version='1.0'"; Characters endl],
    [Characters endl], [Characters endl].
  repeat split; repeat constructor.
Defined.

Lemma net_document_builds_witness :
  rbind (parse_xml tagged_input_written_document new_doc_handler)
    (fun dh => Ok (layers dh, dh_tag_id dh))
  = build ([], -1) tagged_input_elements /\
  build ([], -1) tagged_input_elements = Ok (tagged_input_layers, 7).
Proof.
  split; [ | reflexivity ].
  apply (@net_document_builds sample_numeric [] tagged_input_elements
           tagged_input_events tagged_input_written_document
           tagged_input_written_is_net_document tagged_input_events_are_elements).
Defined.

Lemma net_document_count_witness :
  parse_dlib_xml tagged_input_written_document = Ok tagged_input_layers /\
  length tagged_input_layers = length (filter is_layer_element tagged_input_elements).
Proof.
  split; [ reflexivity | ].
  apply (@net_document_count sample_numeric [] tagged_input_elements
           tagged_input_events tagged_input_written_document tagged_input_layers
           tagged_input_written_is_net_document tagged_input_events_are_elements).
  reflexivity.
Defined.

Lemma chain_events_are_elements :
  Forall2 (@element_events sample_numeric) chain_elements chain_events.
Proof.
  repeat constructor; cbn [element_events].
  - exists [("idx", "0"); ("type", "loss")], [],
      [Characters endl], [], [Characters endl], [Characters endl].
    repeat split; try reflexivity; try discriminate; try (repeat constructor).
    exists "0". split; reflexivity.
  - exists [("idx", "1"); ("type", "comp")], [("num_outputs", "10")],
      [Characters endl],
      [Characters (String (ascii_of_nat 10) "0.5 0.25 "); Characters "0.125"],
      [Characters endl], [Characters endl].
    repeat split; try reflexivity; try discriminate; try (repeat constructor).
    exists "1". split; reflexivity.
  - exists [("idx", "2"); ("type", "comp")], [],
      [Characters endl], [], [Characters endl], [Characters endl].
    repeat split; try reflexivity; try discriminate; try (repeat constructor).
    exists "2". split; reflexivity.
  - exists [("idx", "3"); ("type", "skip"); ("id", "1")], [], [Characters endl].
    repeat split; try reflexivity; try (repeat constructor).
    exists "1". split; reflexivity.
  - exists [("idx", "4"); ("type", "comp")], [],
      [Characters endl], [], [Characters endl], [Characters endl].
    repeat split; try reflexivity; try discriminate; try (repeat constructor).
    exists "4". split; reflexivity.
  - exists [("idx", "5"); ("type", "tag"); ("id", "1")], [], [Characters endl].
    repeat split; try reflexivity; try (repeat constructor).
    exists "1". split; reflexivity.
  - exists [("idx", "6"); ("type", "comp")],
      [("nr", "2"); ("nc", "2"); ("stride_y", "2"); ("stride_x", "2");
       ("padding_y", "0"); ("padding_x", "0")],
      [Characters endl], [], [Characters endl], [Characters endl].
    repeat split; try reflexivity; try discriminate; try (repeat constructor).
    exists "6". split; reflexivity.
  - exists [("idx", "7"); ("type", "input")], [],
      [Characters endl], [], [Characters endl], [Characters endl].
    repeat split; try reflexivity; try discriminate; try (repeat constructor).
    exists "7". split; reflexivity.
Defined.

Lemma chain_written_is_net_document :
  net_document [] chain_events chain_written_document.
Proof.
  exists [ProcessingInstruction "xml" "version='1.0'"; Characters endl],
    [Characters endl], [Characters endl].
  repeat split; repeat constructor.
Defined.

Lemma skip_resolves_to_tagged_layer_witness :
  parse_dlib_xml chain_written_document = Ok chain_layers /\
  find_input_layer_caffe_name chain_layers (riter_at chain_layers 2) = Ok "max_pool6".
Proof.
  split; [ reflexivity | ].
  apply (@skip_resolves_to_tagged_layer sample_numeric []
           [@Layer sample_numeric "loss" 0 "loss_multiclass_log" [] [];
            @Layer sample_numeric "comp" 1 "fc_no_bias" [("num_outputs", 10)]
              [String (ascii_of_nat 10) "0.5 0.25 "; "0.125"]]
           [@Layer sample_numeric "comp" 4 "relu" [] []]
           [@Layer sample_numeric "input" 7 "input_rgb_image" [] []]
           chain_events chain_written_document chain_layers 1
           "comp" "relu" 2 [] []
           "comp" "max_pool" 6
           [("padding_x", 0); ("padding_y", 0); ("stride_x", 2); ("stride_y", 2);
            ("nc", 2); ("nr", 2)] []).
  - exact chain_written_is_net_document.
  - exact chain_events_are_elements.
  - reflexivity.
  - discriminate.
  - discriminate.
  - repeat constructor. discriminate.
Defined.

Lemma add_prev_translation_witness :
  declare_layer residual_layers 3 ""
  = ("    n.add_prev0 = L.Eltwise(n.relu1, n.relu3, operation=P.Eltwise.SUM);" ++ endl,
     Ok tt).
Proof.
  apply (proj1 (@add_prev_translation sample_numeric residual_layers 3
                  (sample_layer "comp" 0 "add_prev" [("tag", 1)] [] (-1) (-1))
                  "relu1" 1 "" eq_refl eq_refl eq_refl eq_refl eq_refl)
           "relu3").
  reflexivity.
Defined.

(** The layer without a translation stands nearer to the output than the
    batch normalisation layer: the error is the one of the latter. *)
Lemma conversion_first_failure_witness :
  outcome (@convert_dlib_xml_to_cafffe_python_code sample_numeric "net.xml"
             batch_norm_document)
  = Throw batch_norm_error.
Proof.
  apply (@conversion_first_failure sample_numeric "net.xml" batch_norm_document
           batch_norm_layers 2 batch_norm_error).
  - reflexivity.
  - intros s. reflexivity.
  - cbn. lia.
  - intros j Hj s. destruct j as [ | [ | j]]; [ reflexivity | reflexivity | lia ].
  - intros s. reflexivity.
Defined.
